(** * DDPG trainer (ml/rl/training/ddpg_trainer.py): a shallow embedding

    The development follows the Python module top to bottom:
    - [Py]: the exceptions the module can raise and the error monad;
    - [Tensor]: numpy / torch values over the reals (tensor entries are
      idealised as real numbers: rounding, infinities and NaN of float32
      are outside this part of the model);
    - [Float]: float32 values with infinities and NaN, for the masking
      of the Bellman target, whose result depends on them;
    - [Torch]: the object store of parameter tensors, [nn.Linear],
      [nn.BatchNorm1d], optimizers, and the library primitives the module
      calls but does not define (batch normalisation, the activation table
      [torch.nn.functional], random initialisation, autograd, Adam), kept
      as the fields of a class;
    - [Noise]: [OrnsteinUhlenbeckProcessNoise];
    - [Nets]: [ActorNet], [CriticNet], [fan_in_init];
    - [Trainer]: [DDPGTrainer].
    The theorems come after the definitions. *)

From Stdlib Require Import Reals Lra Lia List String ZArith Bool.
From stdpp Require Import base option list gmap.
Import ListNotations.

Set Default Proof Using "Type".

(* ------------------------------------------------------------------ *)
(** ** Python exceptions and the error monad *)

Module Py.

Inductive exn : Type :=
| NotImplementedError (msg : string)
| AssertionError (msg : string)
| IndexError
| TypeError
| AttributeError (name : string)
| RuntimeError.

(** A computation either raises or returns. *)
Definition result (A : Type) : Type := exn + A.

Definition ret {A} (a : A) : result A := inr a.
Definition raise {A} (e : exn) : result A := inl e.

Definition bind {A B} (m : result A) (k : A -> result B) : result B :=
  match m with
  | inl e => inl e
  | inr a => k a
  end.

Definition raises {A} (m : result A) : Prop := exists e, m = inl e.

(** The exceptions of tensor code: everything but the two the
    constructors raise on a bad configuration. *)
Definition at_run_time (e : exn) : Prop :=
  match e with
  | NotImplementedError _ | AssertionError _ => False
  | _ => True
  end.

Definition raises_only {A} (P : exn -> Prop) (m : result A) : Prop :=
  forall e, m = inl e -> P e.

(** [seq[i]] on a tuple or list, for a non-negative index. *)
Definition getitem {A} (l : list A) (i : nat) : result A :=
  match l !! i with
  | Some a => ret a
  | None => raise IndexError
  end.

(** [seq[-1] = v] and [seq[0] = v] on a list. *)
Definition setitem_first {A} (l : list A) (v : A) : result (list A) :=
  match l with
  | [] => raise IndexError
  | _ :: _ => ret (<[0%nat := v]> l)
  end.

Definition setitem_last {A} (l : list A) (v : A) : result (list A) :=
  match l with
  | [] => raise IndexError
  | _ :: _ => ret (<[Nat.pred (length l) := v]> l)
  end.

(** [for x in xs: body], threading a state and stopping at the first
    exception. *)
Fixpoint for_each {A S} (body : S -> A -> result S) (xs : list A) (s : S)
  : result S :=
  match xs with
  | [] => ret s
  | x :: xs' => bind (body s x) (for_each body xs')
  end.

(** [enumerate(xs)]. *)
Definition enumerate {A} (xs : list A) : list (nat * A) :=
  combine (seq 0 (length xs)) xs.

End Py.

Declare Scope py_scope.
Delimit Scope py_scope with py.
Notation "'let*' x ':=' m 'in' k" := (Py.bind m (fun x => k))
  (at level 10, x pattern, m at level 100, k at level 200) : py_scope.
Open Scope py_scope.

(* ------------------------------------------------------------------ *)
(** ** Arrays and tensors *)

Module Tensor.

Local Open Scope R_scope.

Abbreviation vec := (list R).
Abbreviation mat := (list (list R)).

(** A torch tensor of rank one or two. *)
Inductive tensor : Type :=
| T1 (v : vec)
| T2 (m : mat).

(** The rank of a tensor with its sizes: the length at rank one, the
    number of rows and the length of every row at rank two. *)
Definition shape (t : tensor) : nat * list nat :=
  match t with
  | T1 v => (1%nat, [length v])
  | T2 m => (2%nat, length m :: map (@length R) m)
  end.

(** [c * t] for a Python scalar [c]. *)
Definition scale (c : R) (t : tensor) : tensor :=
  match t with
  | T1 v => T1 (map (Rmult c) v)
  | T2 m => T2 (map (map (Rmult c)) m)
  end.

Definition zip_with_vec (f : R -> R -> R) (u v : vec) : vec :=
  map (fun p => f (fst p) (snd p)) (combine u v).

Definition same_shape (a b : tensor) : Prop := shape a = shape b.

#[global] Instance same_shape_dec a b : Decision (same_shape a b).
Proof. unfold same_shape. apply _. Defined.

(** An elementwise binary operation on two tensors of the same shape.
    Operands of different shapes raise; torch would first try to
    broadcast them, which the parameter tensors of a network and of its
    deep copy never need. *)
Definition elementwise (f : R -> R -> R) (a b : tensor) : Py.result tensor :=
  if decide (same_shape a b) then
    match a, b with
    | T1 u, T1 v => Py.ret (T1 (zip_with_vec f u v))
    | T2 m, T2 n =>
        Py.ret (T2 (map (fun p => zip_with_vec f (fst p) (snd p)) (combine m n)))
    | _, _ => Py.raise Py.RuntimeError
    end
  else Py.raise Py.RuntimeError.

Definition add : tensor -> tensor -> Py.result tensor := elementwise Rplus.

(** Entry [ix] of a tensor: [t[i]] at rank one, [t[i, j]] at rank two. *)
Definition entry (t : tensor) (i j : nat) : option R :=
  match t with
  | T1 v => v !! i
  | T2 m => row ← m !! i; row !! j
  end.

(** One-dimensional arithmetic with torch's broadcasting rule: equal
    lengths combine pointwise, a length-one operand is stretched, any
    other pair raises. *)
Definition broadcast (f : R -> R -> R) (u v : vec) : Py.result vec :=
  if decide (length u = length v) then Py.ret (zip_with_vec f u v)
  else match u, v with
       | [x], _ => Py.ret (map (f x) v)
       | _, [y] => Py.ret (map (fun x => f x y) u)
       | _, _ => Py.raise Py.RuntimeError
       end.

(** [torch.cat((a, b), dim=1)] on two batches. *)
Definition cat1 (a b : mat) : Py.result mat :=
  if decide (length a = length b)
  then Py.ret (map (fun p => fst p ++ snd p) (combine a b))
  else Py.raise Py.RuntimeError.

(** [x[:, :k]] and [x[:, k:]]. *)
Definition cols_to (k : nat) (x : mat) : mat := map (take k) x.
Definition cols_from (k : nat) (x : mat) : mat := map (drop k) x.

(** [.squeeze()] of a batch of one-element rows. A batch with a wider
    row keeps rank two in torch and is outside what [train] handles. *)
Fixpoint squeeze (x : mat) : Py.result vec :=
  match x with
  | [] => Py.ret []
  | [a] :: rest => let* v := squeeze rest in Py.ret (a :: v)
  | _ :: _ => Py.raise Py.RuntimeError
  end.

(** [x.pow(y)] on scalars, where the result is a real number: a
    positive base uses [exp (y * ln x)]; base zero gives 1 at exponent
    zero and 0 at a positive exponent; a negative base is defined at
    integer exponents. Elsewhere torch returns inf or NaN, and the
    model returns 0. *)
Definition pow (x y : R) : R :=
  if Rlt_dec 0 x then Rpower x y
  else if Req_dec_T x 0 then (if Req_dec_T y 0 then 1 else 0)
  else if Req_dec_T (IZR (Int_part y)) y then powerRZ x (Int_part y)
  else 0.

(** [.sum()] and [F.mse_loss] (mean reduction). *)
Definition sum (v : vec) : R := fold_right Rplus 0 v.

Definition mse_loss (input target : vec) : Py.result R :=
  let* d := broadcast (fun a b => (a - b) * (a - b)) input target in
  Py.ret (sum d / INR (length d)).

End Tensor.

(* ------------------------------------------------------------------ *)
(** ** Floating-point values

    What an entry of a float32 tensor can be: a number, an infinity or
    NaN, with the arithmetic of IEEE 754 on infinities and NaN. On two
    numbers the operations are those of the real numbers, which leaves
    rounding and overflow out. The networks and their parameters are
    modelled over the real numbers; this type is for the lines of
    [train] whose result depends on what a non-finite operand does. *)

Module Float.

Local Open Scope R_scope.

Inductive float : Type :=
| Finite (x : R)
| Inf (negative : bool)
| NaN.

Definition is_finite (a : float) : Prop :=
  match a with
  | Finite _ => True
  | _ => False
  end.

Definition negative (x : R) : bool := if Rlt_dec x 0 then true else false.

(** [a * b]: zero times an infinity is NaN. *)
Definition mul (a b : float) : float :=
  match a, b with
  | NaN, _ | _, NaN => NaN
  | Finite x, Finite y => Finite (x * y)
  | Finite x, Inf s | Inf s, Finite x =>
      if Req_dec_T x 0 then NaN else Inf (xorb s (negative x))
  | Inf s, Inf s' => Inf (xorb s s')
  end.

(** [a + b]: infinities of opposite sign add to NaN. *)
Definition add (a b : float) : float :=
  match a, b with
  | NaN, _ | _, NaN => NaN
  | Finite x, Finite y => Finite (x + y)
  | Finite _, Inf s | Inf s, Finite _ => Inf s
  | Inf s, Inf s' => if Bool.eqb s s' then Inf s else NaN
  end.

(** One-dimensional arithmetic with torch's broadcasting rule, as
    [Tensor.broadcast] has it, for entries of any type. *)
Definition broadcast {A B C} (f : A -> B -> C) (u : list A) (v : list B)
  : Py.result (list C) :=
  if decide (length u = length v)
  then Py.ret (map (fun p => f (fst p) (snd p)) (combine u v))
  else match u, v with
       | [x], _ => Py.ret (map (f x) v)
       | _, [y] => Py.ret (map (fun x => f x y) u)
       | _, _ => Py.raise Py.RuntimeError
       end.

End Float.

(* ------------------------------------------------------------------ *)
(** ** The torch library: parameters, layers, optimizers *)

Module Torch.

Import Tensor.
Local Open Scope R_scope.

(** *** The store of parameter tensors

    A [Parameter] is an object: two modules may hold the same one, and
    [copy_] writes into it. The store lists the tensors that exist, and
    a parameter is its index there. Parameters are created and never
    freed. *)
Abbreviation param := nat.
Abbreviation heap := (list tensor).

Definition alloc (t : tensor) (h : heap) : param * heap :=
  (length h, h ++ [t]).

(** [p.data] *)
Definition data (h : heap) (p : param) : Py.result tensor :=
  match h !! p with
  | Some t => Py.ret t
  | None => Py.raise Py.RuntimeError
  end.

(** [p.data.copy_(t)]: the object stays, its contents change. *)
Definition copy_ (p : param) (t : tensor) (h : heap) : heap := <[p := t]> h.

(** [p.grad] for every parameter: absent ([None]) until a backward pass
    reaches the parameter. *)
Abbreviation grads := (gmap param tensor).

(** *** Library primitives

    What the module calls and torch implements. [generator] is the
    state of torch's random number generator. *)
Class Backend : Type := {
  generator : Type;
  (** [init.uniform_(t, a, b)]: new contents for [t], of its shape. *)
  uniform_ : tensor -> R -> R -> generator -> tensor * generator;
  (** The initial weight and bias of [nn.Linear(n_in, n_out)]. *)
  linear_reset_parameters : nat -> nat -> generator -> (mat * vec) * generator;
  (** The initial weight and bias of [nn.BatchNorm1d(n)]. *)
  batch_norm_reset_parameters : nat -> generator -> (vec * vec) * generator;
  (** [F.batch_norm] on a batch, in training or evaluation mode, with
      the module's weight and bias; [None] where torch raises (a width
      other than [num_features], a single row in training mode). The
      running statistics, which training mode updates and evaluation
      mode normalises with, are buffers and not parameters: they stay
      inside this primitive, and the store holds parameters only. *)
  batch_norm : bool -> tensor -> tensor -> mat -> option mat;
  (** [getattr(F, name)] for the names that take one tensor; [None] is
      an [AttributeError]. *)
  functional : string -> option (mat -> mat);
  (** The derivative of a scalar loss with respect to one parameter, at
      the current contents of the store. *)
  gradient : (heap -> Py.result R) -> heap -> param -> tensor;
  (** Adam's state for one parameter and its update of that parameter:
      learning rate, weight decay, state, contents, gradient. *)
  adam_state : Type;
  adam_init : adam_state;
  adam_update : R -> R -> adam_state -> tensor -> tensor -> tensor * adam_state;
}.

(** *** nn.Linear *)
Record Linear : Type := {
  in_features : nat;
  out_features : nat;
  weight : param;
  bias : param;
}.

Definition dot (u v : vec) : R := sum (zip_with_vec Rmult u v).

(** One row through [x @ W.T + b]. *)
Definition affine (W : mat) (b : vec) (x : vec) : Py.result vec :=
  if decide (Forall (fun w => length w = length x) W /\ length W = length b)
  then Py.ret (map (fun wb => dot x (fst wb) + snd wb) (combine W b))
  else Py.raise Py.RuntimeError.

Fixpoint map_result {A B} (f : A -> Py.result B) (l : list A)
  : Py.result (list B) :=
  match l with
  | [] => Py.ret []
  | a :: l' =>
      let* b := f a in
      let* bs := map_result f l' in
      Py.ret (b :: bs)
  end.

Definition Linear_forward (h : heap) (fc : Linear) (x : mat) : Py.result mat :=
  let* w := data h (weight fc) in
  let* b := data h (bias fc) in
  match w, b with
  | T2 W, T1 bv => map_result (affine W bv) x
  | _, _ => Py.raise Py.RuntimeError
  end.

(** *** nn.BatchNorm1d *)
Record BatchNorm1d : Type := {
  num_features : nat;
  bn_weight : param;
  bn_bias : param;
}.

Definition BatchNorm1d_forward `{Backend} (training : bool) (h : heap)
    (bn : BatchNorm1d) (x : mat) : Py.result mat :=
  let* w := data h (bn_weight bn) in
  let* b := data h (bn_bias bn) in
  match batch_norm training w b x with
  | Some y => Py.ret y
  | None => Py.raise Py.RuntimeError
  end.

(** Constructors: the parameters are new objects. *)
Definition new_Linear `{Backend} (n_in n_out : nat) (s : heap * generator)
  : Linear * (heap * generator) :=
  let '(h, g) := s in
  let '((w, b), g) := linear_reset_parameters n_in n_out g in
  let '(pw, h) := alloc (T2 w) h in
  let '(pb, h) := alloc (T1 b) h in
  ({| in_features := n_in; out_features := n_out; weight := pw; bias := pb |},
   (h, g)).

Definition new_BatchNorm1d `{Backend} (n : nat) (s : heap * generator)
  : BatchNorm1d * (heap * generator) :=
  let '(h, g) := s in
  let '((w, b), g) := batch_norm_reset_parameters n g in
  let '(pw, h) := alloc (T1 w) h in
  let '(pb, h) := alloc (T1 b) h in
  ({| num_features := n; bn_weight := pw; bn_bias := pb |}, (h, g)).

(** [init.uniform_(p, a, b)] on a parameter, in place. *)
Definition init_uniform_ `{Backend} (p : param) (a b : R) (s : heap * generator)
  : Py.result (heap * generator) :=
  let '(h, g) := s in
  let* t := data h p in
  let '(t', g) := uniform_ t a b g in
  Py.ret (copy_ p t' h, g).

(** [deepcopy] of a parameter: a new object with the same contents. *)
Definition deepcopy_param (p : param) (h : heap) : Py.result (param * heap) :=
  let* t := data h p in
  Py.ret (alloc t h).

Definition deepcopy_Linear (fc : Linear) (h : heap) : Py.result (Linear * heap) :=
  let* (pw, h) := deepcopy_param (weight fc) h in
  let* (pb, h) := deepcopy_param (bias fc) h in
  Py.ret ({| in_features := in_features fc; out_features := out_features fc;
             weight := pw; bias := pb |}, h).

Definition deepcopy_BatchNorm1d (bn : BatchNorm1d) (h : heap)
  : Py.result (BatchNorm1d * heap) :=
  let* (pw, h) := deepcopy_param (bn_weight bn) h in
  let* (pb, h) := deepcopy_param (bn_bias bn) h in
  Py.ret ({| num_features := num_features bn; bn_weight := pw; bn_bias := pb |}, h).

(** [deepcopy] of a [ModuleList]. *)
Fixpoint deepcopy_list {A} (copy : A -> heap -> Py.result (A * heap))
    (l : list A) (h : heap) : Py.result (list A * heap) :=
  match l with
  | [] => Py.ret ([], h)
  | a :: l' =>
      let* (a', h) := copy a h in
      let* (l'', h) := deepcopy_list copy l' h in
      Py.ret (a' :: l'', h)
  end.

(** What a deep copy leaves behind: the copy's parameter holds the
    tensor the original's holds, and the sizes of the layer are the
    same. *)
Definition same_tensor (h : heap) (p q : param) : Prop :=
  exists t, h !! p = Some t /\ h !! q = Some t.

Definition Linear_copy (h : heap) (fc fc' : Linear) : Prop :=
  in_features fc' = in_features fc
  /\ out_features fc' = out_features fc
  /\ same_tensor h (weight fc) (weight fc')
  /\ same_tensor h (bias fc) (bias fc').

Definition BatchNorm1d_copy (h : heap) (bn bn' : BatchNorm1d) : Prop :=
  num_features bn' = num_features bn
  /\ same_tensor h (bn_weight bn) (bn_weight bn')
  /\ same_tensor h (bn_bias bn) (bn_bias bn').

Definition Linear_parameters (fc : Linear) : list param := [weight fc; bias fc].
Definition BatchNorm1d_parameters (bn : BatchNorm1d) : list param :=
  [bn_weight bn; bn_bias bn].

(** [nn.Module.parameters()]: the interface [_soft_update] and the
    optimizers use. *)
Class Module (M : Type) : Type := { parameters : M -> list param }.

(** The parameters of some layers lie in a range of the store. *)
Definition params_within (lo hi : nat) (ls : list Linear) (bns : list BatchNorm1d)
  : Prop :=
  Forall (fun p => (lo <= p < hi)%nat)
    (concat (map Linear_parameters ls) ++ concat (map BatchNorm1d_parameters bns)).

(** What one round of a constructor loop does to the store: the layers
    and batch norms it adds have parameters in the part of the store it
    allocates, and the tensors that existed stay. *)
Definition round_ok (h h' : heap) (fc : Linear) (bns : list BatchNorm1d) : Prop :=
  (length h <= length h')%nat
  /\ params_within (length h) (length h') [fc] bns
  /\ forall q, (q < length h)%nat -> h' !! q = h !! q.

(** An in-place update of the store: every tensor is still there, with
    the shape it had. *)
Definition shapes_kept (h h' : heap) : Prop :=
  forall q t, h !! q = Some t -> exists t', h' !! q = Some t' /\ shape t' = shape t.

(** *** Autograd and optimizers *)

Definition zeros_like (t : tensor) : tensor := scale 0 t.

(** [loss.backward()]: every parameter the loss was computed from (its
    [leaves]) has the derivative of the loss added to its [grad]. *)
Definition accumulate (old : option tensor) (g : tensor) : Py.result tensor :=
  match old with
  | None => Py.ret g
  | Some g0 => add g0 g
  end.

Definition backward `{Backend} (loss : heap -> Py.result R) (leaves : list param)
    (h : heap) (gs : grads) : Py.result grads :=
  Py.for_each
    (fun gs p =>
       let* g := accumulate (gs !! p) (gradient loss h p) in
       Py.ret (<[p := g]> gs))
    leaves gs.

(** [torch.optim.Adam(params, lr=..., weight_decay=...)] *)
Record Optimizer `{Backend} : Type := {
  params : list param;
  lr : R;
  weight_decay : R;
  state : list adam_state;
}.

Definition Adam `{Backend} (ps : list param) (lr wd : R) : Optimizer :=
  {| params := ps; lr := lr; weight_decay := wd;
     state := map (fun _ => adam_init) ps |}.

(** [optimizer.zero_grad()] *)
Definition zero_grad `{Backend} (opt : Optimizer) (gs : grads) : grads :=
  fold_left
    (fun gs p =>
       match gs !! p with
       | Some g => <[p := zeros_like g]> gs
       | None => gs
       end)
    (params opt) gs.

(** [optimizer.step()]: every parameter of the optimizer that has a
    gradient is updated in place; the others are skipped. *)
Fixpoint step_params `{Backend} (lr wd : R) (ps : list param)
    (sts : list adam_state) (gs : grads) (h : heap)
  : Py.result (heap * list adam_state) :=
  match ps, sts with
  | p :: ps', st :: sts' =>
      match gs !! p with
      | None =>
          let* (h, sts'') := step_params lr wd ps' sts' gs h in
          Py.ret (h, st :: sts'')
      | Some g =>
          let* t := data h p in
          let (t', st') := adam_update lr wd st t g in
          let* (h, sts'') := step_params lr wd ps' sts' gs (copy_ p t' h) in
          Py.ret (h, st' :: sts'')
      end
  | _, _ => Py.ret (h, sts)
  end.

Definition step `{Backend} (opt : Optimizer) (gs : grads) (h : heap)
  : Py.result (heap * Optimizer) :=
  let* (h, sts) := step_params (lr opt) (weight_decay opt) (params opt) (state opt) gs h in
  Py.ret (h, {| params := params opt; lr := lr opt;
                weight_decay := weight_decay opt; state := sts |}).

End Torch.

(* ------------------------------------------------------------------ *)
(** ** numpy: arrays of a batch, the global random state *)

Module Numpy.

Import Tensor.
Local Open Scope R_scope.

(** The arrays a sample batch is made of; [NdNone] is a field that is
    not filled in. *)
Inductive ndarray : Type :=
| NdFloat2 (m : mat)
| NdFloat1 (v : vec)
| NdInt1 (l : list Z)
| NdBool1 (l : list bool)
| NdNone.

(** [torch.from_numpy(a)] for a batch of rows and for a vector. *)
Definition from_numpy2 (a : ndarray) : Py.result mat :=
  match a with
  | NdFloat2 m => Py.ret m
  | _ => Py.raise Py.TypeError
  end.

Definition from_numpy1 (a : ndarray) : Py.result vec :=
  match a with
  | NdFloat1 v => Py.ret v
  | NdInt1 l => Py.ret (map IZR l)
  | _ => Py.raise Py.TypeError
  end.

(** [torch.tensor(a, dtype=torch.float32)] for a vector. *)
Definition tensor_float32 (a : ndarray) : Py.result vec :=
  match a with
  | NdFloat1 v => Py.ret v
  | NdInt1 l => Py.ret (map IZR l)
  | NdBool1 l => Py.ret (map (fun b : bool => if b then 1 else 0) l)
  | _ => Py.raise Py.TypeError
  end.

(** C truncation of a real towards zero. *)
Definition trunc (x : R) : Z :=
  if Rle_dec 0 x then Int_part x else (- Int_part (- x))%Z.

(** [a.astype(int)] for a vector. *)
Definition astype_int (a : ndarray) : Py.result (list Z) :=
  match a with
  | NdFloat1 v => Py.ret (map trunc v)
  | NdInt1 l => Py.ret l
  | NdBool1 l => Py.ret (map (fun b : bool => if b then 1%Z else 0%Z) l)
  | NdFloat2 _ => Py.raise Py.TypeError
  | NdNone => Py.raise (Py.AttributeError "astype"%string)
  end.

(** [np.clip(x, lo, hi)] *)
Definition clip (lo hi : R) (x : vec) : vec :=
  map (fun a => Rmin (Rmax a lo) hi) x.

(** [np.zeros(n)] *)
Definition zeros (n : nat) : vec := replicate n 0.

(** The global random state: the standard-normal draws still to come,
    and how many were taken. *)
Record RandomState : Type := {
  draws : nat -> R;
  taken : nat;
}.

(** [np.random.randn(n)]: the next [n] draws. *)
Definition randn (n : nat) (g : RandomState) : vec * RandomState :=
  (map (fun k => draws g (taken g + k)%nat) (seq 0 n),
   {| draws := draws g; taken := (taken g + n)%nat |}).

End Numpy.

(* ------------------------------------------------------------------ *)
(** ** OrnsteinUhlenbeckProcessNoise *)

Module Noise.

Import Tensor Numpy.
Local Open Scope R_scope.

Record OrnsteinUhlenbeckProcessNoise : Type := {
  action_dim : nat;
  theta : R;
  sigma : R;
  mu : R;
  noise : vec;
}.

Definition default_theta : R := 0.15.
Definition default_sigma : R := 0.02.
Definition default_mu : R := 0.

(** [__init__(self, action_dim, theta=0.15, sigma=0.02, mu=0)] *)
Definition init (action_dim : nat) (theta sigma mu : R)
  : OrnsteinUhlenbeckProcessNoise :=
  {| action_dim := action_dim; theta := theta; sigma := sigma; mu := mu;
     noise := zeros action_dim |}.

(** [get_noise(self)]: the returned vector, the object after the call,
    and the random state after the call. *)
Definition get_noise (self : OrnsteinUhlenbeckProcessNoise) (g : RandomState)
  : Py.result (vec * OrnsteinUhlenbeckProcessNoise * RandomState) :=
  let term_1 := map (fun x => theta self * (mu self - x)) (noise self) in
  let (eps, g) := randn (action_dim self) g in
  let* dx := broadcast Rplus term_1 (map (Rmult (sigma self)) eps) in
  let* r := broadcast Rplus (noise self) dx in
  Py.ret (r, self, g).

(** [clear(self)] *)
Definition clear (self : OrnsteinUhlenbeckProcessNoise)
  : OrnsteinUhlenbeckProcessNoise :=
  {| action_dim := action_dim self; theta := theta self; sigma := sigma self;
     mu := mu self; noise := zeros (action_dim self) |}.

End Noise.

(* ------------------------------------------------------------------ *)
(** ** ActorNet, CriticNet, fan_in_init *)

Module Nets.

Import Tensor Torch.
Local Open Scope R_scope.

(** [tensor.size(1)]; a matrix without rows is taken to have no
    columns. *)
Definition size1 (t : tensor) : Py.result nat :=
  match t with
  | T1 _ => Py.raise Py.IndexError
  | T2 [] => Py.ret 0%nat
  | T2 (r :: _) => Py.ret (length r)
  end.

Definition fan_in_init `{Backend} (p : param) (s : heap * generator)
  : Py.result (heap * generator) :=
  let* t := data (fst s) p in
  let* n := size1 t in
  let val_range := 1 / sqrt (INR n) in
  init_uniform_ p (- val_range) val_range s.

(** What [getattr(F, activation)] evaluates to: [F.linear], which the
    forward passes never call, or a function of one tensor. *)
Inductive F_attr : Type :=
| F_linear
| F_unary (f : mat -> mat).

Definition getattr_F `{Backend} (activation : string) : Py.result F_attr :=
  if String.eqb activation "linear" then Py.ret F_linear
  else match functional activation with
       | Some f => Py.ret (F_unary f)
       | None => Py.raise (Py.AttributeError activation)
       end.

(** [fc_func(x) if activation == "linear" else activation_func(fc_func(x))] *)
Definition apply_layer `{Backend} (h : heap) (activation : string)
    (activation_func : F_attr) (fc_func : Linear) (x : mat) : Py.result mat :=
  let* y := Linear_forward h fc_func x in
  if String.eqb activation "linear" then Py.ret y
  else match activation_func with
       | F_unary f => Py.ret (f y)
       | F_linear => Py.raise Py.TypeError
       end.

(** What a layer computes, entry by entry: [x @ W.T + b] has at row [r]
    and column [j] the product of row [r] of [x] with row [j] of [W],
    plus [b[j]]. *)
Definition linear_rows (W : mat) (b : vec) (x : mat) : mat :=
  map (fun xr => map (fun wb => dot xr (fst wb) + snd wb) (combine W b)) x.

(** [y] is [z] under the activation named [a]: [z] itself for
    ["linear"], and [getattr(F, a)(z)] otherwise. *)
Definition activated `{Backend} (a : string) (z y : mat) : Prop :=
  (a = "linear"%string /\ y = z)
  \/ (a <> "linear"%string /\ exists f, functional a = Some f /\ y = f z).

(** [y] is what the linear layer [fc] and the activation [a] make of
    [x] with the weight and bias the store holds. *)
Definition layer_output `{Backend} (h : heap) (a : string) (fc : Linear)
    (x y : mat) : Prop :=
  exists W b,
    h !! weight fc = Some (T2 W) /\ h !! bias fc = Some (T1 b)
    /\ Forall (fun xr => Forall (fun w => length w = length xr) W) x
    /\ activated a (linear_rows W b x) y.

(** [y] is the batch norm [bn] of [x]. *)
Definition normalised `{Backend} (training : bool) (h : heap) (bn : BatchNorm1d)
    (x y : mat) : Prop :=
  exists w b,
    h !! bn_weight bn = Some w /\ h !! bn_bias bn = Some b
    /\ batch_norm training w b x = Some y.

(** The last-layer and hidden-layer initialisation both constructors
    end their loop body with. *)
Definition init_layer `{Backend} (i n : nat) (fc : Linear) (fl_init : R)
    (s : heap * generator) : Py.result (heap * generator) :=
  if decide ((i + 1)%nat = n) then
    let* s := init_uniform_ (weight fc) (- fl_init) fl_init s in
    init_uniform_ (bias fc) (- fl_init) fl_init s
  else fan_in_init (weight fc) s.

(** *** ActorNet *)
Module ActorNet.

Record t : Type := {
  layers : list Linear;
  batch_norm_ops : list BatchNorm1d;
  activations : list string;
  training : bool;
}.

(** The body of the constructor's loop. *)
Definition init_body `{Backend} (layers_ : list nat) (fl_init : R)
    (st : list Linear * list BatchNorm1d * (heap * generator)) (il : nat * nat)
  : Py.result (list Linear * list BatchNorm1d * (heap * generator)) :=
  let '(ls, bns, s) := st in
  let '(i, layer) := il in
  let* n_in := Py.getitem layers_ i in
  let (fc, s) := new_Linear n_in layer s in
  let ls := ls ++ [fc] in
  let (bn, s) := new_BatchNorm1d n_in s in
  let bns := bns ++ [bn] in
  let* fc_i := Py.getitem ls i in
  let* s := init_layer i (length (tail layers_)) fc_i fl_init s in
  Py.ret (ls, bns, s).

Definition init `{Backend} (layers_ : list nat) (activations_ : list string)
    (fl_init : R) (s : heap * generator) : Py.result (t * (heap * generator)) :=
  if decide (3 <= length layers_)%nat then
    let* (ls, bns, s) :=
      Py.for_each (init_body layers_ fl_init)
        (Py.enumerate (tail layers_)) ([], [], s) in
    Py.ret ({| layers := ls; batch_norm_ops := bns;
               activations := activations_; training := true |}, s)
  else Py.raise (Py.AssertionError "Invalid layer schema for actor network").

Definition forward `{Backend} (h : heap) (self : t) (state : mat)
  : Py.result mat :=
  Py.for_each
    (fun x ia =>
       let '(i, activation) := ia in
       let* bn := Py.getitem (batch_norm_ops self) i in
       let* x := BatchNorm1d_forward (training self) h bn x in
       let* activation_func := getattr_F activation in
       let* fc_func := Py.getitem (layers self) i in
       apply_layer h activation activation_func fc_func x)
    (Py.enumerate (activations self)) state.

Definition eval (self : t) : t :=
  {| layers := layers self; batch_norm_ops := batch_norm_ops self;
     activations := activations self; training := false |}.

Definition train (self : t) : t :=
  {| layers := layers self; batch_norm_ops := batch_norm_ops self;
     activations := activations self; training := true |}.

Definition deepcopy (self : t) (h : heap) : Py.result (t * heap) :=
  let* (ls, h) := deepcopy_list deepcopy_Linear (layers self) h in
  let* (bns, h) := deepcopy_list deepcopy_BatchNorm1d (batch_norm_ops self) h in
  Py.ret ({| layers := ls; batch_norm_ops := bns;
             activations := activations self; training := training self |}, h).

#[global] Instance module : Module t :=
  {| parameters self :=
       concat (map Linear_parameters (layers self))
       ++ concat (map BatchNorm1d_parameters (batch_norm_ops self)) |}.

End ActorNet.

(** *** CriticNet *)
Module CriticNet.

Record t : Type := {
  layers : list Linear;
  batch_norm_ops : list BatchNorm1d;
  activations : list string;
  training : bool;
}.

(** The body of the constructor's loop. *)
Definition init_body `{Backend} (layers_ : list nat) (fl_init : R)
    (action_dim : nat)
    (st : list Linear * list BatchNorm1d * (heap * generator)) (il : nat * nat)
  : Py.result (list Linear * list BatchNorm1d * (heap * generator)) :=
  let '(ls, bns, s) := st in
  let '(i, layer) := il in
  let* n_in := Py.getitem layers_ i in
  let '(ls, bns, s) :=
    (* Batch norm only applied to pre-action layers *)
    if decide (i = 0%nat) then
      let (fc, s) := new_Linear n_in layer s in
      let (bn, s) := new_BatchNorm1d n_in s in
      (ls ++ [fc], bns ++ [bn], s)
    else if decide (i = 1%nat) then
      let (fc, s) := new_Linear (n_in + action_dim) layer s in
      let (bn, s) := new_BatchNorm1d n_in s in
      (ls ++ [fc], bns ++ [bn], s)
    (* Actions skip input layer *)
    else
      let (fc, s) := new_Linear n_in layer s in
      (ls ++ [fc], bns, s) in
  let* fc_i := Py.getitem ls i in
  let* s := init_layer i (length (tail layers_)) fc_i fl_init s in
  Py.ret (ls, bns, s).

Definition init `{Backend} (layers_ : list nat) (activations_ : list string)
    (fl_init : R) (action_dim : nat) (s : heap * generator)
  : Py.result (t * (heap * generator)) :=
  if decide (3 <= length layers_)%nat then
    let* (ls, bns, s) :=
      Py.for_each (init_body layers_ fl_init action_dim)
        (Py.enumerate (tail layers_)) ([], [], s) in
    Py.ret ({| layers := ls; batch_norm_ops := bns;
               activations := activations_; training := true |}, s)
  else Py.raise (Py.AssertionError "Invalid layer schema for actor network").

(** The loop body of [forward]: [x] is the running value, [action]
    the slice cut off before the loop. *)
Definition forward_layer `{Backend} (h : heap) (self : t) (action : mat)
    (x : mat) (ia : nat * string) : Py.result mat :=
  let '(i, activation) := ia in
  let* x :=
    if decide (i = 0%nat) then
      let* bn := Py.getitem (batch_norm_ops self) i in
      BatchNorm1d_forward (training self) h bn x
    else if decide (i = 1%nat) then
      let* bn := Py.getitem (batch_norm_ops self) i in
      let* x := BatchNorm1d_forward (training self) h bn x in
      cat1 x action
    else Py.ret x in
  let* activation_func := getattr_F activation in
  let* fc_func := Py.getitem (layers self) i in
  apply_layer h activation activation_func fc_func x.

Definition forward `{Backend} (h : heap) (self : t) (state_action : mat)
  : Py.result mat :=
  let* fc0 := Py.getitem (layers self) 0 in
  let state_dim := in_features fc0 in
  let state := cols_to state_dim state_action in
  let action := cols_from state_dim state_action in
  Py.for_each (forward_layer h self action)
    (Py.enumerate (activations self)) state.

Definition deepcopy (self : t) (h : heap) : Py.result (t * heap) :=
  let* (ls, h) := deepcopy_list deepcopy_Linear (layers self) h in
  let* (bns, h) := deepcopy_list deepcopy_BatchNorm1d (batch_norm_ops self) h in
  Py.ret ({| layers := ls; batch_norm_ops := bns;
             activations := activations self; training := training self |}, h).

#[global] Instance module : Module t :=
  {| parameters self :=
       concat (map Linear_parameters (layers self))
       ++ concat (map BatchNorm1d_parameters (batch_norm_ops self)) |}.

End CriticNet.

End Nets.

(* ------------------------------------------------------------------ *)
(** ** DDPGTrainer *)

Module Trainer.

Import Tensor Torch Numpy Nets.
Local Open Scope R_scope.

(** *** Configuration *)

(** The values [env_details["action_range"]] can hold. *)
Inductive pyvalue : Type :=
| PyNone
| PyInt (z : Z)
| PyFloat (r : R)
| PyList (l : vec).

(** [if v:] *)
Definition truthy (v : pyvalue) : bool :=
  match v with
  | PyNone => false
  | PyInt z => negb (z =? 0)%Z
  | PyFloat r => if Req_dec_T r 0 then false else true
  | PyList [] => false
  | PyList (_ :: _) => true
  end.

(** [v * x] for an array [x]. *)
Definition times (v : pyvalue) (x : vec) : Py.result vec :=
  match v with
  | PyNone => Py.raise Py.TypeError
  | PyInt z => Py.ret (map (Rmult (IZR z)) x)
  | PyFloat r => Py.ret (map (Rmult r) x)
  | PyList l => broadcast Rmult l x
  end.

Record env_details : Type := {
  env_action_range : pyvalue;
  env_state_dim : nat;
  env_action_dim : nat;
}.

Record shared_training : Type := {
  minibatch_size_ : nat;
  final_layer_init_ : R;
  optimizer : string;
}.

Record rl_parameters : Type := {
  gamma_ : R;
  target_update_rate : R;
}.

Record network_training : Type := {
  layers : list nat;
  activations : list string;
  learning_rate : R;
  l2_decay : R;
}.

Record parameters_ : Type := {
  shared_training_ : shared_training;
  rl : rl_parameters;
  actor_training : network_training;
  critic_training : network_training;
}.

Definition set_layers (p : network_training) (ls : list nat) : network_training :=
  {| layers := ls; activations := activations p;
     learning_rate := learning_rate p; l2_decay := l2_decay p |}.

(** *** The trainer object

    [mem] and [grad] are the parameter tensors and gradients of the
    four networks, [rng] is torch's generator. [noise] and
    [noise_generator] are one object in the source; it is [noise]
    here. *)
Record t `{Backend} : Type := {
  action_range : pyvalue;
  minibatch_size : nat;
  gamma : R;
  tau : R;
  final_layer_init : R;
  actor_params : network_training;
  noise : Noise.OrnsteinUhlenbeckProcessNoise;
  actor : ActorNet.t;
  actor_target : ActorNet.t;
  actor_optimizer : Optimizer;
  critic_params : network_training;
  critic : CriticNet.t;
  critic_target : CriticNet.t;
  critic_optimizer : Optimizer;
  mem : heap;
  grad : grads;
  rng : generator;
}.

(** [self.optimizer_func] *)
Definition optimizer_func `{Backend} (name : string)
  : Py.result (list param -> R -> R -> Optimizer) :=
  if String.eqb name "ADAM" then Py.ret Adam
  else Py.raise (Py.NotImplementedError (name ++ " optimizer not implemented")).

(** [__init__(self, parameters, env_details, ...)]; [s] is the store
    and the generator at the call. *)
Definition init `{Backend} (parameters : parameters_) (env : env_details)
    (s : heap * generator) : Py.result t :=
  let shared := shared_training_ parameters in
  let fl_init := final_layer_init_ shared in
  let* opt := optimizer_func (optimizer shared) in
  (* Actor params *)
  let actor_p := actor_training parameters in
  let* ls := Py.setitem_first (layers actor_p) (env_state_dim env) in
  let* ls := Py.setitem_last ls (env_action_dim env) in
  let actor_p := set_layers actor_p ls in
  let noise_generator :=
    Noise.init (env_action_dim env)
      Noise.default_theta Noise.default_sigma Noise.default_mu in
  let* (actor_, s) :=
    ActorNet.init (layers actor_p) (activations actor_p) fl_init s in
  let (h, g) := s in
  let* (actor_target_, h) := ActorNet.deepcopy actor_ h in
  let actor_opt := opt (Torch.parameters actor_) (learning_rate actor_p) 0 in
  (* Critic params *)
  let critic_p := critic_training parameters in
  let* ls := Py.setitem_first (layers critic_p) (env_state_dim env) in
  let* ls := Py.setitem_last ls 1%nat in
  let critic_p := set_layers critic_p ls in
  let* (critic_, s) :=
    CriticNet.init (layers critic_p) (activations critic_p) fl_init
      (env_action_dim env) (h, g) in
  let (h, g) := s in
  let* (critic_target_, h) := CriticNet.deepcopy critic_ h in
  let critic_opt :=
    opt (Torch.parameters critic_) (learning_rate critic_p) (l2_decay critic_p) in
  Py.ret {| action_range := env_action_range env;
            minibatch_size := minibatch_size_ shared;
            gamma := gamma_ (rl parameters);
            tau := target_update_rate (rl parameters);
            final_layer_init := fl_init;
            actor_params := actor_p;
            noise := noise_generator;
            actor := actor_;
            actor_target := actor_target_;
            actor_optimizer := actor_opt;
            critic_params := critic_p;
            critic := critic_;
            critic_target := critic_target_;
            critic_optimizer := critic_opt;
            mem := h;
            grad := ∅;
            rng := g |}.

(** What the constructor establishes and every method keeps: each
    optimizer updates the parameters of its own network, and the actor
    and the critic share no parameter. *)
Definition optimizers_own_networks `{Backend} (self : t) : Prop :=
  params (actor_optimizer self) = Torch.parameters (actor self)
  /\ params (critic_optimizer self) = Torch.parameters (critic self)
  /\ forall q, q ∈ Torch.parameters (actor self) ->
               q ∉ Torch.parameters (critic self).

(** A target network is ready for [_soft_update] in a store when its
    parameters are distinct objects, none of them a parameter of the
    live network, and each holds a tensor of the shape of its live
    counterpart. *)
Definition target_ready (h : heap) (ps tps : list param) : Prop :=
  NoDup tps
  /\ (forall q, q ∈ tps -> q ∉ ps)
  /\ forall i tp p,
       tps !! i = Some tp -> ps !! i = Some p ->
       exists T P, h !! tp = Some T /\ h !! p = Some P /\ same_shape P T.

(** The four networks share no parameter. *)
Definition networks_apart `{Backend} (self : t) : Prop :=
  (forall q, q ∈ Torch.parameters (actor_target self) ->
     (q ∉ Torch.parameters (actor self))
     /\ (q ∉ Torch.parameters (critic self))
     /\ (q ∉ Torch.parameters (critic_target self)))
  /\ (forall q, q ∈ Torch.parameters (critic_target self) ->
        (q ∉ Torch.parameters (actor self))
        /\ (q ∉ Torch.parameters (critic self)))
  /\ (forall q, q ∈ Torch.parameters (actor self) ->
        q ∉ Torch.parameters (critic self)).

(** *** _soft_update *)

(** The loop body: one target parameter and its live counterpart. *)
Definition soft_update_param (tau : R) (h : heap) (tp : param * param)
  : Py.result heap :=
  let (t_param, param) := tp in
  let* pd := data h param in
  let* td := data h t_param in
  let* new_param := add (scale tau pd) (scale (1.0 - tau) td) in
  Py.ret (copy_ t_param new_param h).

Definition _soft_update {Net} `{Module Net} (network target_network : Net)
    (tau : R) (h : heap) : Py.result heap :=
  Py.for_each (soft_update_param tau)
    (combine (Torch.parameters target_network) (Torch.parameters network)) h.

(** *** train *)

(** The local variables of [train] when line 102 has run. *)
Record train_locals : Type := {
  states : mat;
  actions : mat;
  rewards : vec;
  next_states : mat;
  time_diffs : vec;
  discount_tensor : vec;
  done : list Z;
  not_done_mask : vec;
  q_s1_a1 : mat;
  next_actions : mat;
  q_s2_a2 : vec;
  filtered_q_s2_a2 : vec;
  target_q_values : vec;
  critic_predictions : vec;
}.

(** Lines 81 to 102: the tensors of the batch, the Bellman target and
    the critic's predictions. *)
Definition train_head `{Backend} (self : t) (training_samples : list ndarray)
  : Py.result train_locals :=
  let* a0 := Py.getitem training_samples 0 in
  let* states := from_numpy2 a0 in
  let* a1 := Py.getitem training_samples 1 in
  let* actions := from_numpy2 a1 in
  let* a2 := Py.getitem training_samples 2 in
  let* rewards := from_numpy1 a2 in
  let* a3 := Py.getitem training_samples 3 in
  let* next_states := from_numpy2 a3 in
  let* a8 := Py.getitem training_samples 8 in
  let* time_diffs := tensor_float32 a8 in
  let discount_tensor := map (fun _ => gamma self) (seq 0 (length rewards)) in
  let* a5 := Py.getitem training_samples 5 in
  let* done := astype_int a5 in
  let not_done_mask := map (fun d => IZR (1 - d)) done in
  let* sa := cat1 states actions in
  let* q_s1_a1 := CriticNet.forward (mem self) (critic self) sa in
  let* next_actions := ActorNet.forward (mem self) (actor_target self) next_states in
  let* next_state_actions := cat1 next_states next_actions in
  let* q2 := CriticNet.forward (mem self) (critic_target self) next_state_actions in
  let* q_s2_a2 := squeeze q2 in
  let* filtered_q_s2_a2 := broadcast Rmult not_done_mask q_s2_a2 in
  let* discount := broadcast pow discount_tensor time_diffs in
  let* discounted := broadcast Rmult discount filtered_q_s2_a2 in
  let* target_q_values := broadcast Rplus rewards discounted in
  let* critic_predictions := squeeze q_s1_a1 in
  Py.ret {| states := states; actions := actions; rewards := rewards;
            next_states := next_states; time_diffs := time_diffs;
            discount_tensor := discount_tensor; done := done;
            not_done_mask := not_done_mask; q_s1_a1 := q_s1_a1;
            next_actions := next_actions; q_s2_a2 := q_s2_a2;
            filtered_q_s2_a2 := filtered_q_s2_a2;
            target_q_values := target_q_values;
            critic_predictions := critic_predictions |}.

(** Lines 99 and 100 on float32 values. The rewards, the target
    critic's outputs and [discount], which stands for
    [discount_tensor.pow(time_diffs)], may be infinite or NaN; the mask
    is [1 - done] and so a number. *)
Definition bellman_target (rewards discount : list Float.float)
    (not_done_mask : vec) (q_s2_a2 : list Float.float)
  : Py.result (list Float.float) :=
  let* filtered_q_s2_a2 :=
    Float.broadcast Float.mul (map Float.Finite not_done_mask) q_s2_a2 in
  let* discounted := Float.broadcast Float.mul discount filtered_q_s2_a2 in
  Float.broadcast Float.add rewards discounted.

(** The two losses as functions of the parameter store, which is what
    [backward] differentiates. The Bellman target is a constant of the
    critic loss: it is computed from detached values. *)
Definition loss_critic_at `{Backend} (self : t) (l : train_locals) (h : heap)
  : Py.result R :=
  let* sa := cat1 (states l) (actions l) in
  let* q := CriticNet.forward h (critic self) sa in
  let* predictions := squeeze q in
  mse_loss predictions (target_q_values l).

Definition loss_actor_at `{Backend} (self : t) (l : train_locals) (h : heap)
  : Py.result R :=
  let* a := ActorNet.forward h (actor self) (states l) in
  let* sa := cat1 (states l) a in
  let* q := CriticNet.forward h (critic self) sa in
  Py.ret (- sum (concat q)).

Definition with_mem `{Backend} (self : t) (h : heap) (gs : grads)
    (actor_opt critic_opt : Optimizer) : t :=
  {| action_range := action_range self; minibatch_size := minibatch_size self;
     gamma := gamma self; tau := tau self;
     final_layer_init := final_layer_init self;
     actor_params := actor_params self; noise := noise self;
     actor := actor self; actor_target := actor_target self;
     actor_optimizer := actor_opt;
     critic_params := critic_params self; critic := critic self;
     critic_target := critic_target self; critic_optimizer := critic_opt;
     mem := h; grad := gs; rng := rng self |}.

(** Lines 103 to 106: the critic's loss and optimizer step. *)
Definition critic_step `{Backend} (self : t) (l : train_locals)
  : Py.result (R * t) :=
  let* loss_critic := mse_loss (critic_predictions l) (target_q_values l) in
  let gs := zero_grad (critic_optimizer self) (grad self) in
  let* gs :=
    backward (loss_critic_at self l) (Torch.parameters (critic self))
      (mem self) gs in
  let* (h, opt) := step (critic_optimizer self) gs (mem self) in
  Py.ret (loss_critic, with_mem self h gs (actor_optimizer self) opt).

(** Lines 110 to 113: the actor's loss and optimizer step. *)
Definition actor_step `{Backend} (self : t) (l : train_locals) : Py.result t :=
  let* loss_actor := loss_actor_at self l (mem self) in
  let gs := zero_grad (actor_optimizer self) (grad self) in
  let* gs :=
    backward (loss_actor_at self l)
      (Torch.parameters (actor self) ++ Torch.parameters (critic self))
      (mem self) gs in
  let* (h, opt) := step (actor_optimizer self) gs (mem self) in
  Py.ret (with_mem self h gs opt (critic_optimizer self)).

(** Lines 116 and 117. *)
Definition soft_updates `{Backend} (self : t) : Py.result t :=
  let* h := _soft_update (actor self) (actor_target self) (tau self) (mem self) in
  let* h := _soft_update (critic self) (critic_target self) (tau self) h in
  Py.ret (with_mem self h (grad self) (actor_optimizer self) (critic_optimizer self)).

(** What [evaluator.report] receives. *)
Record report (V : Type) : Type := {
  reported_episode_values : V;
  reported_predictions : vec;
  reported_loss : R;
}.
Arguments reported_episode_values {V}.
Arguments reported_predictions {V}.
Arguments reported_loss {V}.

(** [train(self, training_samples, evaluator=None, episode_values=None)];
    [evaluator] says whether one was passed. *)
Definition train `{Backend} {V} (self : t) (training_samples : list ndarray)
    (evaluator : bool) (episode_values : option V)
  : Py.result (t * option (report V)) :=
  let* l := train_head self training_samples in
  let* (loss_critic, self) := critic_step self l in
  let* self := actor_step self l in
  let* self := soft_updates self in
  if evaluator then
    match episode_values with
    | None => Py.raise (Py.AssertionError "")
    | Some v =>
        Py.ret (self, Some {| reported_episode_values := v;
                              reported_predictions := critic_predictions l;
                              reported_loss := loss_critic |})
    end
  else Py.ret (self, None).

(** *** internal_prediction *)

Definition with_actor_noise `{Backend} (self : t) (a : ActorNet.t)
    (n : Noise.OrnsteinUhlenbeckProcessNoise) : t :=
  {| action_range := action_range self; minibatch_size := minibatch_size self;
     gamma := gamma self; tau := tau self;
     final_layer_init := final_layer_init self;
     actor_params := actor_params self; noise := n;
     actor := a; actor_target := actor_target self;
     actor_optimizer := actor_optimizer self;
     critic_params := critic_params self; critic := critic self;
     critic_target := critic_target self;
     critic_optimizer := critic_optimizer self;
     mem := mem self; grad := grad self; rng := rng self |}.

(** [[x + (self.noise.get_noise()) for x in actions]]: the rows in
    order, each with its own call. *)
Fixpoint add_noise (actions : mat) (n : Noise.OrnsteinUhlenbeckProcessNoise)
    (g : RandomState)
  : Py.result (mat * Noise.OrnsteinUhlenbeckProcessNoise * RandomState) :=
  match actions with
  | [] => Py.ret ([], n, g)
  | x :: rest =>
      let* (e, n, g) := Noise.get_noise n g in
      let* y := broadcast Rplus x e in
      let* (ys, n, g) := add_noise rest n g in
      Py.ret (y :: ys, n, g)
  end.


(** [internal_prediction(self, states, noisy=False)]; [g] is numpy's
    random state at the call. The result is the returned array, the
    trainer and the random state after the call. *)
Definition internal_prediction `{Backend} (self : t) (states : mat)
    (noisy : bool) (g : RandomState) : Py.result (mat * t * RandomState) :=
  let actor_ := ActorNet.eval (actor self) in
  let* actions := ActorNet.forward (mem self) actor_ states in
  let actor_ := ActorNet.train actor_ in
  let* (actions, n, g) :=
    if noisy then add_noise actions (noise self) g
    else Py.ret (actions, noise self, g) in
  let self := with_actor_noise self actor_ n in
  (* Continuous action space *)
  if truthy (action_range self) then
    let* out :=
      map_result (fun action => times (action_range self) (clip (-1) 1 action))
        actions in
    Py.ret (out, self, g)
  (* Discrete action space *)
  else Py.ret (actions, self, g).

End Trainer.

(* ------------------------------------------------------------------ *)
(** ** Concrete inputs *)

Module Examples.

Import Tensor Torch Numpy Nets.
Local Open Scope R_scope.

(** A random state whose draws are 1, 2, 3, ... *)
Definition counting : RandomState := {| draws := fun k => INR (S k); taken := 0 |}.

(** [OrnsteinUhlenbeckProcessNoise(1)] *)
Definition ou1 : Noise.OrnsteinUhlenbeckProcessNoise :=
  Noise.init 1 Noise.default_theta Noise.default_sigma Noise.default_mu.

(** A stand-in for the torch primitives, to run the module on concrete
    inputs: new layers are zero (weights) and one (batch-norm scale),
    [uniform_] draws the value the tensor already holds, batch
    normalisation is the identity, every gradient is the all-ones
    tensor and the optimizer takes a plain gradient step. *)
Definition ones_like (t : tensor) : tensor :=
  match t with
  | T1 v => T1 (map (fun _ => 1) v)
  | T2 m => T2 (map (map (fun _ => 1)) m)
  end.

Definition sgd (lr : R) (t g : tensor) : tensor :=
  match elementwise (fun x d => x - lr * d) t g with
  | inr t' => t'
  | inl _ => t
  end.

#[local] Instance toy : Backend := {|
  generator := unit;
  uniform_ t _ _ g := (t, g);
  linear_reset_parameters n_in n_out g :=
    ((replicate n_out (replicate n_in 0), replicate n_out 0), g);
  batch_norm_reset_parameters n g := ((replicate n 1, replicate n 0), g);
  batch_norm _ _ _ x := Some x;
  functional name :=
    if String.eqb name "relu" then Some (map (map (Rmax 0))) else None;
  gradient _ h p := match h !! p with Some t => ones_like t | None => T1 [] end;
  adam_state := unit;
  adam_init := tt;
  adam_update lr _ st t g := (sgd lr t g, st);
|}.

(** A configuration with two layers per network and no activation: the
    forward pass of the actor returns its input, that of the critic
    the state columns of its input. *)
Definition net0 : Trainer.network_training :=
  {| Trainer.layers := [1; 1; 1]%nat; Trainer.activations := [];
     Trainer.learning_rate := 0.01; Trainer.l2_decay := 0 |}.

Definition parameters0 : Trainer.parameters_ :=
  {| Trainer.shared_training_ :=
       {| Trainer.minibatch_size_ := 2; Trainer.final_layer_init_ := 0.003;
          Trainer.optimizer := "ADAM" |};
     Trainer.rl := {| Trainer.gamma_ := 0.9; Trainer.target_update_rate := 0.5 |};
     Trainer.actor_training := net0;
     Trainer.critic_training := net0 |}.

Definition env0 : Trainer.env_details :=
  {| Trainer.env_action_range := Trainer.PyNone;
     Trainer.env_state_dim := 1; Trainer.env_action_dim := 1 |}.

(** The trainer [DDPGTrainer(parameters0, env0, ...)] builds on the
    stand-in, from an empty store: parameters 0 to 7 are the actor's, 8
    to 15 its target's, 16 to 23 the critic's, 24 to 31 its target's. *)
Definition lin (n : nat) : heap := [T2 [replicate n 0]; T1 [0]].
Definition bn : heap := [T1 [1]; T1 [0]].

Definition fc (n_in w : nat) : Linear :=
  {| in_features := n_in; out_features := 1; weight := w; bias := S w |}.
Definition norm (w : nat) : BatchNorm1d :=
  {| num_features := 1; bn_weight := w; bn_bias := S w |}.

Definition trainer0 : Trainer.t :=
  {| Trainer.action_range := Trainer.PyNone;
     Trainer.minibatch_size := 2;
     Trainer.gamma := 0.9;
     Trainer.tau := 0.5;
     Trainer.final_layer_init := 0.003;
     Trainer.actor_params := net0;
     Trainer.noise := ou1;
     Trainer.actor :=
       {| ActorNet.layers := [fc 1 0; fc 1 4];
          ActorNet.batch_norm_ops := [norm 2; norm 6];
          ActorNet.activations := []; ActorNet.training := true |};
     Trainer.actor_target :=
       {| ActorNet.layers := [fc 1 8; fc 1 10];
          ActorNet.batch_norm_ops := [norm 12; norm 14];
          ActorNet.activations := []; ActorNet.training := true |};
     Trainer.actor_optimizer := Adam [0; 1; 4; 5; 2; 3; 6; 7]%nat 0.01 0;
     Trainer.critic_params := net0;
     Trainer.critic :=
       {| CriticNet.layers := [fc 1 16; fc 2 20];
          CriticNet.batch_norm_ops := [norm 18; norm 22];
          CriticNet.activations := []; CriticNet.training := true |};
     Trainer.critic_target :=
       {| CriticNet.layers := [fc 1 24; fc 2 26];
          CriticNet.batch_norm_ops := [norm 28; norm 30];
          CriticNet.activations := []; CriticNet.training := true |};
     Trainer.critic_optimizer := Adam [16; 17; 20; 21; 18; 19; 22; 23]%nat 0.01 0;
     Trainer.mem :=
       (lin 1 ++ bn ++ lin 1 ++ bn) ++ (lin 1 ++ lin 1 ++ bn ++ bn)
       ++ (lin 1 ++ bn ++ lin 2 ++ bn) ++ (lin 1 ++ lin 2 ++ bn ++ bn);
     Trainer.grad := ∅;
     Trainer.rng := tt |}.

(** A batch of two transitions with nine fields; the second is
    terminal, the first spans two steps. Field 7 holds other data. *)
Definition batch9 : list ndarray :=
  [NdFloat2 [[1]; [2]]; NdFloat2 [[0]; [0]]; NdFloat1 [1; 5];
   NdFloat2 [[3]; [4]]; NdFloat2 [[0]; [0]]; NdBool1 [false; true];
   NdNone; NdInt1 [7; 7]%Z; NdInt1 [2; 1]%Z].

(** A batch of the eight fields state, action, reward, next_state,
    next_action, terminal, possible_next_actions, time_diff. *)
Definition batch8 : list ndarray :=
  [NdFloat2 [[1]; [2]]; NdFloat2 [[0]; [0]]; NdFloat1 [1; 5];
   NdFloat2 [[3]; [4]]; NdFloat2 [[0]; [0]]; NdBool1 [false; true];
   NdNone; NdInt1 [2; 1]%Z].

(** A critic over the same parameters with an activation per layer. *)
Definition critic_relu : CriticNet.t :=
  {| CriticNet.layers := [fc 1 16; fc 2 20];
     CriticNet.batch_norm_ops := [norm 18; norm 22];
     CriticNet.activations := ["relu"; "linear"]%string;
     CriticNet.training := true |}.


(** A critic with weights that are not zero: layer 0 is [2 x + 1] on a
    state of width one, layer 1 is [3 x + 4 a + 5] on its output joined
    with an action of width one. *)
Definition mem1 : heap :=
  [T2 [[2]]; T1 [1]; T2 [[3; 4]]; T1 [5]; T1 [1]; T1 [0]; T1 [1]; T1 [0]].

Definition critic1 : CriticNet.t :=
  {| CriticNet.layers := [fc 1 0; fc 2 2];
     CriticNet.batch_norm_ops := [norm 4; norm 6];
     CriticNet.activations := ["relu"; "linear"]%string;
     CriticNet.training := true |}.

(** An actor over the parameters of [trainer0]'s actor with an
    activation per layer. *)
Definition actor_relu : ActorNet.t :=
  {| ActorNet.layers := [fc 1 0; fc 1 4];
     ActorNet.batch_norm_ops := [norm 2; norm 6];
     ActorNet.activations := ["relu"; "linear"]%string;
     ActorNet.training := true |}.

End Examples.

(* ------------------------------------------------------------------ *)
(** * Properties *)

(** ** Tensors *)

Section TensorFacts.

Import Tensor.
Local Open Scope R_scope.

Lemma map_lookup {A B} (f : A -> B) (l : list A) (i : nat) :
  map f l !! i = f <$> l !! i.
Proof. exact (list_lookup_fmap f l i). Qed.

Lemma zip_with_vec_length f (u v : vec) :
  length u = length v -> length (zip_with_vec f u v) = length u.
Proof.
  intros E. unfold zip_with_vec.
  rewrite length_map, length_combine. lia.
Qed.

Lemma zip_with_vec_lookup f (u v : vec) (i : nat) :
  zip_with_vec f u v !! i = (x ← u !! i; y ← v !! i; Some (f x y)).
Proof.
  unfold zip_with_vec. revert v i.
  induction u as [|a u IH]; intros [|b v] [|i]; simpl; try reflexivity.
  - destruct (u !! i); reflexivity.
  - apply IH.
Qed.

Lemma scale_shape c t : shape (scale c t) = shape t.
Proof.
  destruct t as [v|m]; simpl.
  - now rewrite length_map.
  - rewrite length_map. do 2 f_equal. rewrite map_map.
    apply map_ext. intros r. now rewrite length_map.
Qed.

Lemma scale_entry c t i j : entry (scale c t) i j = Rmult c <$> entry t i j.
Proof.
  destruct t as [v|m]; simpl.
  - now rewrite map_lookup.
  - rewrite map_lookup. destruct (m !! i) as [r|]; simpl; [|reflexivity].
    now rewrite map_lookup.
Qed.

Lemma shape_T2_inv (m n : mat) :
  shape (T2 m) = shape (T2 n) ->
  length m = length n /\ map (@length R) m = map (@length R) n.
Proof. simpl. intros E. now inversion E. Qed.

Lemma rows_zip_length f (m n : mat) :
  map (@length R) m = map (@length R) n ->
  map (@length R) (map (fun p => zip_with_vec f (fst p) (snd p)) (combine m n))
  = map (@length R) m.
Proof.
  revert n. induction m as [|r m IH]; intros [|s n] E; simpl in *;
    try discriminate; [reflexivity|].
  inversion E. f_equal; [|now apply IH].
  now apply zip_with_vec_length.
Qed.

Lemma rows_zip_lookup f (m n : mat) (i : nat) :
  map (fun p => zip_with_vec f (fst p) (snd p)) (combine m n) !! i
  = (r ← m !! i; s ← n !! i; Some (zip_with_vec f r s)).
Proof.
  revert n i. induction m as [|r m IH]; intros [|s n] [|i]; simpl; try reflexivity.
  - destruct (m !! i); reflexivity.
  - apply IH.
Qed.

(** An elementwise operation on tensors of one shape returns a tensor
    of that shape whose entries are the operation on the entries. *)
Lemma elementwise_spec f a b :
  same_shape a b ->
  exists c, elementwise f a b = inr c
            /\ shape c = shape a
            /\ forall i j, entry c i j = (x ← entry a i j; y ← entry b i j; Some (f x y)).
Proof.
  intros S. unfold elementwise. destruct (decide (same_shape a b)) as [_|N]; [|tauto].
  unfold same_shape in S. destruct a as [u|m], b as [v|n].
  - eexists. split; [reflexivity|]. simpl in *. split.
    + do 2 f_equal. apply zip_with_vec_length. now inversion S.
    + intros i _. apply zip_with_vec_lookup.
  - discriminate S.
  - discriminate S.
  - apply shape_T2_inv in S as [L Rw].
    eexists. split; [reflexivity|]. split.
    + simpl. rewrite length_map, length_combine, rows_zip_length by exact Rw.
      do 2 f_equal. lia.
    + intros i j. simpl. rewrite rows_zip_lookup.
      destruct (m !! i) as [r|]; simpl; [|reflexivity].
      destruct (n !! i) as [s|]; simpl.
      * apply zip_with_vec_lookup.
      * destruct (r !! j); reflexivity.
Qed.

End TensorFacts.

(** ** The noise process *)

Section NoiseFacts.

Import Tensor Numpy Noise.
Local Open Scope R_scope.

Lemma broadcast_aligned f (u v : vec) :
  length u = length v -> broadcast f u v = inr (zip_with_vec f u v).
Proof.
  intros E. unfold broadcast. now destruct (decide (length u = length v)).
Qed.

Lemma randn_length n g : length (fst (randn n g)) = n.
Proof. simpl. now rewrite length_map, length_seq. Qed.

Lemma randn_lookup n g i :
  (i < n)%nat -> fst (randn n g) !! i = Some (draws g (taken g + i)%nat).
Proof.
  intros Hi. simpl. rewrite map_lookup, lookup_seq_lt by exact Hi. reflexivity.
Qed.

(** What one call of [get_noise] returns on a process whose state has
    [action_dim] entries: entry by entry the state plus [theta * (mu -
    state) + sigma * eps], with [eps] the next [action_dim] draws; and
    the object after the call is the object before it. *)
Lemma get_noise_returns (self : OrnsteinUhlenbeckProcessNoise) (g : RandomState) :
  length (noise self) = action_dim self ->
  get_noise self g
  = inr (zip_with_vec (fun x e => x + (theta self * (mu self - x) + sigma self * e))
           (noise self) (fst (randn (action_dim self) g)),
         self, snd (randn (action_dim self) g)).
Proof.
  intros L. unfold get_noise.
  destruct (randn (action_dim self) g) as [eps g'] eqn:E.
  assert (Le : length eps = action_dim self).
  { change eps with (fst (eps, g')). rewrite <- E. apply randn_length. }
  rewrite broadcast_aligned by (rewrite !length_map; congruence). simpl.
  rewrite broadcast_aligned
    by (rewrite zip_with_vec_length; rewrite !length_map; congruence).
  simpl. do 3 f_equal.
  apply list_eq. intros i. rewrite !zip_with_vec_lookup, !map_lookup.
  destruct (noise self !! i); simpl; [|reflexivity].
  destruct (eps !! i); reflexivity.
Qed.

Ltac noise_calc :=
  unfold zip_with_vec, zeros; simpl;
  unfold default_theta, default_sigma, default_mu.

(** C4, at [OrnsteinUhlenbeckProcessNoise(1)] with the draws 1, 2, ...:
    the first call returns [[0.02]] and leaves the state at [[0]]; the
    second call returns [[0.04]], which is the recurrence from the
    state [[0]] again, where the recurrence from the first returned
    vector would give [0.02 + 0.15 * (0 - 0.02) + 0.02 * 2 = 0.057]. *)
Theorem get_noise_leaves_state :
  exists r1 g1 r2 g2,
    get_noise Examples.ou1 Examples.counting = inr (r1, Examples.ou1, g1)
    /\ r1 = [0.02]
    /\ noise Examples.ou1 = [0]
    /\ get_noise Examples.ou1 g1 = inr (r2, Examples.ou1, g2)
    /\ r2 = [0.04]
    /\ r2 <> [0.057].
Proof.
  do 4 eexists.
  split; [apply get_noise_returns; reflexivity|].
  split; [noise_calc; f_equal; lra|].
  split; [reflexivity|].
  split; [apply get_noise_returns; reflexivity|].
  split; [noise_calc; f_equal; lra|].
  noise_calc. intros E. inversion E as [E']. lra.
Qed.

End NoiseFacts.

(** ** Inference *)

Section Inference.

Import Tensor Torch Numpy Nets Trainer.
Local Open Scope R_scope.

(** The result of a noisy call, in terms of the actor's output: one
    [get_noise] per row, then the range branch. *)
Lemma internal_prediction_noisy `{Backend} (self : t) (states : mat)
    (g : RandomState) (acts ys : mat) n' g' :
  ActorNet.forward (mem self) (ActorNet.eval (actor self)) states = inr acts ->
  add_noise acts (noise self) g = inr (ys, n', g') ->
  internal_prediction self states true g
  = if truthy (action_range self) then
      let* out :=
        map_result (fun action => times (action_range self) (clip (-1) 1 action))
          ys in
      Py.ret (out,
              with_actor_noise self (ActorNet.train (ActorNet.eval (actor self))) n',
              g')
    else
      Py.ret (ys,
              with_actor_noise self (ActorNet.train (ActorNet.eval (actor self))) n',
              g').
Proof.
  intros F A. unfold internal_prediction. rewrite F. simpl Py.bind.
  rewrite A. reflexivity.
Qed.

(** The calls of [get_noise] behind line 150, one per row and in row
    order: [ns] and [gs] list the noise object and the random state
    before the first call and after each call. *)
Lemma add_noise_trace (n : Noise.OrnsteinUhlenbeckProcessNoise) :
  length (Noise.noise n) = Noise.action_dim n ->
  forall (rows : mat) (g : RandomState),
    Forall (fun x => length x = Noise.action_dim n) rows ->
    exists ys (ns : list Noise.OrnsteinUhlenbeckProcessNoise)
        (gs : list RandomState) n' g',
      add_noise rows n g = inr (ys, n', g')
      /\ ns !! 0%nat = Some n /\ gs !! 0%nat = Some g
      /\ ns !! length rows = Some n' /\ gs !! length rows = Some g'
      /\ draws g' = draws g
      /\ taken g' = (taken g + length rows * Noise.action_dim n)%nat
      /\ forall i x, rows !! i = Some x ->
           exists n_i g_i e n_i' g_i',
             ns !! i = Some n_i /\ gs !! i = Some g_i
             /\ ns !! S i = Some n_i' /\ gs !! S i = Some g_i'
             /\ Noise.get_noise n_i g_i = inr (e, n_i', g_i')
             /\ draws g_i = draws g
             /\ taken g_i = (taken g + i * Noise.action_dim n)%nat
             /\ ys !! i = Some (zip_with_vec Rplus x e).
Proof.
  intros L. induction rows as [|x rest IH]; intros g Hall.
  - exists [], [n], [g], n, g. simpl. repeat split; try reflexivity; try lia.
    intros i x E. discriminate E.
  - apply Forall_cons in Hall as [Hx Hrest].
    pose proof (get_noise_returns n g L) as Hg.
    set (e := zip_with_vec
                (fun x e => x + (Noise.theta n * (Noise.mu n - x) + Noise.sigma n * e))
                (Noise.noise n) (fst (randn (Noise.action_dim n) g))) in Hg.
    set (g1 := snd (randn (Noise.action_dim n) g)) in Hg.
    assert (Le : length e = Noise.action_dim n).
    { unfold e. rewrite zip_with_vec_length; [exact L|].
      now rewrite randn_length. }
    destruct (IH g1 Hrest)
      as (ys & ns & gs & n' & g' & E & N0 & G0 & Nl & Gl & Dr & Tk & Rows).
    exists (zip_with_vec Rplus x e :: ys), (n :: ns), (g :: gs), n', g'.
    split; [|split; [|split; [|split; [|split; [|split; [|split]]]]]].
    + cbn [add_noise]. rewrite Hg. cbn [Py.bind].
      rewrite broadcast_aligned by congruence. cbn [Py.bind]. rewrite E. reflexivity.
    + reflexivity.
    + reflexivity.
    + exact Nl.
    + exact Gl.
    + rewrite Dr. reflexivity.
    + rewrite Tk. simpl. lia.
    + intros [|i] y Hy; simpl in Hy.
      * inversion Hy; subst y.
        exists n, g, e, n, g1. simpl. rewrite N0, G0.
        repeat split; try reflexivity; [exact Hg|lia].
      * destruct (Rows i y Hy)
          as (n_i & g_i & e_i & n_i' & g_i' & Hn & Hgi & Hn' & Hg' & Ec & D & T & Y).
        exists n_i, g_i, e_i, n_i', g_i'. simpl.
        repeat split; try assumption. rewrite T. simpl. lia.
Qed.

(** C6, as the code has it. A noisy call of [internal_prediction] on a
    trainer whose noise state has [action_dim] entries, where the actor
    returns rows of [action_dim] entries, calls [get_noise] once per
    row, in row order. The call for row [i] runs on the noise object and
    the random state the call before it left, which is [i * action_dim]
    draws past the random state at entry, and the vector it returns is
    added to row [i] alone. The range branch then applies to these
    rows. *)
Theorem internal_prediction_noise_per_row `{Backend} (self : t) (states : mat)
    (g : RandomState) (acts : mat) :
  length (Noise.noise (noise self)) = Noise.action_dim (noise self) ->
  ActorNet.forward (mem self) (ActorNet.eval (actor self)) states = inr acts ->
  Forall (fun x => length x = Noise.action_dim (noise self)) acts ->
  exists ys (ns : list Noise.OrnsteinUhlenbeckProcessNoise)
      (gs : list RandomState) n' g',
    add_noise acts (noise self) g = inr (ys, n', g')
    /\ ns !! 0%nat = Some (noise self) /\ gs !! 0%nat = Some g
    /\ ns !! length acts = Some n' /\ gs !! length acts = Some g'
    /\ draws g' = draws g
    /\ taken g' = (taken g + length acts * Noise.action_dim (noise self))%nat
    /\ (forall i x, acts !! i = Some x ->
          exists n_i g_i e n_i' g_i',
            ns !! i = Some n_i /\ gs !! i = Some g_i
            /\ ns !! S i = Some n_i' /\ gs !! S i = Some g_i'
            /\ Noise.get_noise n_i g_i = inr (e, n_i', g_i')
            /\ draws g_i = draws g
            /\ taken g_i = (taken g + i * Noise.action_dim (noise self))%nat
            /\ ys !! i = Some (zip_with_vec Rplus x e))
    /\ internal_prediction self states true g
       = if truthy (action_range self) then
           let* out :=
             map_result
               (fun action => times (action_range self) (clip (-1) 1 action)) ys in
           Py.ret (out,
                   with_actor_noise self
                     (ActorNet.train (ActorNet.eval (actor self))) n',
                   g')
         else
           Py.ret (ys,
                   with_actor_noise self
                     (ActorNet.train (ActorNet.eval (actor self))) n',
                   g').
Proof.
  intros L F Hall.
  destruct (add_noise_trace (noise self) L acts g Hall)
    as (ys & ns & gs & n' & g' & A & N0 & G0 & Nl & Gl & Dr & Tk & Rows).
  exists ys, ns, gs, n', g'. repeat split; try assumption.
  now apply internal_prediction_noisy with (acts := acts).
Qed.

(** C6 as stated fails: on the two states [[0]] and [[0]], with the
    draws 1, 2, ..., the noisy prediction of [trainer0] is [[0.02]] and
    [[0.04]]. Two draws were taken, and no single vector added to both
    rows gives this result. *)
Lemma noise_differs_between_rows :
  exists self' g',
    internal_prediction (H := Examples.toy) Examples.trainer0 [[0]; [0]] true
      Examples.counting
    = inr ([[0.02]; [0.04]], self', g')
    /\ taken g' = 2%nat
    /\ ~ exists e, [[0.02]; [0.04]]
                   = map (fun x => zip_with_vec Rplus x e) [[0]; [0]].
Proof.
  do 2 eexists. split; [|split].
  - erewrite internal_prediction_noisy; [| reflexivity | reflexivity ].
    simpl. do 3 f_equal.
    unfold zip_with_vec; simpl;
      unfold Noise.default_theta, Noise.default_sigma, Noise.default_mu.
    repeat f_equal; lra.
  - reflexivity.
  - intros [e E]. unfold zip_with_vec in E.
    destruct e as [|a e]; simpl in E; [discriminate|].
    inversion E. lra.
Qed.

Lemma noise_per_row_witness :
  exists ys n' g',
    add_noise [[0]; [0]] Examples.ou1 Examples.counting = inr (ys, n', g')
    /\ taken g' = 2%nat.
Proof.
  destruct (internal_prediction_noise_per_row (H := Examples.toy)
              Examples.trainer0 [[0]; [0]] Examples.counting [[0]; [0]])
    as (ys & ns & gs & n' & g' & A & _ & _ & _ & _ & _ & Tk & _).
  - reflexivity.
  - reflexivity.
  - repeat constructor.
  - exists ys, n', g'. split; [exact A|exact Tk].
Defined.




End Inference.

(** ** The soft update *)

Section SoftUpdate.

Import Tensor Torch Trainer.
Local Open Scope R_scope.



(** The tensor the loop body writes: of the target's shape, with the
    convex combination at every entry. *)
Lemma blend_spec tau P T :
  same_shape P T ->
  exists T', add (scale tau P) (scale (1.0 - tau) T) = inr T'
             /\ shape T' = shape T
             /\ forall i j, entry T' i j
                            = (x ← entry P i j; y ← entry T i j;
                               Some (tau * x + (1 - tau) * y)).
Proof.
  intros S.
  destruct (elementwise_spec Rplus (scale tau P) (scale (1.0 - tau) T))
    as (T' & E & Sh & En).
  { unfold same_shape. now rewrite !scale_shape. }
  exists T'. split; [exact E|]. split.
  - rewrite Sh, scale_shape. exact S.
  - intros i j. rewrite En, !scale_entry.
    destruct (entry P i j), (entry T i j); simpl; try reflexivity.
    f_equal. lra.
Qed.



Lemma combine_lookup {A B} (l : list A) (k : list B) (i : nat) a b :
  combine l k !! i = Some (a, b) <-> l !! i = Some a /\ k !! i = Some b.
Proof.
  revert k i. induction l as [|x l IH]; intros [|y k] [|i]; simpl;
    try (split; [discriminate|intros [? ?]; discriminate]).
  - split; [intros E; inversion E; auto|intros [E1 E2]; congruence].
  - apply IH.
Qed.

Lemma combine_fst_subset {A B} (l : list A) (k : list B) a :
  a ∈ (combine l k).*1 -> a ∈ l.
Proof.
  revert k. induction l as [|x l IH]; intros [|y k]; simpl; intros E;
    try (now apply elem_of_nil in E).
  apply elem_of_cons in E as [->|E]; [left|right; eauto].
Qed.

Lemma combine_snd_subset {A B} (l : list A) (k : list B) b :
  b ∈ (combine l k).*2 -> b ∈ k.
Proof.
  revert k. induction l as [|x l IH]; intros [|y k]; simpl; intros E;
    try (now apply elem_of_nil in E).
  apply elem_of_cons in E as [->|E]; [left|right; eauto].
Qed.

Lemma combine_fst_NoDup {A B} (l : list A) (k : list B) :
  NoDup l -> NoDup (combine l k).*1.
Proof.
  revert k. induction l as [|x l IH]; intros [|y k] N; simpl;
    try apply NoDup_nil_2.
  apply NoDup_cons in N as [Hx N]. apply NoDup_cons. split; [|now apply IH].
  intros E. apply Hx. eapply combine_fst_subset, E.
Qed.

(** The loop of [_soft_update] over pairs of distinct target parameters
    that are no live parameter. *)
Lemma soft_update_loop tau (l : list (param * param)) (h : heap) :
  NoDup l.*1 ->
  (forall q, q ∈ l.*1 -> q ∉ l.*2) ->
  (forall tp p, (tp, p) ∈ l ->
     exists T P, h !! tp = Some T /\ h !! p = Some P /\ same_shape P T) ->
  exists h', Py.for_each (soft_update_param tau) l h = inr h'
    /\ length h' = length h
    /\ (forall q, q ∉ l.*1 -> h' !! q = h !! q)
    /\ (forall tp p T P, (tp, p) ∈ l -> h !! tp = Some T -> h !! p = Some P ->
          exists T', h' !! tp = Some T'
                     /\ add (scale tau P) (scale (1.0 - tau) T) = inr T').
Proof.
  revert h. induction l as [|[tp p] l IH]; intros h N D Hh.
  - exists h. repeat split; try reflexivity.
    intros ? ? ? ? E. now apply elem_of_nil in E.
  - simpl in N, D. apply NoDup_cons in N as [Ntp N].
    destruct (Hh tp p) as (T & P & HT & HP & S); [left|].
    destruct (blend_spec tau P T S) as (T' & EA & _).
    assert (Hp : forall q, q ∈ l.*2 -> q <> tp).
    { intros q Hq ->. apply (D tp); [left|right; exact Hq]. }
    assert (Hpp : p <> tp).
    { intros ->. apply (D tp); left. }
    destruct (IH (copy_ tp T' h)) as (h' & E & L & F & B).
    + exact N.
    + intros q Hq Hq'. apply (D q); right; assumption.
    + intros tp' p' Hin. destruct (Hh tp' p') as (T0 & P0 & HT0 & HP0 & S0);
        [right; exact Hin|].
      exists T0, P0. unfold copy_. repeat split; [| |exact S0].
      * rewrite list_lookup_insert_ne; [exact HT0|].
        intros ->. apply Ntp. apply list_elem_of_fmap. now exists (tp', p').
      * rewrite list_lookup_insert_ne; [exact HP0|].
        apply not_eq_sym, Hp. apply list_elem_of_fmap. now exists (tp', p').
    + exists h'. split; [|split; [|split]].
      * simpl. unfold soft_update_param at 1, data. rewrite HP, HT. simpl.
        rewrite EA. simpl. exact E.
      * rewrite L. unfold copy_. apply length_insert.
      * intros q Hq. rewrite F.
        -- unfold copy_. apply list_lookup_insert_ne. intros ->. apply Hq. left.
        -- intros Hq'. apply Hq. right. exact Hq'.
      * intros tp0 p0 T0 P0 Hin HT0 HP0.
        apply elem_of_cons in Hin as [Eq|Hin].
        -- inversion Eq; subst tp0 p0. rewrite HT in HT0. rewrite HP in HP0.
           inversion HT0; inversion HP0; subst T0 P0.
           exists T'. split; [|exact EA].
           rewrite F by exact Ntp. unfold copy_.
           apply list_lookup_insert_eq. eapply lookup_lt_Some, HT.
        -- apply (B tp0 p0 T0 P0 Hin).
           ++ unfold copy_. rewrite list_lookup_insert_ne; [exact HT0|].
              intros ->. apply Ntp. apply list_elem_of_fmap. now exists (tp0, p0).
           ++ unfold copy_. rewrite list_lookup_insert_ne; [exact HP0|].
              apply not_eq_sym, Hp. apply list_elem_of_fmap. now exists (tp0, p0).
Qed.



End SoftUpdate.

(** ** The Bellman target *)

Section BellmanTarget.

Import Tensor Torch Numpy Nets Trainer.
Local Open Scope R_scope.

(** [x.pow(k)] at a natural exponent is the product of [k] factors. *)
Lemma pow_INR (x : R) (k : nat) : Tensor.pow x (INR k) = x ^ k.
Proof.
  unfold Tensor.pow. destruct (Rlt_dec 0 x) as [Hx|Hx].
  - now apply Rpower_pow.
  - destruct (Req_dec_T x 0) as [->|Hx0].
    + destruct (Req_dec_T (INR k) 0) as [E|E].
      * change 0 with (INR 0) in E. apply INR_eq in E. now subst k.
      * destruct k as [|k]; [now elim E|]. simpl. ring.
    + rewrite Int_part_INR, <- INR_IZR_INZ.
      destruct (Req_dec_T (INR k) (INR k)) as [_|N]; [|now elim N].
      symmetry. apply pow_powerRZ.
Qed.

Lemma getitem_inv {A} (l : list A) (i : nat) (a : A) :
  Py.getitem l i = inr a -> l !! i = Some a.
Proof.
  unfold Py.getitem. destruct (l !! i); intros E; inversion E. reflexivity.
Qed.

Lemma getitem_insert_ne {A} (l : list A) (i j : nat) (x : A) :
  i <> j -> Py.getitem (<[i := x]> l) j = Py.getitem l j.
Proof.
  intros N. unfold Py.getitem. now rewrite list_lookup_insert_ne.
Qed.

Ltac inv_binds H :=
  repeat match type of H with
         | match ?m with inl _ => _ | inr _ => _ end = inr _ =>
             let E := fresh "E" in
             destruct m eqn:E; [discriminate H|]
         end.

(** The steps behind a returned [train_head], one equation per line of
    the source. *)
Lemma train_head_inv `{Backend} (self : t) (samples : list ndarray)
    (l : train_locals) :
  train_head self samples = inr l ->
  exists a0 a1 a2 a3 a8 a5 sa nsa q2 discount discounted,
    samples !! 0%nat = Some a0 /\ from_numpy2 a0 = inr (states l)
    /\ samples !! 1%nat = Some a1 /\ from_numpy2 a1 = inr (actions l)
    /\ samples !! 2%nat = Some a2 /\ from_numpy1 a2 = inr (rewards l)
    /\ samples !! 3%nat = Some a3 /\ from_numpy2 a3 = inr (next_states l)
    /\ samples !! 8%nat = Some a8 /\ tensor_float32 a8 = inr (time_diffs l)
    /\ discount_tensor l
       = map (fun _ => gamma self) (seq 0 (length (rewards l)))
    /\ samples !! 5%nat = Some a5 /\ astype_int a5 = inr (done l)
    /\ not_done_mask l = map (fun d => IZR (1 - d)) (done l)
    /\ cat1 (states l) (actions l) = inr sa
    /\ CriticNet.forward (mem self) (critic self) sa = inr (q_s1_a1 l)
    /\ ActorNet.forward (mem self) (actor_target self) (next_states l)
       = inr (next_actions l)
    /\ cat1 (next_states l) (next_actions l) = inr nsa
    /\ CriticNet.forward (mem self) (critic_target self) nsa = inr q2
    /\ squeeze q2 = inr (q_s2_a2 l)
    /\ broadcast Rmult (not_done_mask l) (q_s2_a2 l) = inr (filtered_q_s2_a2 l)
    /\ broadcast Tensor.pow (discount_tensor l) (time_diffs l) = inr discount
    /\ broadcast Rmult discount (filtered_q_s2_a2 l) = inr discounted
    /\ broadcast Rplus (rewards l) discounted = inr (target_q_values l)
    /\ squeeze (q_s1_a1 l) = inr (critic_predictions l).
Proof.
  intros E. unfold train_head, Py.bind in E. inv_binds E.
  inversion E; subst l; clear E. simpl.
  repeat match goal with
         | G : Py.getitem _ _ = inr _ |- _ => apply getitem_inv in G
         end.
  do 11 eexists. repeat split; eassumption.
Qed.

(** In an aligned batch every step of the target is pointwise. *)
Lemma target_pointwise `{Backend} (self : t) (samples : list ndarray)
    (l : train_locals) (i : nat) (r d td q : R) :
  train_head self samples = inr l ->
  length (not_done_mask l) = length (rewards l) ->
  length (time_diffs l) = length (rewards l) ->
  length (q_s2_a2 l) = length (rewards l) ->
  rewards l !! i = Some r ->
  not_done_mask l !! i = Some d ->
  time_diffs l !! i = Some td ->
  q_s2_a2 l !! i = Some q ->
  target_q_values l !! i = Some (r + Tensor.pow (gamma self) td * (d * q)).
Proof.
  intros E Ld Lt Lq Hr Hd Ht Hq.
  destruct (train_head_inv self samples l E)
    as (a0 & a1 & a2 & a3 & a8 & a5 & sa & nsa & q2 & discount & discounted
        & _ & _ & _ & _ & _ & _ & _ & _ & _ & _ & Hdt & _ & _ & _ & _ & _ & _
        & _ & _ & _ & Bf & Bd & Bm & Bt & _).
  assert (Ldt : length (discount_tensor l) = length (rewards l)).
  { rewrite Hdt. now rewrite length_map, length_seq. }
  rewrite broadcast_aligned in Bf by congruence.
  rewrite broadcast_aligned in Bd by congruence.
  inversion Bf as [Ef]; inversion Bd as [Ed]; clear Bf Bd.
  assert (Lf : length (filtered_q_s2_a2 l) = length (rewards l)).
  { rewrite <- Ef, zip_with_vec_length; congruence. }
  assert (Ldi : length discount = length (rewards l)).
  { rewrite <- Ed, zip_with_vec_length; congruence. }
  rewrite broadcast_aligned in Bm by congruence.
  inversion Bm as [Em]; clear Bm.
  assert (Lm : length discounted = length (rewards l)).
  { rewrite <- Em, zip_with_vec_length; congruence. }
  rewrite broadcast_aligned in Bt by congruence.
  inversion Bt as [Et]; clear Bt.
  rewrite zip_with_vec_lookup, Hr. simpl.
  rewrite <- Em, zip_with_vec_lookup, <- Ed, zip_with_vec_lookup. simpl.
  assert (Hg : discount_tensor l !! i = Some (gamma self)).
  { rewrite Hdt, map_lookup, lookup_seq_lt; [reflexivity|].
    apply lookup_lt_Some in Hr. exact Hr. }
  rewrite Hg, Ht. simpl.
  rewrite <- Ef, zip_with_vec_lookup, Hd, Hq. reflexivity.
Qed.

Lemma terminal_mask `{Backend} (self : t) (samples : list ndarray)
    (l : train_locals) (terminal : list bool) :
  train_head self samples = inr l ->
  samples !! 5%nat = Some (NdBool1 terminal) ->
  not_done_mask l = map (fun b : bool => if b then 0 else 1) terminal.
Proof.
  intros E H5.
  destruct (train_head_inv self samples l E)
    as (a0 & a1 & a2 & a3 & a8 & a5 & sa & nsa & q2 & discount & discounted
        & _ & _ & _ & _ & _ & _ & _ & _ & _ & _ & _ & S5 & A5 & Hm & _).
  rewrite H5 in S5. inversion S5; subst a5. simpl in A5.
  inversion A5 as [Ed]. rewrite Hm, <- Ed, map_map.
  apply map_ext. intros [|]; simpl; reflexivity.
Qed.

(** C3. In an aligned batch, for a sample that is not terminal and has
    time difference [k], the target is the reward plus [gamma ^ k]
    times the target critic's value: the exponent is the sample's own.
    At [k] = 1, 2 and 5 the factor is the product of one, two and five
    factors [gamma]. *)
Theorem discount_is_gamma_pow_time_diff `{Backend} (self : t)
    (samples : list ndarray) (l : train_locals) (terminal : list bool)
    (i k : nat) (r q : R) :
  train_head self samples = inr l ->
  samples !! 5%nat = Some (NdBool1 terminal) ->
  length terminal = length (rewards l) ->
  length (time_diffs l) = length (rewards l) ->
  length (q_s2_a2 l) = length (rewards l) ->
  terminal !! i = Some false ->
  time_diffs l !! i = Some (INR k) ->
  rewards l !! i = Some r ->
  q_s2_a2 l !! i = Some q ->
  target_q_values l !! i = Some (r + gamma self ^ k * q)
  /\ (k = 1%nat -> target_q_values l !! i = Some (r + gamma self * q))
  /\ (k = 2%nat -> target_q_values l !! i = Some (r + gamma self * gamma self * q))
  /\ (k = 5%nat ->
      target_q_values l !! i
      = Some (r + gamma self * gamma self * gamma self * gamma self
                  * gamma self * q)).
Proof.
  intros E H5 Lt Ltd Lq Ht Hk Hr Hq.
  pose proof (terminal_mask self samples l terminal E H5) as Hm.
  assert (T : target_q_values l !! i = Some (r + gamma self ^ k * q)).
  { rewrite (target_pointwise self samples l i r 1 (INR k) q E); try assumption.
    - rewrite pow_INR. f_equal. ring.
    - now rewrite Hm, length_map.
    - now rewrite Hm, map_lookup, Ht. }
  split; [exact T|].
  repeat split; intros ->; rewrite T; f_equal; ring.
Qed.

Lemma discount_witness :
  exists l,
    train_head (H := Examples.toy) Examples.trainer0 Examples.batch9 = inr l
    /\ target_q_values l !! 0%nat = Some (1 + 0.9 * 0.9 * 3).
Proof.
  eexists. split; [reflexivity|].
  match goal with
  | |- target_q_values ?l !! _ = _ =>
      destruct (discount_is_gamma_pow_time_diff (H := Examples.toy)
                  Examples.trainer0 Examples.batch9 l [false; true] 0 2 1 3)
        as (_ & _ & T & _); [reflexivity..|exact (T eq_refl)]
  end.
Defined.

(** ** The fields of the batch *)

Lemma train_head_ignores `{Backend} (self : t) (samples : list ndarray)
    (k : nat) (x : ndarray) :
  k = 4%nat \/ k = 6%nat \/ k = 7%nat ->
  train_head self (<[k := x]> samples) = train_head self samples.
Proof.
  intros Hk. unfold train_head.
  rewrite !getitem_insert_ne by lia. reflexivity.
Qed.

(** C5, as the code has it. When [train] gets past line 102, the batch
    has at least nine fields; states, actions, rewards and next states
    were read from the fields 0 to 3, the terminal flags from field 5,
    and the time differences the discount is raised to from field 8, the
    ninth. The fields 4, 6 and 7 are not read: any values there give the
    same locals. *)
Theorem train_reads_time_diff_at_index_8 `{Backend} (self : t)
    (samples : list ndarray) (l : train_locals) :
  train_head self samples = inr l ->
  (9 <= length samples)%nat
  /\ (exists a0 a1 a2 a3 a5 a8,
        samples !! 0%nat = Some a0 /\ from_numpy2 a0 = inr (states l)
        /\ samples !! 1%nat = Some a1 /\ from_numpy2 a1 = inr (actions l)
        /\ samples !! 2%nat = Some a2 /\ from_numpy1 a2 = inr (rewards l)
        /\ samples !! 3%nat = Some a3 /\ from_numpy2 a3 = inr (next_states l)
        /\ samples !! 5%nat = Some a5 /\ astype_int a5 = inr (done l)
        /\ samples !! 8%nat = Some a8 /\ tensor_float32 a8 = inr (time_diffs l))
  /\ (forall x4 x6 x7,
        train_head self (<[4%nat := x4]> (<[6%nat := x6]> (<[7%nat := x7]> samples)))
        = inr l).
Proof.
  intros E.
  destruct (train_head_inv self samples l E)
    as (a0 & a1 & a2 & a3 & a8 & a5 & sa & nsa & q2 & discount & discounted
        & S0 & F0 & S1 & F1 & S2 & F2 & S3 & F3 & S8 & F8 & _ & S5 & F5 & _).
  split; [|split].
  - apply lookup_lt_Some in S8. lia.
  - exists a0, a1, a2, a3, a5, a8. repeat split; assumption.
  - intros x4 x6 x7. rewrite !train_head_ignores by tauto. exact E.
Qed.

Lemma train_reads_witness :
  exists l,
    train_head (H := Examples.toy) Examples.trainer0 Examples.batch9 = inr l
    /\ (9 <= length Examples.batch9)%nat
    /\ tensor_float32 (NdInt1 [2; 1]%Z) = inr (time_diffs l).
Proof.
  eexists. split; [reflexivity|].
  match goal with
  | |- _ /\ _ = inr (time_diffs ?l) =>
      destruct (train_reads_time_diff_at_index_8 (H := Examples.toy)
                  Examples.trainer0 Examples.batch9 l)
        as (L & _ & _); [reflexivity|]
  end.
  split; [exact L|reflexivity].
Defined.

(** [train] starts with these lines: it returns only if they do, and
    raises what they raise. *)
Lemma train_runs_head `{Backend} {V} (self : t) (samples : list ndarray)
    (evaluator : bool) (episode_values : option V) :
  (forall e, train_head self samples = inl e ->
             train self samples evaluator episode_values = inl e)
  /\ (forall r, train self samples evaluator episode_values = inr r ->
                exists l, train_head self samples = inr l).
Proof.
  unfold train. destruct (train_head self samples) as [e0|l]; cbn [Py.bind].
  - split; [intros e E; now inversion E|intros r E; discriminate E].
  - split; [intros e E; discriminate E|intros r _; now exists l].
Qed.

(** C5 as stated fails: on a batch of the eight fields in the stated
    order, with the time differences in field 7, [train] raises
    [IndexError] at [training_samples[8]]; and on a batch of nine fields
    the exponents are field 8, whatever field 7 holds. *)
Lemma time_diff_is_not_field_7 :
  train_head (H := Examples.toy) Examples.trainer0 Examples.batch8
  = inl Py.IndexError
  /\ train (H := Examples.toy) (V := unit) Examples.trainer0 Examples.batch8
       false None
     = inl Py.IndexError
  /\ exists l,
       train_head (H := Examples.toy) Examples.trainer0 Examples.batch9 = inr l
       /\ Examples.batch9 !! 7%nat = Some (NdInt1 [7; 7]%Z)
       /\ time_diffs l = [2; 1]
       /\ time_diffs l <> [7; 7].
Proof.
  split; [reflexivity|]. split; [reflexivity|].
  eexists. split; [reflexivity|]. split; [reflexivity|]. split; [reflexivity|].
  simpl. intros E. inversion E. lra.
Qed.

End BellmanTarget.

(** ** The target of a terminal sample *)

Section TerminalTarget.

Import Tensor Torch Numpy Nets Trainer.
Local Open Scope R_scope.

Lemma float_broadcast_aligned {A B C} (f : A -> B -> C) (u : list A) (v : list B) :
  length u = length v ->
  Float.broadcast f u v = inr (map (fun p => f (fst p) (snd p)) (combine u v)).
Proof.
  intros L. unfold Float.broadcast. destruct (decide (length u = length v)); tauto.
Qed.

Lemma map2_lookup {A B C} (f : A -> B -> C) (u : list A) (v : list B) (i : nat) :
  map (fun p => f (fst p) (snd p)) (combine u v) !! i
  = (a ← u !! i; b ← v !! i; Some (f a b)).
Proof.
  revert v i. induction u as [|a u IH]; intros [|b v] [|i]; simpl; try reflexivity.
  - destruct (u !! i); reflexivity.
  - apply IH.
Qed.

Lemma map2_length {A B C} (f : A -> B -> C) (u : list A) (v : list B) :
  length u = length v ->
  length (map (fun p => f (fst p) (snd p)) (combine u v)) = length u.
Proof. intros L. rewrite length_map, length_combine. lia. Qed.

(** [Tensor.broadcast] is [Float.broadcast] on real numbers. *)
Lemma tensor_broadcast_float f (u v : vec) :
  Tensor.broadcast f u v = Float.broadcast f u v.
Proof. reflexivity. Qed.

(** Arithmetic on finite values is the arithmetic of the model. *)
Lemma float_broadcast_finite {A B C A' B' C'} (g : A' -> B' -> C')
    (f : A -> B -> C) (ia : A -> A') (ib : B -> B') (ic : C -> C')
    (u : list A) (v : list B) (w : list C) :
  (forall a b, a ∈ u -> b ∈ v -> g (ia a) (ib b) = ic (f a b)) ->
  Float.broadcast f u v = inr w ->
  Float.broadcast g (map ia u) (map ib v) = inr (map ic w).
Proof.
  intros Hg.
  assert (Hl : forall a, a ∈ u ->
                 map (g (ia a)) (map ib v) = map ic (map (f a) v)).
  { intros a Ha. rewrite !map_map. apply map_ext_in. intros b Hb.
    apply Hg; [exact Ha|]. now apply list_elem_of_In. }
  assert (Hr : forall b, b ∈ v ->
                 map (fun x => g x (ib b)) (map ia u)
                 = map ic (map (fun x => f x b) u)).
  { intros b Hb. rewrite !map_map. apply map_ext_in. intros a Ha.
    apply Hg; [|exact Hb]. now apply list_elem_of_In. }
  unfold Float.broadcast. rewrite !length_map.
  destruct (decide (length u = length v)) as [L|L].
  - intros E. inversion E; subst w; clear E Hl Hr. cbn [Py.ret]. f_equal.
    clear L. revert v Hg. induction u as [|a u IH]; intros [|b v] Hg; simpl;
      try reflexivity.
    f_equal.
    + apply Hg; left.
    + apply IH. intros a' b' Ha Hb. apply Hg; now right.
  - destruct u as [|a [|a' u]].
    + destruct v as [|b [|b' v]]; simpl in *; try lia; intros E;
        [|discriminate E]. inversion E. reflexivity.
    + intros E. cbn [map] in *. inversion E; subst w. cbn [Py.ret]. f_equal.
      apply Hl. left.
    + destruct v as [|b [|b' v]]; cbn [map] in *; intros E;
        try discriminate E.
      inversion E; subst w. cbn [Py.ret]. f_equal.
      apply (Hr b). left.
Qed.

(** On finite values lines 99 and 100 on floats give the target
    [train_head] computes, from the powers it computes. *)
Lemma train_head_target_float `{Backend} (self : t) (samples : list ndarray)
    (l : train_locals) :
  train_head self samples = inr l ->
  exists discount,
    Tensor.broadcast Tensor.pow (discount_tensor l) (time_diffs l) = inr discount
    /\ bellman_target (map Float.Finite (rewards l)) (map Float.Finite discount)
         (not_done_mask l) (map Float.Finite (q_s2_a2 l))
       = inr (map Float.Finite (target_q_values l)).
Proof.
  intros E.
  destruct (train_head_inv self samples l E)
    as (a0 & a1 & a2 & a3 & a8 & a5 & sa & nsa & q2 & discount & discounted
        & _ & _ & _ & _ & _ & _ & _ & _ & _ & _ & Hdt & _ & _ & _ & _ & _ & _
        & _ & _ & _ & Bf & Bd & Bm & Bt & _).
  exists discount. split; [exact Bd|].
  unfold bellman_target.
  rewrite tensor_broadcast_float in Bf, Bm, Bt.
  rewrite (float_broadcast_finite Float.mul Rmult Float.Finite Float.Finite
             Float.Finite _ _ _ (fun _ _ _ _ => eq_refl) Bf).
  cbn [Py.bind].
  rewrite (float_broadcast_finite Float.mul Rmult Float.Finite Float.Finite
             Float.Finite _ _ _ (fun _ _ _ _ => eq_refl) Bm).
  cbn [Py.bind].
  apply (float_broadcast_finite Float.add Rplus Float.Finite Float.Finite
           Float.Finite _ _ _ (fun _ _ _ _ => eq_refl) Bt).
Qed.

(** The target of a sample whose mask is zero. *)
Lemma bellman_target_masked (rewards discount q_s2_a2 : list Float.float)
    (not_done_mask : vec) (i : nat) (r d q : Float.float) :
  length not_done_mask = length rewards ->
  length discount = length rewards ->
  length q_s2_a2 = length rewards ->
  not_done_mask !! i = Some 0 ->
  rewards !! i = Some r ->
  discount !! i = Some d ->
  q_s2_a2 !! i = Some q ->
  exists target,
    bellman_target rewards discount not_done_mask q_s2_a2 = inr target
    /\ (Float.is_finite q -> Float.is_finite d -> target !! i = Some r)
    /\ (~ Float.is_finite q \/ ~ Float.is_finite d ->
        target !! i = Some Float.NaN).
Proof.
  intros Lm Ld Lq Hm Hr Hd Hq. unfold bellman_target.
  rewrite float_broadcast_aligned by (rewrite length_map; congruence).
  cbn [Py.bind].
  assert (LF : length (map (fun p => Float.mul (fst p) (snd p))
                         (combine (map Float.Finite not_done_mask) q_s2_a2))
               = length rewards)
    by (rewrite map2_length; rewrite length_map; congruence).
  rewrite float_broadcast_aligned by congruence.
  cbn [Py.bind].
  rewrite float_broadcast_aligned by (rewrite map2_length; congruence).
  eexists. split; [reflexivity|].
  rewrite !map2_lookup, Hr, Hd, map_lookup, Hm, Hq. simpl.
  split.
  - intros Fq Fd. f_equal.
    destruct q as [y| |]; simpl in Fq; try contradiction.
    destruct d as [x| |]; simpl in Fd; try contradiction.
    simpl. destruct r as [z|s|]; simpl; try reflexivity.
    f_equal. ring.
  - intros N. f_equal.
    destruct q as [y|s|]; simpl.
    + destruct N as [N|N]; [elim N; exact I|].
      destruct d as [x|s|]; simpl in *.
      * elim N. exact I.
      * replace (0 * y) with 0 by ring.
        destruct (Req_dec_T 0 0) as [_|Z]; [|now elim Z].
        destruct r; reflexivity.
      * destruct r; reflexivity.
    + destruct (Req_dec_T 0 0) as [_|Z]; [|now elim Z].
      destruct d; destruct r; reflexivity.
    + destruct d; destruct r; reflexivity.
Qed.

(** C2, as the code has it. Take the terminal flags of a batch as
    [train] reads them, aligned with the rewards, and any float32
    values for the rewards, for [gamma ** time_diff] and for the
    outputs of the target critic. A sample with a true terminal flag has
    its reward as Bellman target when the target critic's output for it
    and its [gamma ** time_diff] are finite, whatever their values. The
    mask is a multiplication by zero, so when one of the two is infinite
    or NaN the target is NaN. On finite values this computation is the
    target of [train]. *)
Theorem terminal_target_is_reward `{Backend} (self : t)
    (samples : list ndarray) (l : train_locals) (terminal : list bool) :
  train_head self samples = inr l ->
  samples !! 5%nat = Some (NdBool1 terminal) ->
  length terminal = length (rewards l) ->
  (forall (rewards_ discount_ q_ : list Float.float) (i : nat)
          (r d q : Float.float),
     length rewards_ = length (rewards l) ->
     length discount_ = length (rewards l) ->
     length q_ = length (rewards l) ->
     terminal !! i = Some true ->
     rewards_ !! i = Some r ->
     discount_ !! i = Some d ->
     q_ !! i = Some q ->
     exists target,
       bellman_target rewards_ discount_ (not_done_mask l) q_ = inr target
       /\ (Float.is_finite q -> Float.is_finite d -> target !! i = Some r)
       /\ (~ Float.is_finite q \/ ~ Float.is_finite d ->
           target !! i = Some Float.NaN))
  /\ exists discount,
       Tensor.broadcast Tensor.pow (discount_tensor l) (time_diffs l) = inr discount
       /\ bellman_target (map Float.Finite (rewards l)) (map Float.Finite discount)
            (not_done_mask l) (map Float.Finite (q_s2_a2 l))
          = inr (map Float.Finite (target_q_values l)).
Proof.
  intros E H5 Lt.
  pose proof (terminal_mask self samples l terminal E H5) as Hm.
  split; [|eapply train_head_target_float; eassumption].
  intros rewards_ discount_ q_ i r d q Lr Ld Lq Hi Hr Hd Hq.
  apply bellman_target_masked; try congruence.
  - rewrite Hm, length_map. congruence.
  - now rewrite Hm, map_lookup, Hi.
Qed.

Lemma terminal_target_witness :
  exists l target,
    train_head (H := Examples.toy) Examples.trainer0 Examples.batch9 = inr l
    /\ bellman_target [Float.Finite 1; Float.Finite 5]
         [Float.Finite 0.81; Float.Finite 0.9] (not_done_mask l)
         [Float.Finite 3; Float.Finite 4] = inr target
    /\ target !! 1%nat = Some (Float.Finite 5).
Proof.
  assert (X : exists l,
             train_head (H := Examples.toy) Examples.trainer0 Examples.batch9 = inr l
             /\ rewards l = [1; 5])
    by (eexists; repeat split; reflexivity).
  destruct X as (l & E & Rw). exists l.
  destruct (terminal_target_is_reward (H := Examples.toy) Examples.trainer0
              Examples.batch9 l [false; true] E) as [T _].
  - reflexivity.
  - now rewrite Rw.
  - destruct (T [Float.Finite 1; Float.Finite 5]
                [Float.Finite 0.81; Float.Finite 0.9]
                [Float.Finite 3; Float.Finite 4]
                1%nat (Float.Finite 5) (Float.Finite 0.9) (Float.Finite 4))
      as (target & Et & Fin & _); try (rewrite ?Rw; reflexivity).
    exists target. split; [exact E|]. split; [exact Et|].
    apply Fin; exact I.
Defined.

(** C2 as stated fails: in [batch9] the second sample is terminal and
    has reward 5; when the target critic's output for it is [inf], its
    target is NaN, not 5. *)
Lemma terminal_target_not_reward :
  exists l target,
    train_head (H := Examples.toy) Examples.trainer0 Examples.batch9 = inr l
    /\ Examples.batch9 !! 5%nat = Some (NdBool1 [false; true])
    /\ bellman_target [Float.Finite 1; Float.Finite 5]
         [Float.Finite 0.81; Float.Finite 0.9] (not_done_mask l)
         [Float.Finite 3; Float.Inf false] = inr target
    /\ target !! 1%nat = Some Float.NaN
    /\ Float.NaN <> Float.Finite 5.
Proof.
  assert (X : exists l,
             train_head (H := Examples.toy) Examples.trainer0 Examples.batch9 = inr l
             /\ not_done_mask l = [IZR (1 - 0); IZR (1 - 1)])
    by (eexists; repeat split; reflexivity).
  destruct X as (l & E & Mk). exists l.
  destruct (bellman_target_masked [Float.Finite 1; Float.Finite 5]
              [Float.Finite 0.81; Float.Finite 0.9]
              [Float.Finite 3; Float.Inf false]
              (not_done_mask l) 1%nat (Float.Finite 5) (Float.Finite 0.9)
              (Float.Inf false))
    as (target & Et & _ & N); try (rewrite ?Mk; reflexivity).
  exists target. split; [exact E|]. split; [reflexivity|]. split; [exact Et|].
  split; [|discriminate]. apply N. left. simpl. tauto.
Qed.

End TerminalTarget.

(** ** The critic's forward pass *)

Section CriticForward.

Import Tensor Torch Nets.
Local Open Scope R_scope.

Lemma for_each_ext {A S} (f g : S -> A -> Py.result S) (xs : list A) (s : S) :
  Forall (fun x => forall s, f s x = g s x) xs ->
  Py.for_each f xs s = Py.for_each g xs s.
Proof.
  intros Hall. revert s. induction Hall as [|x xs Hx _ IH]; intros s; simpl.
  - reflexivity.
  - rewrite Hx. destruct (g s x); simpl; [reflexivity|apply IH].
Qed.

Lemma enumerate_from {A} (k : nat) (xs : list A) :
  Forall (fun ia : nat * A => (k <= fst ia)%nat) (combine (seq k (length xs)) xs).
Proof.
  revert k. induction xs as [|x xs IH]; intros k; simpl; constructor.
  - simpl. lia.
  - eapply Forall_impl; [apply (IH (S k))|]. simpl. intros ia Hia. lia.
Qed.

(** [torch.cat((state, action), dim=1)] cut at the width of the states
    gives the two parts back. *)
Lemma cols_of_cat1 (k : nat) (state action sa : mat) :
  Forall (fun r => length r = k) state ->
  cat1 state action = inr sa ->
  cols_to k sa = state /\ cols_from k sa = action.
Proof.
  unfold cat1. intros Hall E.
  destruct (decide (length state = length action)) as [L|]; [|discriminate].
  inversion E; subst sa; clear E. unfold cols_to, cols_from.
  revert action L. induction Hall as [|r state Hr _ IH]; intros [|a action] L;
    simpl in *; try discriminate; [split; reflexivity|].
  destruct (IH action) as [E1 E2]; [lia|]. rewrite E1, E2. subst k.
  rewrite take_app_length, drop_app_length. split; reflexivity.
Qed.

Lemma map_result_affine (W : mat) (b : vec) :
  forall (x z : mat),
    map_result (affine W b) x = inr z ->
    z = linear_rows W b x
    /\ Forall (fun xr => Forall (fun w => length w = length xr) W) x.
Proof.
  induction x as [|xr x IH]; intros z E; cbn [map_result] in E.
  - inversion E. split; [reflexivity|constructor].
  - destruct (affine W b xr) as [e|zr] eqn:Ea; [discriminate E|].
    cbn [Py.bind] in E.
    destruct (map_result (affine W b) x) as [e|zs] eqn:Ex; [discriminate E|].
    cbn [Py.bind Py.ret] in E. inversion E; subst z; clear E.
    destruct (IH zs eq_refl) as [-> Hall].
    unfold affine in Ea.
    destruct (decide _) as [[Hw _]|]; [|discriminate Ea].
    inversion Ea; subst zr. split; [reflexivity|]. constructor; assumption.
Qed.

Lemma Linear_forward_inv (h : heap) (fc : Linear) (x z : mat) :
  Linear_forward h fc x = inr z ->
  exists W b,
    h !! weight fc = Some (T2 W) /\ h !! bias fc = Some (T1 b)
    /\ Forall (fun xr => Forall (fun w => length w = length xr) W) x
    /\ z = linear_rows W b x.
Proof.
  unfold Linear_forward, data. intros E.
  destruct (h !! weight fc) as [[?|W]|]; cbn [Py.bind Py.ret] in E;
    try discriminate E;
    destruct (h !! bias fc) as [[b|?]|]; cbn [Py.bind Py.ret] in E;
    try discriminate E.
  apply map_result_affine in E as [-> Hall]. exists W, b. repeat split. exact Hall.
Qed.

Lemma apply_layer_inv `{Backend} (h : heap) (a : string) (f : F_attr)
    (fc : Linear) (x y : mat) :
  getattr_F a = inr f ->
  apply_layer h a f fc x = inr y ->
  layer_output h a fc x y.
Proof.
  unfold apply_layer, getattr_F. intros Ef E.
  destruct (Linear_forward h fc x) as [e|z] eqn:El; [discriminate E|].
  cbn [Py.bind] in E.
  apply Linear_forward_inv in El as (W & b & Hw & Hb & Hall & ->).
  exists W, b. split; [exact Hw|]. split; [exact Hb|]. split; [exact Hall|].
  destruct (String.eqb_spec a "linear") as [->|N].
  - left. inversion E. split; reflexivity.
  - right. split; [exact N|].
    destruct (functional a) as [g|]; [|discriminate Ef].
    inversion Ef; subst f. inversion E. eauto.
Qed.

Lemma BatchNorm1d_forward_inv `{Backend} (tr : bool) (h : heap)
    (bn : BatchNorm1d) (x y : mat) :
  BatchNorm1d_forward tr h bn x = inr y -> normalised tr h bn x y.
Proof.
  unfold BatchNorm1d_forward, data, normalised. intros E.
  destruct (h !! bn_weight bn) as [w|]; [|discriminate E]. cbn [Py.bind Py.ret] in E.
  destruct (h !! bn_bias bn) as [b|]; [|discriminate E]. cbn [Py.bind Py.ret] in E.
  destruct (batch_norm tr w b x) as [y'|] eqn:Eb; [|discriminate E].
  inversion E; subst y'. exists w, b. repeat split. exact Eb.
Qed.

Lemma cat1_inv (a b c : mat) :
  cat1 a b = inr c ->
  length a = length b /\ c = map (fun p => fst p ++ snd p) (combine a b).
Proof.
  unfold cat1. destruct (decide (length a = length b)); [|discriminate].
  intros E. inversion E. auto.
Qed.

(** The values a loop passes from round to round. *)
Lemma for_each_trace {A S} (body : S -> A -> Py.result S) (xs : list A) :
  forall s s', Py.for_each body xs s = inr s' ->
    exists trace : list S,
      length trace = Datatypes.S (length xs)
      /\ trace !! 0%nat = Some s
      /\ trace !! length xs = Some s'
      /\ forall k x, xs !! k = Some x ->
           exists a b, trace !! k = Some a /\ trace !! Datatypes.S k = Some b
                       /\ body a x = inr b.
Proof.
  induction xs as [|x xs IH]; intros s s' E; cbn [Py.for_each] in E.
  - inversion E; subst s'. exists [s]. repeat split. intros k y Hk. discriminate Hk.
  - destruct (body s x) as [e|s1] eqn:E1; [discriminate E|]. cbn [Py.bind] in E.
    destruct (IH _ _ E) as (trace & L & T0 & Tl & Tk).
    exists (s :: trace). split; [simpl; now rewrite L|]. split; [reflexivity|].
    split; [exact Tl|].
    intros [|k] y Hk; simpl in Hk.
    + inversion Hk; subst y. exists s, s1. simpl. auto.
    + destruct (Tk k y Hk) as (a & b & Ha & Hb & Eb). exists a, b. simpl. auto.
Qed.

(** [forward] over [enumerate(activations)], round by round. *)
Lemma critic_forward_unrolled `{Backend} (h : heap) (self : CriticNet.t)
    (state_action : mat) (fc0 fc1 : Linear) (bn0 bn1 : BatchNorm1d)
    (a0 a1 : string) (rest : list string) :
  CriticNet.layers self !! 0%nat = Some fc0 ->
  CriticNet.layers self !! 1%nat = Some fc1 ->
  CriticNet.batch_norm_ops self !! 0%nat = Some bn0 ->
  CriticNet.batch_norm_ops self !! 1%nat = Some bn1 ->
  CriticNet.activations self = a0 :: a1 :: rest ->
  CriticNet.forward h self state_action
  = (let state := cols_to (in_features fc0) state_action in
     let action := cols_from (in_features fc0) state_action in
     let* x := BatchNorm1d_forward (CriticNet.training self) h bn0 state in
     let* f0 := getattr_F a0 in
     let* x := apply_layer h a0 f0 fc0 x in
     let* x := BatchNorm1d_forward (CriticNet.training self) h bn1 x in
     let* x := cat1 x action in
     let* f1 := getattr_F a1 in
     let* x := apply_layer h a1 f1 fc1 x in
     Py.for_each
       (fun x (ia : nat * string) =>
          let* f := getattr_F (snd ia) in
          let* fc_func := Py.getitem (CriticNet.layers self) (fst ia) in
          apply_layer h (snd ia) f fc_func x)
       (combine (seq 2 (length rest)) rest) x).
Proof.
  intros L0 L1 B0 B1 A.
  unfold CriticNet.forward, Py.getitem. rewrite L0. simpl Py.bind.
  rewrite A. unfold Py.enumerate. simpl combine. simpl Py.for_each.
  unfold Py.getitem. rewrite B0, B1, L0, L1. simpl.
  destruct (BatchNorm1d_forward (CriticNet.training self) h bn0
              (cols_to (in_features fc0) state_action)) as [e|x0];
    [reflexivity|]. simpl.
  destruct (getattr_F a0) as [e|f0]; [reflexivity|]. simpl.
  destruct (apply_layer h a0 f0 fc0 x0) as [e|y0]; [reflexivity|]. simpl.
  destruct (BatchNorm1d_forward (CriticNet.training self) h bn1 y0) as [e|x1];
    [reflexivity|]. simpl.
  destruct (cat1 x1 (cols_from (in_features fc0) state_action)) as [e|x1c];
    [reflexivity|]. simpl.
  destruct (getattr_F a1) as [e|f1]; [reflexivity|]. simpl.
  destruct (apply_layer h a1 f1 fc1 x1c) as [e|y1]; [reflexivity|]. simpl.
  apply for_each_ext.
  eapply Forall_impl; [apply (enumerate_from 2 rest)|].
  intros [i a] Hi x. simpl in Hi. unfold CriticNet.forward_layer.
  destruct (decide (i = 0%nat)) as [->|_]; [lia|].
  destruct (decide (i = 1%nat)) as [->|_]; [lia|]. reflexivity.
Qed.

(** C8. On a critic with at least two layers and two activations, an
    output [y] of [forward] is made as follows. The input is cut at
    [in_features] of layer 0 into state and action columns. The state
    columns alone go through batch norm 0 and then through layer 0:
    [x @ W.T + b] with the layer's weight and bias, entry by entry,
    under the first activation. That output goes through batch norm 1;
    the action columns, which went through no batch norm and no layer,
    are appended to it row by row; the result goes through layer 1.
    Every later layer takes the output of the layer before it as it is,
    with no batch norm and no action columns, and [y] is the output of
    the last. When the input is the concatenation of states of that
    width with actions, the cut returns the two. *)
Theorem critic_forward_structure `{Backend} (h : heap) (self : CriticNet.t)
    (state_action y : mat) (fc0 fc1 : Linear) (bn0 bn1 : BatchNorm1d)
    (a0 a1 : string) (rest : list string) :
  CriticNet.layers self !! 0%nat = Some fc0 ->
  CriticNet.layers self !! 1%nat = Some fc1 ->
  CriticNet.batch_norm_ops self !! 0%nat = Some bn0 ->
  CriticNet.batch_norm_ops self !! 1%nat = Some bn1 ->
  CriticNet.activations self = a0 :: a1 :: rest ->
  CriticNet.forward h self state_action = inr y ->
  (let state := cols_to (in_features fc0) state_action in
   let action := cols_from (in_features fc0) state_action in
   exists (x0 y0 x1 y1 : mat) (outs : list mat),
     normalised (CriticNet.training self) h bn0 state x0
     /\ layer_output h a0 fc0 x0 y0
     /\ normalised (CriticNet.training self) h bn1 y0 x1
     /\ length x1 = length action
     /\ layer_output h a1 fc1 (map (fun p => fst p ++ snd p) (combine x1 action)) y1
     /\ length outs = Datatypes.S (length rest)
     /\ outs !! 0%nat = Some y1
     /\ outs !! length rest = Some y
     /\ forall k a, rest !! k = Some a ->
          exists fc x x',
            CriticNet.layers self !! (k + 2)%nat = Some fc
            /\ outs !! k = Some x /\ outs !! Datatypes.S k = Some x'
            /\ layer_output h a fc x x')
  /\ forall state action,
       Forall (fun r => length r = in_features fc0) state ->
       cat1 state action = inr state_action ->
       cols_to (in_features fc0) state_action = state
       /\ cols_from (in_features fc0) state_action = action.
Proof.
  intros L0 L1 B0 B1 A E. split; [|intros state action; apply cols_of_cat1].
  rewrite (critic_forward_unrolled h self state_action fc0 fc1 bn0 bn1 a0 a1 rest
             L0 L1 B0 B1 A) in E.
  cbn zeta in E. intros state action. fold state in E. fold action in E.
  destruct (BatchNorm1d_forward _ h bn0 state) as [e|x0] eqn:N0; [discriminate E|].
  cbn [Py.bind] in E.
  destruct (getattr_F a0) as [e|f0] eqn:F0; [discriminate E|]. cbn [Py.bind] in E.
  destruct (apply_layer h a0 f0 fc0 x0) as [e|y0] eqn:A0; [discriminate E|].
  cbn [Py.bind] in E.
  destruct (BatchNorm1d_forward _ h bn1 y0) as [e|x1] eqn:N1; [discriminate E|].
  cbn [Py.bind] in E.
  destruct (cat1 x1 action) as [e|x1c] eqn:C1; [discriminate E|].
  cbn [Py.bind] in E.
  destruct (getattr_F a1) as [e|f1] eqn:F1; [discriminate E|]. cbn [Py.bind] in E.
  destruct (apply_layer h a1 f1 fc1 x1c) as [e|y1] eqn:A1; [discriminate E|].
  cbn [Py.bind] in E.
  apply cat1_inv in C1 as [Lx ->].
  destruct (for_each_trace _ _ _ _ E) as (outs & Lo & O0 & Ol & Ok).
  rewrite length_combine, length_seq, Nat.min_id in Lo, Ol.
  exists x0, y0, x1, y1, outs.
  split; [now apply BatchNorm1d_forward_inv|].
  split; [now apply (apply_layer_inv h a0 f0)|].
  split; [now apply BatchNorm1d_forward_inv|].
  split; [exact Lx|].
  split; [now apply (apply_layer_inv h a1 f1)|].
  split; [exact Lo|]. split; [exact O0|]. split; [exact Ol|].
  intros k a Hk.
  destruct (Ok k ((k + 2)%nat, a)) as (x & x' & Hx & Hx' & Eb).
  { apply combine_lookup. split; [|exact Hk].
    apply lookup_seq. split; [lia|]. eapply lookup_lt_Some, Hk. }
  cbn [fst snd] in Eb.
  destruct (getattr_F a) as [e|f] eqn:Fa; [discriminate Eb|]. cbn [Py.bind] in Eb.
  destruct (Py.getitem (CriticNet.layers self) (k + 2)) as [e|fc] eqn:Eg;
    [discriminate Eb|]. cbn [Py.bind] in Eb.
  apply getitem_inv in Eg. exists fc, x, x'.
  split; [exact Eg|]. split; [exact Hx|]. split; [exact Hx'|].
  now apply (apply_layer_inv h a f).
Qed.

Lemma critic_forward_witness :
  CriticNet.forward (H := Examples.toy) Examples.mem1 Examples.critic1
    [[1; 10]; [-1; 20]]
  = inr [[54]; [85]].
Proof.
  destruct (CriticNet.forward (H := Examples.toy) Examples.mem1 Examples.critic1
              [[1; 10]; [-1; 20]]) as [e|y] eqn:E;
    [vm_compute in E; discriminate E|].
  f_equal.
  destruct (critic_forward_structure (H := Examples.toy) Examples.mem1
              Examples.critic1 [[1; 10]; [-1; 20]] y
              (Examples.fc 1 0) (Examples.fc 2 2)
              (Examples.norm 4) (Examples.norm 6) "relu" "linear" []
              eq_refl eq_refl eq_refl eq_refl eq_refl E)
    as [(x0 & y0 & x1 & y1 & outs & N0 & O0 & N1 & _ & O1 & _ & Ho & Hy & _) _].
  cbn [length] in Hy. rewrite Ho in Hy. inversion Hy; subst y1; clear Hy.
  destruct N0 as (w & b & _ & _ & N0). simpl in N0. inversion N0; subst x0.
  destruct O0 as (W0 & b0 & HW & Hb & _ & [[X _]|(_ & f & Hf & ->)]);
    [discriminate X|].
  simpl in HW, Hb, Hf. inversion HW; inversion Hb; inversion Hf; subst W0 b0 f.
  destruct N1 as (w1 & b1 & _ & _ & N1). simpl in N1. inversion N1; subst x1.
  destruct O1 as (W1 & c1 & HW1 & Hb1 & _ & [[_ ->]|(X & _)]);
    [|now elim X].
  simpl in HW1, Hb1. inversion HW1; inversion Hb1; subst W1 c1.
  unfold linear_rows, dot, sum, zip_with_vec. simpl.
  unfold Rmax.
  destruct (Rle_dec 0 (1 * 2 + 0 + 1)) as [_|N]; [|lra].
  destruct (Rle_dec 0 (-1 * 2 + 0 + 1)) as [N|_]; [lra|].
  repeat f_equal; lra.
Defined.


End CriticForward.

(** ** Construction *)

Section Construction.

Import Tensor Torch Nets Trainer Examples.
Local Open Scope R_scope.

Lemma init_trainer0 :
  Trainer.init (H := toy) parameters0 env0 ([], tt) = inr trainer0.
Proof. reflexivity. Qed.

(** *** Allocation *)

Lemma new_Linear_spec `{Backend} (n_in n_out : nat) (h : heap) (g : generator) :
  exists w b g',
    new_Linear n_in n_out (h, g)
    = ({| in_features := n_in; out_features := n_out;
          weight := length h; bias := S (length h) |},
       (h ++ [T2 w; T1 b], g')).
Proof.
  unfold new_Linear, alloc.
  destruct (linear_reset_parameters n_in n_out g) as [[w b] g'].
  exists w, b, g'. rewrite length_app, <- app_assoc. simpl.
  now rewrite Nat.add_1_r.
Qed.

Lemma new_BatchNorm1d_spec `{Backend} (n : nat) (h : heap) (g : generator) :
  exists w b g',
    new_BatchNorm1d n (h, g)
    = ({| num_features := n; bn_weight := length h; bn_bias := S (length h) |},
       (h ++ [T1 w; T1 b], g')).
Proof.
  unfold new_BatchNorm1d, alloc.
  destruct (batch_norm_reset_parameters n g) as [[w b] g'].
  exists w, b, g'. rewrite length_app, <- app_assoc. simpl.
  now rewrite Nat.add_1_r.
Qed.

Lemma data_lookup (h : heap) (p : param) (t : tensor) :
  h !! p = Some t -> data h p = inr t.
Proof. unfold data. now intros ->. Qed.

Lemma init_uniform_ok `{Backend} (p : param) (a b : R) (h : heap) (g : generator)
    (t : tensor) :
  h !! p = Some t ->
  exists t' g', init_uniform_ p a b (h, g) = inr (<[p := t']> h, g').
Proof.
  intros Hp. unfold init_uniform_. rewrite (data_lookup h p t Hp). simpl.
  destruct (uniform_ t a b g) as [t' g']. now exists t', g'.
Qed.

Lemma fan_in_init_ok `{Backend} (p : param) (h : heap) (g : generator) (w : mat) :
  h !! p = Some (T2 w) ->
  exists t' g', fan_in_init p (h, g) = inr (<[p := t']> h, g').
Proof.
  intros Hp. unfold fan_in_init. simpl fst.
  rewrite (data_lookup h p _ Hp). simpl Py.bind.
  destruct w as [|r w]; simpl Py.bind; eapply init_uniform_ok, Hp.
Qed.

(** Initialising a layer whose weight has rank two rewrites its weight
    and bias, which exist, and nothing else. *)
Lemma init_layer_ok `{Backend} (i n : nat) (fc : Linear) (fl : R) (h : heap)
    (g : generator) (w : mat) (tb : tensor) :
  h !! weight fc = Some (T2 w) ->
  h !! bias fc = Some tb ->
  exists h' g',
    init_layer i n fc fl (h, g) = inr (h', g')
    /\ length h' = length h
    /\ forall q, q <> weight fc -> q <> bias fc -> h' !! q = h !! q.
Proof.
  intros Hw Hb. unfold init_layer.
  destruct (decide ((i + 1)%nat = n)) as [_|_].
  - destruct (init_uniform_ok (weight fc) (- fl) fl h g _ Hw) as (t1 & g1 & E1).
    rewrite E1. cbn [Py.bind].
    assert (Hb' : exists tb', <[weight fc := t1]> h !! bias fc = Some tb').
    { apply lookup_lt_is_Some. rewrite length_insert.
      eapply lookup_lt_Some, Hb. }
    destruct Hb' as [tb' Hb'].
    destruct (init_uniform_ok (bias fc) (- fl) fl _ g1 _ Hb') as (t2 & g2 & E2).
    rewrite E2. eexists _, _. split; [reflexivity|]. split.
    + now rewrite !length_insert.
    + intros q Nw Nb. rewrite !list_lookup_insert_ne by congruence. reflexivity.
  - destruct (fan_in_init_ok (weight fc) h g w Hw) as (t1 & g1 & E1).
    rewrite E1. eexists _, _. split; [reflexivity|]. split.
    + now rewrite length_insert.
    + intros q Nw Nb. rewrite list_lookup_insert_ne by congruence. reflexivity.
Qed.

Lemma lookup_app_at {A} (h l : list A) (j : nat) :
  (h ++ l) !! (length h + j)%nat = l !! j.
Proof. induction h as [|a h IH]; simpl; [reflexivity|exact IH]. Qed.

Lemma lookup_app_at0 {A} (h l : list A) : (h ++ l) !! length h = l !! 0%nat.
Proof. rewrite <- (lookup_app_at h l 0). f_equal. lia. Qed.

Lemma lookup_app_at1 {A} (h l : list A) : (h ++ l) !! S (length h) = l !! 1%nat.
Proof. rewrite <- (lookup_app_at h l 1). f_equal. lia. Qed.

(** The layer just allocated at the end of [h], possibly followed by its
    batch norm ([extra]), is initialised; the tensors of [h] stay. *)
Lemma init_new_layer `{Backend} (i n n_in n_out : nat) (fl : R) (h extra : heap)
    (w : mat) (b : vec) (g : generator) :
  exists h' g',
    init_layer i n
      {| in_features := n_in; out_features := n_out;
         weight := length h; bias := S (length h) |} fl
      ((h ++ [T2 w; T1 b]) ++ extra, g)
    = inr (h', g')
    /\ length h' = (length h + 2 + length extra)%nat
    /\ forall q, (q < length h)%nat -> h' !! q = h !! q.
Proof.
  edestruct (init_layer_ok i n
               {| in_features := n_in; out_features := n_out;
                  weight := length h; bias := S (length h) |} fl
               ((h ++ [T2 w; T1 b]) ++ extra) g) as (h' & g' & E & L & F).
  - simpl. rewrite lookup_app_l by (rewrite length_app; simpl; lia).
    rewrite lookup_app_at0. reflexivity.
  - simpl. rewrite lookup_app_l by (rewrite length_app; simpl; lia).
    rewrite lookup_app_at1. reflexivity.
  - exists h', g'. split; [exact E|]. split.
    + rewrite L, !length_app. simpl. lia.
    + intros q Hq. simpl in F. rewrite F by lia.
      rewrite lookup_app_l by (rewrite length_app; simpl; lia).
      now rewrite lookup_app_l by lia.
Qed.

Lemma params_within_weaken lo hi lo' hi' ls bns :
  (lo' <= lo)%nat -> (hi <= hi')%nat ->
  params_within lo hi ls bns -> params_within lo' hi' ls bns.
Proof.
  intros Hlo Hhi Hf. unfold params_within in *.
  eapply Forall_impl; [exact Hf|]. simpl. intros p Hp. lia.
Qed.

Lemma params_within_app lo hi ls ls' bns bns' :
  params_within lo hi ls bns -> params_within lo hi ls' bns' ->
  params_within lo hi (ls ++ ls') (bns ++ bns').
Proof.
  unfold params_within. rewrite !map_app, !concat_app, !Forall_app.
  tauto.
Qed.

Ltac finish_round E L F :=
  rewrite E; cbn [Py.bind Py.ret];
  first [ eexists _, [_], _, _; split; [reflexivity|]
        | eexists _, [], _, _; rewrite app_nil_r; split; [reflexivity|] ];
  split; [rewrite L; lia|];
  split; [unfold params_within; simpl; rewrite ?length_app, L; simpl;
          repeat constructor; lia
         |exact F].

(** One round of the actor's constructor loop adds a layer and a batch
    norm whose parameters are new. *)
Lemma actor_init_body_ok `{Backend} (layers_ : list nat) (fl : R)
    (ls : list Linear) (bns : list BatchNorm1d) (h : heap) (g : generator)
    (i layer n_in : nat) :
  length ls = i ->
  layers_ !! i = Some n_in ->
  exists fc bns' h' g',
    ActorNet.init_body layers_ fl (ls, bns, (h, g)) (i, layer)
    = inr (ls ++ [fc], bns ++ bns', (h', g'))
    /\ round_ok h h' fc bns'.
Proof.
  intros Li Hn. unfold ActorNet.init_body, Py.getitem, round_ok. rewrite Hn.
  cbn [Py.bind Py.ret].
  destruct (new_Linear_spec n_in layer h g) as (w & b & g1 & ->).
  destruct (new_BatchNorm1d_spec n_in (h ++ [T2 w; T1 b]) g1) as (bw & bb & g2 & ->).
  subst i. rewrite lookup_app_at0. cbn [lookup list_lookup Py.bind Py.ret].
  destruct (init_new_layer (length ls) (length (tail layers_)) n_in layer fl h
              [T1 bw; T1 bb] w b g2) as (h' & g' & E & L & F).
  finish_round E L F.
Qed.

(** One round of the critic's constructor loop adds a layer, and a
    batch norm in the first two rounds, on new parameters. *)
Lemma critic_init_body_ok `{Backend} (layers_ : list nat) (fl : R)
    (action_dim : nat) (ls : list Linear) (bns : list BatchNorm1d) (h : heap)
    (g : generator) (i layer n_in : nat) :
  length ls = i ->
  layers_ !! i = Some n_in ->
  exists fc bns' h' g',
    CriticNet.init_body layers_ fl action_dim (ls, bns, (h, g)) (i, layer)
    = inr (ls ++ [fc], bns ++ bns', (h', g'))
    /\ round_ok h h' fc bns'.
Proof.
  intros Li Hn. unfold CriticNet.init_body, Py.getitem, round_ok. rewrite Hn.
  cbn [Py.bind Py.ret].
  destruct (decide (i = 0%nat)) as [I0|I0];
    [|destruct (decide (i = 1%nat)) as [I1|I1]].
  - destruct (new_Linear_spec n_in layer h g) as (w & b & g1 & ->).
    destruct (new_BatchNorm1d_spec n_in (h ++ [T2 w; T1 b]) g1)
      as (bw & bb & g2 & ->).
    clear I0. subst i. rewrite lookup_app_at0.
    cbn [lookup list_lookup Py.bind Py.ret].
    destruct (init_new_layer (length ls) (length (tail layers_)) n_in layer fl h
                [T1 bw; T1 bb] w b g2) as (h' & g' & E & L & F).
    finish_round E L F.
  - destruct (new_Linear_spec (n_in + action_dim) layer h g) as (w & b & g1 & ->).
    destruct (new_BatchNorm1d_spec n_in (h ++ [T2 w; T1 b]) g1)
      as (bw & bb & g2 & ->).
    clear I0 I1. subst i. rewrite lookup_app_at0.
    cbn [lookup list_lookup Py.bind Py.ret].
    destruct (init_new_layer (length ls) (length (tail layers_))
                (n_in + action_dim) layer fl h [T1 bw; T1 bb] w b g2)
      as (h' & g' & E & L & F).
    finish_round E L F.
  - destruct (new_Linear_spec n_in layer h g) as (w & b & g1 & ->).
    clear I0 I1. subst i. rewrite lookup_app_at0.
    cbn [lookup list_lookup Py.bind Py.ret].
    destruct (init_new_layer (length ls) (length (tail layers_)) n_in layer fl h
                [] w b g1) as (h' & g' & E & L & F).
    rewrite app_nil_r in E.
    finish_round E L F.
Qed.

(** A constructor loop whose every round succeeds and adds one layer with
    new parameters. *)
Lemma init_loop_ok {G : Type}
    (body : list Linear * list BatchNorm1d * (heap * G) -> nat * nat ->
            Py.result (list Linear * list BatchNorm1d * (heap * G)))
    (layers_ : list nat) :
  (forall ls bns h g i layer,
     length ls = i -> (i < length layers_)%nat ->
     exists fc bns' h' g',
       body (ls, bns, (h, g)) (i, layer) = inr (ls ++ [fc], bns ++ bns', (h', g'))
       /\ round_ok h h' fc bns') ->
  forall (xs : list nat) (k : nat) ls bns h g,
    length ls = k ->
    (k + length xs <= length layers_)%nat ->
    exists ls' bns' h' g',
      Py.for_each body (combine (seq k (length xs)) xs) (ls, bns, (h, g))
      = inr (ls ++ ls', bns ++ bns', (h', g'))
      /\ length ls' = length xs
      /\ (length h <= length h')%nat
      /\ params_within (length h) (length h') ls' bns'
      /\ forall q, (q < length h)%nat -> h' !! q = h !! q.
Proof.
  intros Hbody. induction xs as [|x xs IH]; intros k ls bns h g Lk Hk.
  - exists [], [], h, g. simpl. rewrite !app_nil_r.
    repeat split; try lia. constructor.
  - simpl in Hk. simpl combine. simpl Py.for_each.
    destruct (Hbody ls bns h g k x Lk)
      as (fc & bns1 & h1 & g1 & E1 & L1 & W1 & F1); [lia|].
    rewrite E1. cbn [Py.bind].
    destruct (IH (S k) (ls ++ [fc]) (bns ++ bns1) h1 g1)
      as (ls' & bns' & h' & g' & E & Ll & L & W & F).
    { rewrite length_app. simpl. lia. }
    { lia. }
    exists (fc :: ls'), (bns1 ++ bns'), h', g'.
    rewrite E, <- !app_assoc. simpl. split; [reflexivity|].
    split; [now rewrite Ll|]. split; [lia|]. split.
    + apply (params_within_app _ _ [fc] ls' bns1 bns').
      * eapply params_within_weaken; [| |exact W1]; lia.
      * eapply params_within_weaken; [| |exact W]; lia.
    + intros q Hq. rewrite F by lia. now apply F1.
Qed.

(** [ActorNet(layers, ...)] with at least three sizes returns a network
    of [len(layers) - 1] linear layers, on new parameters. *)
Lemma ActorNet_init_ok `{Backend} (layers_ : list nat) (acts : list string)
    (fl : R) (h : heap) (g : generator) :
  (3 <= length layers_)%nat ->
  exists net h' g',
    ActorNet.init layers_ acts fl (h, g) = inr (net, (h', g'))
    /\ length (ActorNet.layers net) = (length layers_ - 1)%nat
    /\ ActorNet.activations net = acts
    /\ (length h <= length h')%nat
    /\ params_within (length h) (length h')
         (ActorNet.layers net) (ActorNet.batch_norm_ops net)
    /\ forall q, (q < length h)%nat -> h' !! q = h !! q.
Proof.
  intros L3. unfold ActorNet.init.
  destruct (decide (3 <= length layers_)%nat) as [_|N]; [|lia].
  unfold Py.enumerate.
  destruct (init_loop_ok (ActorNet.init_body layers_ fl) layers_) with
    (xs := tail layers_) (k := 0%nat) (ls := @nil Linear)
    (bns := @nil BatchNorm1d) (h := h) (g := g)
    as (ls' & bns' & h' & g' & E & Ll & Lh & W & F).
  - intros ls bns h0 g0 i layer Li Hi.
    destruct (lookup_lt_is_Some_2 layers_ i Hi) as [n_in Hn].
    exact (actor_init_body_ok layers_ fl ls bns h0 g0 i layer n_in Li Hn).
  - reflexivity.
  - destruct layers_; simpl in *; lia.
  - rewrite E. cbn [Py.bind Py.ret]. simpl app.
    eexists _, h', g'. split; [reflexivity|]. simpl.
    assert (Lt : length (tail layers_) = (length layers_ - 1)%nat)
      by (destruct layers_; simpl; lia).
    split; [congruence|]. split; [reflexivity|]. auto.
Qed.

(** [CriticNet(layers, ...)] with at least three sizes returns a network
    of [len(layers) - 1] linear layers, on new parameters. *)
Lemma CriticNet_init_ok `{Backend} (layers_ : list nat) (acts : list string)
    (fl : R) (action_dim : nat) (h : heap) (g : generator) :
  (3 <= length layers_)%nat ->
  exists net h' g',
    CriticNet.init layers_ acts fl action_dim (h, g) = inr (net, (h', g'))
    /\ length (CriticNet.layers net) = (length layers_ - 1)%nat
    /\ CriticNet.activations net = acts
    /\ (length h <= length h')%nat
    /\ params_within (length h) (length h')
         (CriticNet.layers net) (CriticNet.batch_norm_ops net)
    /\ forall q, (q < length h)%nat -> h' !! q = h !! q.
Proof.
  intros L3. unfold CriticNet.init.
  destruct (decide (3 <= length layers_)%nat) as [_|N]; [|lia].
  unfold Py.enumerate.
  destruct (init_loop_ok (CriticNet.init_body layers_ fl action_dim) layers_) with
    (xs := tail layers_) (k := 0%nat) (ls := @nil Linear)
    (bns := @nil BatchNorm1d) (h := h) (g := g)
    as (ls' & bns' & h' & g' & E & Ll & Lh & W & F).
  - intros ls bns h0 g0 i layer Li Hi.
    destruct (lookup_lt_is_Some_2 layers_ i Hi) as [n_in Hn].
    exact (critic_init_body_ok layers_ fl action_dim ls bns h0 g0 i layer n_in Li Hn).
  - reflexivity.
  - destruct layers_; simpl in *; lia.
  - rewrite E. cbn [Py.bind Py.ret]. simpl app.
    eexists _, h', g'. split; [reflexivity|]. simpl.
    assert (Lt : length (tail layers_) = (length layers_ - 1)%nat)
      by (destruct layers_; simpl; lia).
    split; [congruence|]. split; [reflexivity|]. auto.
Qed.

(** Both constructors refuse fewer than three sizes. *)
Lemma ActorNet_init_short `{Backend} (layers_ : list nat) (acts : list string)
    (fl : R) (s : heap * generator) :
  (length layers_ < 3)%nat ->
  ActorNet.init layers_ acts fl s
  = inl (Py.AssertionError "Invalid layer schema for actor network").
Proof.
  intros L. unfold ActorNet.init.
  destruct (decide (3 <= length layers_)%nat); [lia|reflexivity].
Qed.

Lemma CriticNet_init_short `{Backend} (layers_ : list nat) (acts : list string)
    (fl : R) (action_dim : nat) (s : heap * generator) :
  (length layers_ < 3)%nat ->
  CriticNet.init layers_ acts fl action_dim s
  = inl (Py.AssertionError "Invalid layer schema for actor network").
Proof.
  intros L. unfold CriticNet.init.
  destruct (decide (3 <= length layers_)%nat); [lia|reflexivity].
Qed.

(** *** Deep copies *)

(** A deep copy appends the copies [ts] of the parameters to the store,
    in the order of [parameters()], and the copy's parameters are these
    new tensors. *)
Lemma deepcopy_param_ok (p : param) (h : heap) :
  (p < length h)%nat ->
  exists t, h !! p = Some t /\ deepcopy_param p h = inr (length h, h ++ [t]).
Proof.
  intros Hp. destruct (lookup_lt_is_Some_2 h p Hp) as [t Ht].
  exists t. split; [exact Ht|].
  unfold deepcopy_param. now rewrite (data_lookup h p t Ht).
Qed.

Lemma deepcopy_Linear_ok (fc : Linear) (h : heap) :
  Forall (fun p => (p < length h)%nat) (Linear_parameters fc) ->
  exists fc' ts,
    deepcopy_Linear fc h = inr (fc', h ++ ts)
    /\ Linear_parameters fc' = seq (length h) (length ts)
    /\ Forall2 (fun p t => h !! p = Some t) (Linear_parameters fc) ts.
Proof.
  intros Hf. unfold Linear_parameters in Hf.
  apply Forall_cons in Hf as [Hw Hf]. apply Forall_cons in Hf as [Hb _].
  unfold deepcopy_Linear.
  destruct (deepcopy_param_ok (weight fc) h Hw) as (tw & Htw & ->). cbn [Py.bind].
  destruct (deepcopy_param_ok (bias fc) (h ++ [tw])) as (tb & Htb & ->).
  { rewrite length_app. simpl. lia. }
  rewrite lookup_app_l in Htb by lia.
  cbn [Py.bind Py.ret]. eexists _, [tw; tb]. rewrite <- app_assoc.
  split; [reflexivity|]. split.
  - unfold Linear_parameters. simpl. rewrite length_app. simpl.
    now rewrite Nat.add_1_r.
  - unfold Linear_parameters. repeat constructor; assumption.
Qed.

Lemma deepcopy_BatchNorm1d_ok (bn : BatchNorm1d) (h : heap) :
  Forall (fun p => (p < length h)%nat) (BatchNorm1d_parameters bn) ->
  exists bn' ts,
    deepcopy_BatchNorm1d bn h = inr (bn', h ++ ts)
    /\ BatchNorm1d_parameters bn' = seq (length h) (length ts)
    /\ Forall2 (fun p t => h !! p = Some t) (BatchNorm1d_parameters bn) ts.
Proof.
  intros Hf. unfold BatchNorm1d_parameters in Hf.
  apply Forall_cons in Hf as [Hw Hf]. apply Forall_cons in Hf as [Hb _].
  unfold deepcopy_BatchNorm1d.
  destruct (deepcopy_param_ok (bn_weight bn) h Hw) as (tw & Htw & ->).
  cbn [Py.bind].
  destruct (deepcopy_param_ok (bn_bias bn) (h ++ [tw])) as (tb & Htb & ->).
  { rewrite length_app. simpl. lia. }
  rewrite lookup_app_l in Htb by lia.
  cbn [Py.bind Py.ret]. eexists _, [tw; tb]. rewrite <- app_assoc.
  split; [reflexivity|]. split.
  - unfold BatchNorm1d_parameters. simpl. rewrite length_app. simpl.
    now rewrite Nat.add_1_r.
  - unfold BatchNorm1d_parameters. repeat constructor; assumption.
Qed.

Lemma deepcopy_list_ok {A} (copy : A -> heap -> Py.result (A * heap))
    (params_of : A -> list param) :
  (forall a h, Forall (fun p => (p < length h)%nat) (params_of a) ->
     exists a' ts,
       copy a h = inr (a', h ++ ts)
       /\ params_of a' = seq (length h) (length ts)
       /\ Forall2 (fun p t => h !! p = Some t) (params_of a) ts) ->
  forall (l : list A) (h : heap),
    Forall (fun p => (p < length h)%nat) (concat (map params_of l)) ->
    exists l' ts,
      deepcopy_list copy l h = inr (l', h ++ ts)
      /\ concat (map params_of l') = seq (length h) (length ts)
      /\ Forall2 (fun p t => h !! p = Some t) (concat (map params_of l)) ts.
Proof.
  intros Hcopy. induction l as [|a l IH]; intros h Hf.
  - exists [], []. simpl. rewrite app_nil_r. repeat split. constructor.
  - simpl in Hf. apply Forall_app in Hf as [Ha Hl].
    destruct (Hcopy a h Ha) as (a' & ts1 & E1 & P1 & C1).
    destruct (IH (h ++ ts1)) as (l' & ts2 & E & P2 & C2).
    { eapply Forall_impl; [exact Hl|]. simpl. intros p Hp.
      rewrite length_app. lia. }
    exists (a' :: l'), (ts1 ++ ts2). simpl. rewrite E1. cbn [Py.bind]. rewrite E.
    cbn [Py.bind Py.ret]. rewrite <- app_assoc. split; [reflexivity|]. split.
    + rewrite P1, P2, !length_app. symmetry. apply seq_app.
    + apply Forall2_app; [exact C1|].
      clear -C2 Hl. induction C2 as [|p t ps ts Hp _ IHC]; constructor.
      * apply Forall_cons in Hl as [Hlt _].
        now rewrite lookup_app_l in Hp by exact Hlt.
      * apply IHC. now apply Forall_cons in Hl as [_ Hl].
Qed.

Lemma ActorNet_deepcopy_ok (net : ActorNet.t) (lo : nat) (h : heap) :
  params_within lo (length h) (ActorNet.layers net) (ActorNet.batch_norm_ops net) ->
  exists net' ts,
    ActorNet.deepcopy net h = inr (net', h ++ ts)
    /\ Torch.parameters net' = seq (length h) (length ts)
    /\ Forall2 (fun p t => h !! p = Some t) (Torch.parameters net) ts.
Proof.
  unfold params_within. intros W. apply Forall_app in W as [Wl Wb].
  unfold ActorNet.deepcopy.
  destruct (deepcopy_list_ok deepcopy_Linear Linear_parameters deepcopy_Linear_ok
              (ActorNet.layers net) h) as (ls & ts1 & -> & P1 & C1).
  { eapply Forall_impl; [exact Wl|]. simpl. intros p Hp. lia. }
  cbn [Py.bind].
  destruct (deepcopy_list_ok deepcopy_BatchNorm1d BatchNorm1d_parameters
              deepcopy_BatchNorm1d_ok (ActorNet.batch_norm_ops net) (h ++ ts1))
    as (bns & ts2 & -> & P2 & C2).
  { eapply Forall_impl; [exact Wb|]. simpl. intros p Hp. rewrite length_app. lia. }
  cbn [Py.bind Py.ret]. eexists _, (ts1 ++ ts2). rewrite <- app_assoc.
  split; [reflexivity|]. simpl. split.
  - rewrite P1, P2, !length_app. symmetry. apply seq_app.
  - apply Forall2_app; [exact C1|].
    clear -C2 Wb. induction C2 as [|p t ps ts Hp _ IHC]; constructor.
    + apply Forall_cons in Wb as [Hlt _].
      rewrite lookup_app_l in Hp by lia. exact Hp.
    + apply IHC. now apply Forall_cons in Wb as [_ Wb].
Qed.

Lemma CriticNet_deepcopy_ok (net : CriticNet.t) (lo : nat) (h : heap) :
  params_within lo (length h) (CriticNet.layers net) (CriticNet.batch_norm_ops net) ->
  exists net' ts,
    CriticNet.deepcopy net h = inr (net', h ++ ts)
    /\ Torch.parameters net' = seq (length h) (length ts)
    /\ Forall2 (fun p t => h !! p = Some t) (Torch.parameters net) ts.
Proof.
  unfold params_within. intros W. apply Forall_app in W as [Wl Wb].
  unfold CriticNet.deepcopy.
  destruct (deepcopy_list_ok deepcopy_Linear Linear_parameters deepcopy_Linear_ok
              (CriticNet.layers net) h) as (ls & ts1 & -> & P1 & C1).
  { eapply Forall_impl; [exact Wl|]. simpl. intros p Hp. lia. }
  cbn [Py.bind].
  destruct (deepcopy_list_ok deepcopy_BatchNorm1d BatchNorm1d_parameters
              deepcopy_BatchNorm1d_ok (CriticNet.batch_norm_ops net) (h ++ ts1))
    as (bns & ts2 & -> & P2 & C2).
  { eapply Forall_impl; [exact Wb|]. simpl. intros p Hp. rewrite length_app. lia. }
  cbn [Py.bind Py.ret]. eexists _, (ts1 ++ ts2). rewrite <- app_assoc.
  split; [reflexivity|]. simpl. split.
  - rewrite P1, P2, !length_app. symmetry. apply seq_app.
  - apply Forall2_app; [exact C1|].
    clear -C2 Wb. induction C2 as [|p t ps ts Hp _ IHC]; constructor.
    + apply Forall_cons in Wb as [Hlt _].
      rewrite lookup_app_l in Hp by lia. exact Hp.
    + apply IHC. now apply Forall_cons in Wb as [_ Wb].
Qed.

(** A copy made this way is ready for [_soft_update] in every store
    that still has the tensors of [h ++ ts]. *)
Lemma copy_target_ready (h ts h' : heap) (lo : nat) (ps tps : list param) :
  Forall (fun p => (lo <= p < length h)%nat) ps ->
  tps = seq (length h) (length ts) ->
  Forall2 (fun p t => h !! p = Some t) ps ts ->
  (forall q, (q < length (h ++ ts))%nat -> h' !! q = (h ++ ts) !! q) ->
  target_ready h' ps tps.
Proof.
  intros W -> C F. unfold target_ready. split; [apply NoDup_seq|]. split.
  - intros q Hq Hq'. apply elem_of_seq in Hq.
    eapply Forall_forall in W; [|exact Hq']. lia.
  - intros i tp p Ht Hp.
    apply lookup_seq in Ht as [-> Hi].
    destruct (Forall2_lookup_l _ _ _ _ _ C Hp) as (t & Hts & Hpt).
    exists t, t. split; [|split; [|reflexivity]].
    + rewrite F by (rewrite length_app; lia).
      now rewrite lookup_app_at.
    + assert (Hlt : (p < length h)%nat) by (eapply lookup_lt_Some, Hpt).
      rewrite F by (rewrite length_app; lia).
      now rewrite lookup_app_l by exact Hlt.
Qed.

(** *** The trainer *)

Lemma setitem_first_ok {A} (l : list A) (v : A) :
  (0 < length l)%nat ->
  exists l', Py.setitem_first l v = inr l' /\ length l' = length l.
Proof.
  destruct l as [|a l]; simpl; [lia|]. intros _. eexists. split; reflexivity.
Qed.

Lemma setitem_last_ok {A} (l : list A) (v : A) :
  (0 < length l)%nat ->
  exists l', Py.setitem_last l v = inr l' /\ length l' = length l.
Proof.
  destruct l as [|a l]; [simpl; lia|]. intros _. unfold Py.setitem_last.
  eexists. split; [reflexivity|]. apply length_insert.
Qed.

Lemma setitem_first_length {A} (l l' : list A) (v : A) :
  Py.setitem_first l v = inr l' -> length l' = length l.
Proof. destruct l; simpl; intros E; inversion E. reflexivity. Qed.

Lemma setitem_last_length {A} (l l' : list A) (v : A) :
  Py.setitem_last l v = inr l' -> length l' = length l.
Proof.
  destruct l; unfold Py.setitem_last; intros E; inversion E.
  apply length_insert.
Qed.

Lemma optimizer_func_ADAM `{Backend} (name : string) :
  name = "ADAM"%string -> optimizer_func name = inr Adam.
Proof. intros ->. reflexivity. Qed.

Lemma optimizer_func_other `{Backend} (name : string) :
  name <> "ADAM"%string ->
  optimizer_func name
  = inl (Py.NotImplementedError (name ++ " optimizer not implemented")).
Proof.
  intros N. unfold optimizer_func.
  destruct (String.eqb_spec name "ADAM"); [contradiction|reflexivity].
Qed.

Lemma params_within_parameters lo hi ls bns :
  params_within lo hi ls bns ->
  forall q, q ∈ concat (map Linear_parameters ls)
                ++ concat (map BatchNorm1d_parameters bns) ->
            (lo <= q < hi)%nat.
Proof. unfold params_within. intros W q Hq. eapply Forall_forall in W; eauto. Qed.

(** With the optimizer ["ADAM"] and at least three sizes for each
    network the constructor returns a trainer whose networks have
    [len(layers) - 1] linear layers, whose optimizers hold the parameters
    of their own networks, and whose target networks are ready for
    [_soft_update]. *)
Lemma init_ok `{Backend} (parameters : parameters_) (env : env_details)
    (h : heap) (g : generator) :
  optimizer (shared_training_ parameters) = "ADAM"%string ->
  (3 <= length (layers (actor_training parameters)))%nat ->
  (3 <= length (layers (critic_training parameters)))%nat ->
  exists self,
    Trainer.init parameters env (h, g) = inr self
    /\ length (ActorNet.layers (actor self))
       = (length (layers (actor_training parameters)) - 1)%nat
    /\ length (CriticNet.layers (critic self))
       = (length (layers (critic_training parameters)) - 1)%nat
    /\ optimizers_own_networks self
    /\ target_ready (mem self) (Torch.parameters (actor self))
         (Torch.parameters (actor_target self))
    /\ target_ready (mem self) (Torch.parameters (critic self))
         (Torch.parameters (critic_target self)).
Proof.
  intros Hopt La Lc. unfold Trainer.init.
  rewrite (optimizer_func_ADAM _ Hopt). cbn [Py.bind].
  destruct (setitem_first_ok (layers (actor_training parameters))
              (env_state_dim env)) as (la1 & -> & Ela1); [lia|].
  cbn [Py.bind].
  destruct (setitem_last_ok la1 (env_action_dim env)) as (la2 & -> & Ela2); [lia|].
  cbn [Py.bind]. simpl layers. simpl activations.
  destruct (ActorNet_init_ok la2 (activations (actor_training parameters))
              (final_layer_init_ (shared_training_ parameters)) h g)
    as (a & h1 & g1 & -> & Al & _ & Lh1 & Wa & _); [lia|].
  cbn [Py.bind].
  destruct (ActorNet_deepcopy_ok a (length h) h1 Wa) as (at_ & tsa & -> & Pa & Ca).
  cbn [Py.bind].
  destruct (setitem_first_ok (layers (critic_training parameters))
              (env_state_dim env)) as (lc1 & -> & Elc1); [lia|].
  cbn [Py.bind].
  destruct (setitem_last_ok lc1 1%nat) as (lc2 & -> & Elc2); [lia|].
  cbn [Py.bind]. simpl layers. simpl activations.
  destruct (CriticNet_init_ok lc2 (activations (critic_training parameters))
              (final_layer_init_ (shared_training_ parameters))
              (env_action_dim env) (h1 ++ tsa) g1)
    as (c & h3 & g3 & -> & Cl & _ & Lh3 & Wc & Fc); [lia|].
  cbn [Py.bind].
  destruct (CriticNet_deepcopy_ok c (length (h1 ++ tsa)) h3 Wc)
    as (ct & tsc & -> & Pc & Cc).
  cbn [Py.bind Py.ret]. eexists. split; [reflexivity|]. simpl.
  split; [lia|]. split; [lia|]. split; [|split].
  - unfold optimizers_own_networks. simpl.
    split; [reflexivity|]. split; [reflexivity|].
    intros q Hqa Hqc.
    apply (params_within_parameters _ _ _ _ Wa) in Hqa.
    apply (params_within_parameters _ _ _ _ Wc) in Hqc.
    rewrite length_app in Hqc. lia.
  - apply (copy_target_ready h1 tsa (h3 ++ tsc) (length h)); try assumption.
    intros q Hq. rewrite lookup_app_l by lia. now apply Fc.
  - apply (copy_target_ready h3 tsc (h3 ++ tsc) (length (h1 ++ tsa)));
      try assumption. reflexivity.
Qed.

(** A trainer that was constructed had a valid configuration. *)
Lemma init_inv `{Backend} (parameters : parameters_) (env : env_details)
    (s : heap * generator) (self : Trainer.t) :
  Trainer.init parameters env s = inr self ->
  optimizer (shared_training_ parameters) = "ADAM"%string
  /\ (3 <= length (layers (actor_training parameters)))%nat
  /\ (3 <= length (layers (critic_training parameters)))%nat.
Proof.
  intros E. unfold Trainer.init in E.
  destruct (String.eqb_spec (optimizer (shared_training_ parameters)) "ADAM")
    as [Hopt|Hopt].
  2:{ rewrite (optimizer_func_other _ Hopt) in E. discriminate E. }
  split; [exact Hopt|].
  rewrite (optimizer_func_ADAM _ Hopt) in E. cbn [Py.bind] in E.
  destruct (Py.setitem_first (layers (actor_training parameters)) (env_state_dim env))
    as [e|la1] eqn:E1; [discriminate E|]. cbn [Py.bind] in E.
  destruct (Py.setitem_last la1 (env_action_dim env)) as [e|la2] eqn:E2;
    [discriminate E|]. cbn [Py.bind] in E. simpl layers in E.
  apply setitem_first_length in E1. apply setitem_last_length in E2.
  destruct (decide (3 <= length la2)%nat) as [La|La].
  2:{ rewrite ActorNet_init_short in E by lia. discriminate E. }
  split; [lia|].
  destruct (ActorNet.init la2 _ _ s) as [e|[a [h1 g1]]]; [discriminate E|].
  cbn [Py.bind] in E.
  destruct (ActorNet.deepcopy a h1) as [e|[at_ h2]]; [discriminate E|].
  cbn [Py.bind] in E.
  destruct (Py.setitem_first (layers (critic_training parameters)) (env_state_dim env))
    as [e|lc1] eqn:E3; [discriminate E|]. cbn [Py.bind] in E.
  destruct (Py.setitem_last lc1 1%nat) as [e|lc2] eqn:E4;
    [discriminate E|]. cbn [Py.bind] in E. simpl layers in E.
  apply setitem_first_length in E3. apply setitem_last_length in E4.
  destruct (decide (3 <= length lc2)%nat) as [Lc|Lc]; [lia|].
  rewrite CriticNet_init_short in E by lia. discriminate E.
Qed.

End Construction.

(** ** The optimizer steps *)

Section OptimizerSteps.

Import Tensor Torch Numpy Nets Trainer.
Local Open Scope R_scope.

(** [optimizer.step()] writes the parameters the optimizer was built
    over and no other tensor. *)
Lemma step_params_frame `{Backend} (lr wd : R) (gs : grads) (ps : list param) :
  forall (sts : list adam_state) (h h' : heap) (sts' : list adam_state),
    step_params lr wd ps sts gs h = inr (h', sts') ->
    length h' = length h /\ forall q, q ∉ ps -> h' !! q = h !! q.
Proof.
  induction ps as [|p ps IH]; intros sts h h' sts' E.
  - simpl in E. inversion E. split; reflexivity.
  - destruct sts as [|st sts]; simpl in E; [inversion E; split; reflexivity|].
    destruct (gs !! p) as [g|].
    + destruct (data h p) as [e|t]; [discriminate E|]. cbn [Py.bind] in E.
      destruct (adam_update lr wd st t g) as [t' st'].
      destruct (step_params lr wd ps sts gs (copy_ p t' h)) as [e|[h1 sts1]] eqn:E1;
        [discriminate E|].
      cbn [Py.bind Py.ret] in E. inversion E; subst h1 sts'.
      destruct (IH _ _ _ _ E1) as [L F]. split.
      * rewrite L. apply length_insert.
      * intros q Hq. rewrite F.
        -- apply list_lookup_insert_ne. intros ->. apply Hq. left.
        -- intros Hq'. apply Hq. right. exact Hq'.
    + destruct (step_params lr wd ps sts gs h) as [e|[h1 sts1]] eqn:E1;
        [discriminate E|].
      cbn [Py.bind Py.ret] in E. inversion E; subst h1 sts'.
      destruct (IH _ _ _ _ E1) as [L F]. split; [exact L|].
      intros q Hq. apply F. intros Hq'. apply Hq. right. exact Hq'.
Qed.

Lemma step_frame `{Backend} (opt opt' : Optimizer) (gs : grads) (h h' : heap) :
  step opt gs h = inr (h', opt') ->
  params opt' = params opt
  /\ length h' = length h
  /\ forall q, q ∉ params opt -> h' !! q = h !! q.
Proof.
  unfold step. intros E.
  destruct (step_params (lr opt) (weight_decay opt) (params opt) (state opt) gs h)
    as [e|[h1 sts]] eqn:E1; [discriminate E|].
  cbn [Py.bind Py.ret] in E. inversion E; subst h1 opt'. simpl.
  split; [reflexivity|]. eapply step_params_frame, E1.
Qed.

(** The optimizer steps keep the optimizers on their networks. *)
Lemma critic_step_keeps `{Backend} (self self' : Trainer.t) (l : train_locals)
    (loss : R) :
  critic_step self l = inr (loss, self') ->
  optimizers_own_networks self -> optimizers_own_networks self'.
Proof.
  intros E (Oa & Oc & D). unfold critic_step in E.
  destruct (mse_loss _ _) as [e|lc]; [discriminate E|]. cbn [Py.bind] in E.
  destruct (backward _ _ _ _) as [e|gs]; [discriminate E|]. cbn [Py.bind] in E.
  destruct (step (critic_optimizer self) gs (mem self)) as [e|[h opt]] eqn:Es;
    [discriminate E|].
  cbn [Py.bind Py.ret] in E. inversion E; subst self'; clear E.
  destruct (step_frame _ _ _ _ _ Es) as (P & _).
  unfold optimizers_own_networks. simpl. rewrite P. auto.
Qed.

Lemma actor_step_keeps `{Backend} (self self' : Trainer.t) (l : train_locals) :
  actor_step self l = inr self' ->
  optimizers_own_networks self -> optimizers_own_networks self'.
Proof.
  intros E (Oa & Oc & D). unfold actor_step in E.
  destruct (loss_actor_at self l (mem self)) as [e|loss]; [discriminate E|].
  cbn [Py.bind] in E.
  destruct (backward _ _ _ _) as [e|gs]; [discriminate E|]. cbn [Py.bind] in E.
  destruct (step (actor_optimizer self) gs (mem self)) as [e|[h opt]] eqn:Es;
    [discriminate E|].
  cbn [Py.bind Py.ret] in E. inversion E; subst self'; clear E.
  destruct (step_frame _ _ _ _ _ Es) as (P & _).
  unfold optimizers_own_networks. simpl. rewrite P. auto.
Qed.

(** C9. On a trainer whose optimizers hold the parameters of their own
    networks, as the constructor builds it, the actor's loss, backward
    pass and optimizer step of [train] (lines 110 to 113) leave every
    tensor that is not a parameter of the live actor as it was; the
    critic's parameters are among these. No tensor is created, the
    networks are the same objects, and the optimizers still hold the
    same parameters afterwards. *)
Theorem actor_step_leaves_critic `{Backend} (self self' : Trainer.t)
    (l : train_locals) :
  optimizers_own_networks self ->
  actor_step self l = inr self' ->
  (forall q, q ∈ Torch.parameters (critic self) -> mem self' !! q = mem self !! q)
  /\ (forall q, q ∉ Torch.parameters (actor self) -> mem self' !! q = mem self !! q)
  /\ length (mem self') = length (mem self)
  /\ actor self' = actor self /\ critic self' = critic self
  /\ params (actor_optimizer self') = Torch.parameters (actor self')
  /\ params (critic_optimizer self') = Torch.parameters (critic self').
Proof.
  intros (Oa & Oc & D) E. unfold actor_step in E.
  destruct (loss_actor_at self l (mem self)) as [e|loss]; [discriminate E|].
  cbn [Py.bind] in E.
  destruct (backward _ _ _ _) as [e|gs]; [discriminate E|]. cbn [Py.bind] in E.
  destruct (step (actor_optimizer self) gs (mem self)) as [e|[h opt]] eqn:Es;
    [discriminate E|].
  cbn [Py.bind Py.ret] in E. inversion E; subst self'; clear E. simpl.
  destruct (step_frame _ _ _ _ _ Es) as (P & L & F). rewrite Oa in F.
  assert (Fa : forall q, q ∉ Torch.parameters (actor self) -> h !! q = mem self !! q)
    by exact F.
  split; [|split; [exact Fa|split; [exact L|]]].
  - intros q Hq. apply Fa. intros Hq'. exact (D q Hq' Hq).
  - rewrite P. auto.
Qed.

(** The constructor establishes the hypothesis of C9, and [train]
    keeps it. *)
Lemma init_owns `{Backend} (parameters : parameters_) (env : env_details)
    (s : heap * generator) (self : Trainer.t) :
  Trainer.init parameters env s = inr self -> optimizers_own_networks self.
Proof.
  intros E. destruct s as [h g].
  destruct (init_inv parameters env (h, g) self E) as (Ho & La & Lc).
  destruct (init_ok parameters env h g Ho La Lc) as (self0 & E0 & _ & _ & O & _).
  rewrite E in E0. inversion E0; subst self0. exact O.
Qed.

(** The trainer the constructor returns satisfies the hypotheses of C1
    for both of its target networks. *)
Lemma init_targets_ready `{Backend} (parameters : parameters_) (env : env_details)
    (s : heap * generator) (self : Trainer.t) :
  Trainer.init parameters env s = inr self ->
  target_ready (mem self) (Torch.parameters (actor self))
    (Torch.parameters (actor_target self))
  /\ target_ready (mem self) (Torch.parameters (critic self))
       (Torch.parameters (critic_target self)).
Proof.
  intros E. destruct s as [h g].
  destruct (init_inv parameters env (h, g) self E) as (Ho & La & Lc).
  destruct (init_ok parameters env h g Ho La Lc)
    as (self0 & E0 & _ & _ & _ & Ta & Tc).
  rewrite E in E0. inversion E0; subst self0. split; assumption.
Qed.

Lemma soft_updates_keeps `{Backend} (self self' : Trainer.t) :
  soft_updates self = inr self' ->
  optimizers_own_networks self -> optimizers_own_networks self'.
Proof.
  intros E O. unfold soft_updates in E.
  destruct (_soft_update (actor self) _ _ _) as [e|h1]; [discriminate E|].
  cbn [Py.bind] in E.
  destruct (_soft_update (critic self) _ _ _) as [e|h2]; [discriminate E|].
  cbn [Py.bind Py.ret] in E. inversion E; subst self'. exact O.
Qed.

Lemma train_keeps_ownership `{Backend} {V} (self self' : Trainer.t)
    (samples : list ndarray) (evaluator : bool) (episode_values : option V)
    (r : option (report V)) :
  train self samples evaluator episode_values = inr (self', r) ->
  optimizers_own_networks self -> optimizers_own_networks self'.
Proof.
  intros E O. unfold train in E.
  destruct (train_head self samples) as [e|l]; [discriminate E|].
  cbn [Py.bind] in E.
  destruct (critic_step self l) as [e|[loss s1]] eqn:E1; [discriminate E|].
  cbn [Py.bind] in E.
  destruct (actor_step s1 l) as [e|s2] eqn:E2; [discriminate E|].
  cbn [Py.bind] in E.
  destruct (soft_updates s2) as [e|s3] eqn:E3; [discriminate E|].
  cbn [Py.bind] in E.
  assert (O3 : optimizers_own_networks s3).
  { eapply soft_updates_keeps; [exact E3|].
    eapply actor_step_keeps; [exact E2|].
    eapply critic_step_keeps; [exact E1|exact O]. }
  destruct evaluator; [destruct episode_values; [|discriminate E]|];
    inversion E; subst; exact O3.
Qed.

Lemma critic_step_networks `{Backend} (self self' : Trainer.t) (l : train_locals)
    (loss : R) :
  critic_step self l = inr (loss, self') ->
  actor self' = actor self /\ critic self' = critic self.
Proof.
  intros E. unfold critic_step in E.
  destruct (mse_loss _ _) as [e|lc]; [discriminate E|]. cbn [Py.bind] in E.
  destruct (backward _ _ _ _) as [e|gs]; [discriminate E|]. cbn [Py.bind] in E.
  destruct (step _ _ _) as [e|[h opt]]; [discriminate E|].
  cbn [Py.bind Py.ret] in E. inversion E; subst self'. split; reflexivity.
Qed.

Lemma actor_step_witness :
  exists l loss self1 self2,
    train_head (H := Examples.toy) Examples.trainer0 Examples.batch9 = inr l
    /\ critic_step Examples.trainer0 l = inr (loss, self1)
    /\ actor_step self1 l = inr self2
    /\ mem self2 !! 16%nat = mem self1 !! 16%nat.
Proof.
  assert (X : exists l loss self1 self2,
             train_head (H := Examples.toy) Examples.trainer0 Examples.batch9 = inr l
             /\ critic_step Examples.trainer0 l = inr (loss, self1)
             /\ actor_step self1 l = inr self2).
  { do 4 eexists. repeat split; reflexivity. }
  destruct X as (l & loss & self1 & self2 & El & Ec & Ea).
  exists l, loss, self1, self2. repeat split; try assumption.
  destruct (actor_step_leaves_critic (H := Examples.toy) self1 self2 l)
    as (C & _).
  - eapply critic_step_keeps; [exact Ec|].
    exact (init_owns _ _ _ _ init_trainer0).
  - exact Ea.
  - apply C. destruct (critic_step_networks _ _ _ _ Ec) as [_ ->].
    simpl. left.
Defined.

End OptimizerSteps.

(** ** The exceptions of train *)

Section TrainExceptions.

Import Tensor Torch Numpy Nets Trainer.
Local Open Scope R_scope.

Lemma raises_only_ret {A} (P : Py.exn -> Prop) (a : A) :
  Py.raises_only P (Py.ret a).
Proof. intros e E. discriminate E. Qed.

Lemma raises_only_raise {A} (P : Py.exn -> Prop) (e : Py.exn) :
  P e -> Py.raises_only P (@Py.raise A e).
Proof. intros He e' E. inversion E; subst e'. exact He. Qed.

Lemma raises_only_bind {A B} (P : Py.exn -> Prop) (m : Py.result A)
    (k : A -> Py.result B) :
  Py.raises_only P m -> (forall a, Py.raises_only P (k a)) ->
  Py.raises_only P (Py.bind m k).
Proof.
  intros Hm Hk e E. destruct m as [e0|a]; simpl in E.
  - inversion E; subst e0. now apply Hm.
  - now apply (Hk a).
Qed.

Lemma raises_only_for_each {A S} (P : Py.exn -> Prop)
    (body : S -> A -> Py.result S) (xs : list A) :
  (forall s x, Py.raises_only P (body s x)) ->
  forall s, Py.raises_only P (Py.for_each body xs s).
Proof.
  intros Hb. induction xs as [|x xs IH]; intros s; simpl.
  - apply raises_only_ret.
  - apply raises_only_bind; [apply Hb|exact IH].
Qed.

Lemma raises_only_map_result {A B} (P : Py.exn -> Prop)
    (f : A -> Py.result B) (l : list A) :
  (forall a, Py.raises_only P (f a)) -> Py.raises_only P (map_result f l).
Proof.
  intros Hf. induction l as [|a l IH]; simpl.
  - apply raises_only_ret.
  - apply raises_only_bind; [apply Hf|]. intros b.
    apply raises_only_bind; [exact IH|]. intros bs. apply raises_only_ret.
Qed.

Create HintDb rt discriminated.

Ltac rt_step :=
  match goal with
  | |- Py.raises_only _ (Py.bind _ _) => apply raises_only_bind; [|intros ?]
  | |- Py.raises_only _ (Py.ret _) => apply raises_only_ret
  | |- Py.raises_only _ (inr _) => apply raises_only_ret
  | |- Py.raises_only _ (Py.raise _) => apply raises_only_raise; exact I
  | |- Py.raises_only _ (Py.for_each _ _ _) => apply raises_only_for_each; intros ? ?
  | |- Py.raises_only _ (map_result _ _) => apply raises_only_map_result; intros ?
  | |- Py.raises_only _ (match ?x with _ => _ end) => destruct x
  | |- Py.raises_only _ (if ?c then _ else _) => destruct c
  | |- Py.raises_only _ _ => solve [auto with rt]
  end.

Ltac rt := repeat rt_step.

Lemma rt_getitem {A} (l : list A) i : Py.raises_only Py.at_run_time (Py.getitem l i).
Proof. unfold Py.getitem. rt. Qed.

Lemma rt_from_numpy2 a : Py.raises_only Py.at_run_time (from_numpy2 a).
Proof. unfold from_numpy2. rt. Qed.

Lemma rt_from_numpy1 a : Py.raises_only Py.at_run_time (from_numpy1 a).
Proof. unfold from_numpy1. rt. Qed.

Lemma rt_tensor_float32 a : Py.raises_only Py.at_run_time (tensor_float32 a).
Proof. unfold tensor_float32. rt. Qed.

Lemma rt_astype_int a : Py.raises_only Py.at_run_time (astype_int a).
Proof. unfold astype_int. rt. Qed.

Lemma rt_cat1 a b : Py.raises_only Py.at_run_time (cat1 a b).
Proof. unfold cat1. rt. Qed.

Lemma rt_squeeze x : Py.raises_only Py.at_run_time (squeeze x).
Proof.
  induction x as [|r x IH]; simpl; [rt|].
  destruct r as [|a [|b r]]; rt.
Qed.

Lemma rt_broadcast f u v : Py.raises_only Py.at_run_time (broadcast f u v).
Proof. unfold broadcast. rt. Qed.

Lemma rt_elementwise f a b : Py.raises_only Py.at_run_time (elementwise f a b).
Proof. unfold elementwise. rt. Qed.

Lemma rt_data h p : Py.raises_only Py.at_run_time (data h p).
Proof. unfold data. rt. Qed.

#[local] Hint Resolve rt_getitem rt_from_numpy2 rt_from_numpy1 rt_tensor_float32
  rt_astype_int rt_cat1 rt_squeeze rt_broadcast rt_elementwise rt_data : rt.

Lemma rt_mse_loss a b : Py.raises_only Py.at_run_time (mse_loss a b).
Proof. unfold mse_loss. rt. Qed.

Lemma rt_add a b : Py.raises_only Py.at_run_time (add a b).
Proof. unfold add. rt. Qed.

Lemma rt_affine W b x : Py.raises_only Py.at_run_time (affine W b x).
Proof. unfold affine. rt. Qed.

#[local] Hint Resolve rt_mse_loss rt_add rt_affine : rt.

Lemma rt_Linear_forward h fc x : Py.raises_only Py.at_run_time (Linear_forward h fc x).
Proof. unfold Linear_forward. rt. Qed.

Lemma rt_BatchNorm1d_forward `{Backend} tr h bn x :
  Py.raises_only Py.at_run_time (BatchNorm1d_forward tr h bn x).
Proof. unfold BatchNorm1d_forward. rt. Qed.

Lemma rt_getattr_F `{Backend} a : Py.raises_only Py.at_run_time (getattr_F a).
Proof. unfold getattr_F. rt. Qed.

#[local] Hint Resolve rt_Linear_forward rt_BatchNorm1d_forward rt_getattr_F : rt.

Lemma rt_apply_layer `{Backend} h a f fc x :
  Py.raises_only Py.at_run_time (apply_layer h a f fc x).
Proof. unfold apply_layer. rt. Qed.

#[local] Hint Resolve rt_apply_layer : rt.

Lemma rt_actor_forward `{Backend} h net x :
  Py.raises_only Py.at_run_time (ActorNet.forward h net x).
Proof. unfold ActorNet.forward. rt. Qed.

Lemma rt_critic_forward `{Backend} h net x :
  Py.raises_only Py.at_run_time (CriticNet.forward h net x).
Proof. unfold CriticNet.forward, CriticNet.forward_layer. rt. Qed.

#[local] Hint Resolve rt_actor_forward rt_critic_forward : rt.

Lemma rt_train_head `{Backend} self samples :
  Py.raises_only Py.at_run_time (train_head self samples).
Proof. unfold train_head. rt. Qed.

Lemma rt_backward `{Backend} loss leaves h gs :
  Py.raises_only Py.at_run_time (backward loss leaves h gs).
Proof. unfold backward, accumulate. rt. Qed.

Lemma rt_step_params `{Backend} lr wd ps : forall sts gs h,
  Py.raises_only Py.at_run_time (step_params lr wd ps sts gs h).
Proof.
  induction ps as [|p ps IH]; intros sts gs h; simpl; [rt|].
  destruct sts as [|st sts]; [rt|].
  destruct (gs !! p) as [g|]; rt.
Qed.

#[local] Hint Resolve rt_train_head rt_backward rt_step_params : rt.

Lemma rt_step `{Backend} opt gs h : Py.raises_only Py.at_run_time (step opt gs h).
Proof. unfold step. rt. Qed.

Lemma rt_soft_update {Net} `{Module Net} (n t : Net) tau h :
  Py.raises_only Py.at_run_time (_soft_update n t tau h).
Proof. unfold _soft_update, soft_update_param. rt. Qed.

#[local] Hint Resolve rt_step rt_soft_update : rt.

Lemma rt_critic_step `{Backend} self l :
  Py.raises_only Py.at_run_time (critic_step self l).
Proof. unfold critic_step. rt. Qed.

Lemma rt_actor_step `{Backend} self l :
  Py.raises_only Py.at_run_time (actor_step self l).
Proof. unfold actor_step, loss_actor_at. rt. Qed.

Lemma rt_soft_updates `{Backend} self :
  Py.raises_only Py.at_run_time (soft_updates self).
Proof. unfold soft_updates. rt. Qed.

#[local] Hint Resolve rt_critic_step rt_actor_step rt_soft_updates : rt.

(** [train] raises neither [NotImplementedError] nor the constructors'
    [AssertionError]: its one assertion is that an evaluator comes with
    episode values. *)
Lemma train_exceptions `{Backend} {V} (self : Trainer.t) (samples : list ndarray)
    (evaluator : bool) (episode_values : option V) (e : Py.exn) :
  train self samples evaluator episode_values = inl e ->
  Py.at_run_time e
  \/ (e = Py.AssertionError "" /\ evaluator = true /\ episode_values = None).
Proof.
  unfold train.
  pose proof (rt_train_head self samples) as Hh.
  destruct (train_head self samples) as [e0|l]; cbn [Py.bind].
  { intros E. inversion E; subst e0. left. now apply Hh. }
  pose proof (rt_critic_step self l) as Hc.
  destruct (critic_step self l) as [e0|[loss s1]]; cbn [Py.bind].
  { intros E. inversion E; subst e0. left. now apply Hc. }
  pose proof (rt_actor_step s1 l) as Ha.
  destruct (actor_step s1 l) as [e0|s2]; cbn [Py.bind].
  { intros E. inversion E; subst e0. left. now apply Ha. }
  pose proof (rt_soft_updates s2) as Hs.
  destruct (soft_updates s2) as [e0|s3]; cbn [Py.bind].
  { intros E. inversion E; subst e0. left. now apply Hs. }
  destruct evaluator; [destruct episode_values|]; intros E; try discriminate E.
  inversion E. right. auto.
Qed.

End TrainExceptions.

(** ** Configuration errors *)

Section ConfigurationErrors.

Import Tensor Torch Numpy Nets Trainer Examples.
Local Open Scope R_scope.

(** C7. Construction checks the configuration. An optimizer name other
    than ["ADAM"] makes [DDPGTrainer(...)] raise [NotImplementedError]; a
    [layers] list of fewer than three sizes makes [ActorNet(...)] and
    [CriticNet(...)] raise [AssertionError], and makes [DDPGTrainer(...)]
    raise, whichever of the two networks it is configured for. With at
    least three sizes each network constructor returns a network of
    [len(layers) - 1] linear layers, and with ["ADAM"] besides so does the
    trainer's constructor for both networks. A trainer that was returned,
    which is what [train] is called on, had ["ADAM"] and at least three
    sizes for both networks; and [train] raises no [NotImplementedError]
    and no [AssertionError] other than the one for an evaluator passed
    without episode values. *)
Theorem construction_checks_configuration `{Backend} :
  (forall parameters env s,
     optimizer (shared_training_ parameters) <> "ADAM"%string ->
     exists msg, Trainer.init parameters env s = inl (Py.NotImplementedError msg))
  /\ (forall layers_ acts fl s,
        (length layers_ < 3)%nat ->
        exists msg, ActorNet.init layers_ acts fl s = inl (Py.AssertionError msg))
  /\ (forall layers_ acts fl action_dim s,
        (length layers_ < 3)%nat ->
        exists msg,
          CriticNet.init layers_ acts fl action_dim s = inl (Py.AssertionError msg))
  /\ (forall parameters env s,
        (length (layers (actor_training parameters)) < 3)%nat
        \/ (length (layers (critic_training parameters)) < 3)%nat ->
        Py.raises (Trainer.init parameters env s))
  /\ (forall layers_ acts fl h g,
        (3 <= length layers_)%nat ->
        exists net s',
          ActorNet.init layers_ acts fl (h, g) = inr (net, s')
          /\ length (ActorNet.layers net) = (length layers_ - 1)%nat)
  /\ (forall layers_ acts fl action_dim h g,
        (3 <= length layers_)%nat ->
        exists net s',
          CriticNet.init layers_ acts fl action_dim (h, g) = inr (net, s')
          /\ length (CriticNet.layers net) = (length layers_ - 1)%nat)
  /\ (forall parameters env h g,
        optimizer (shared_training_ parameters) = "ADAM"%string ->
        (3 <= length (layers (actor_training parameters)))%nat ->
        (3 <= length (layers (critic_training parameters)))%nat ->
        exists self,
          Trainer.init parameters env (h, g) = inr self
          /\ length (ActorNet.layers (actor self))
             = (length (layers (actor_training parameters)) - 1)%nat
          /\ length (CriticNet.layers (critic self))
             = (length (layers (critic_training parameters)) - 1)%nat)
  /\ (forall parameters env s self,
        Trainer.init parameters env s = inr self ->
        optimizer (shared_training_ parameters) = "ADAM"%string
        /\ (3 <= length (layers (actor_training parameters)))%nat
        /\ (3 <= length (layers (critic_training parameters)))%nat)
  /\ (forall (self : Trainer.t) samples evaluator (episode_values : option unit) e,
        train self samples evaluator episode_values = inl e ->
        (forall msg, e <> Py.NotImplementedError msg)
        /\ (forall msg, e = Py.AssertionError msg ->
                        evaluator = true /\ episode_values = None)).
Proof.
  repeat apply conj.
  - intros parameters env s N. unfold Trainer.init.
    rewrite (optimizer_func_other _ N). eexists. reflexivity.
  - intros layers_ acts fl s L. eexists. now apply ActorNet_init_short.
  - intros layers_ acts fl action_dim s L. eexists. now apply CriticNet_init_short.
  - intros parameters env s L.
    destruct (Trainer.init parameters env s) as [e|self] eqn:E.
    + now exists e.
    + apply init_inv in E. lia.
  - intros layers_ acts fl h g L.
    destruct (ActorNet_init_ok layers_ acts fl h g L)
      as (net & h' & g' & E & Ll & _).
    now exists net, (h', g').
  - intros layers_ acts fl action_dim h g L.
    destruct (CriticNet_init_ok layers_ acts fl action_dim h g L)
      as (net & h' & g' & E & Ll & _).
    now exists net, (h', g').
  - intros parameters env h g Ho La Lc.
    destruct (init_ok parameters env h g Ho La Lc) as (self & E & A & C & _).
    now exists self.
  - intros parameters env s self. apply init_inv.
  - intros self samples evaluator episode_values e E.
    destruct (train_exceptions self samples evaluator episode_values e E)
      as [R|(-> & Ev & Ep)].
    + split; intros msg; [intros ->|intros ->]; now simpl in R.
    + split; [discriminate|auto].
Qed.

Lemma construction_witness :
  (exists self,
     Trainer.init (H := Examples.toy) parameters0 env0 ([], tt) = inr self
     /\ length (ActorNet.layers (actor self)) = 2%nat
     /\ length (CriticNet.layers (critic self)) = 2%nat)
  /\ (exists msg,
        ActorNet.init (H := Examples.toy) [4; 2]%nat [] 0.003 ([], tt)
        = inl (Py.AssertionError msg)).
Proof.
  pose proof (construction_checks_configuration (H := Examples.toy))
    as (_ & Ha & _ & _ & _ & _ & Hi & _ & _).
  split.
  - apply (Hi parameters0 env0 [] tt); [reflexivity|simpl; lia|simpl; lia].
  - apply (Ha [4; 2]%nat [] 0.003 ([], tt)). simpl. lia.
Defined.

End ConfigurationErrors.

(** * Further properties of the module *)

(** ** The noise process, continued *)

Section NoiseProcess.

Import Tensor Numpy Noise.
Local Open Scope R_scope.

Lemma zeros_length n : length (zeros n) = n.
Proof. unfold zeros. apply length_replicate. Qed.

Lemma zeros_lookup n j : (j < n)%nat -> zeros n !! j = Some 0.
Proof. intros Hj. unfold zeros. now apply lookup_replicate_2. Qed.

(** X1. On a process whose state has [action_dim] entries, [get_noise]
    returns; the result has [action_dim] entries, entry [j] being the
    state's entry plus [theta * (mu - state) + sigma * eps] for the
    [j]-th of the next [action_dim] draws; exactly these draws are
    consumed; and the process object is the same afterwards. *)
Theorem get_noise_value (self : OrnsteinUhlenbeckProcessNoise) (g : RandomState) :
  length (noise self) = action_dim self ->
  exists r g',
    get_noise self g = inr (r, self, g')
    /\ length r = action_dim self
    /\ draws g' = draws g
    /\ taken g' = (taken g + action_dim self)%nat
    /\ forall j x, noise self !! j = Some x ->
         r !! j
         = Some (x + (theta self * (mu self - x)
                      + sigma self * draws g (taken g + j)%nat)).
Proof.
  intros L. eexists _, _. split; [apply (get_noise_returns self g L)|].
  split; [|split; [reflexivity|split; [reflexivity|]]].
  - rewrite zip_with_vec_length; [exact L|]. now rewrite randn_length.
  - intros j x Hx. rewrite zip_with_vec_lookup, Hx, randn_lookup.
    + reflexivity.
    + rewrite <- L. eapply lookup_lt_Some, Hx.
Qed.

Lemma get_noise_value_witness :
  exists r g',
    get_noise Examples.ou1 Examples.counting = inr (r, Examples.ou1, g')
    /\ length r = 1%nat /\ taken g' = 1%nat.
Proof.
  destruct (get_noise_value Examples.ou1 Examples.counting)
    as (r & g' & E & L & _ & T & _); [reflexivity|].
  exists r, g'. split; [exact E|]. split; [exact L|exact T].
Defined.

(** X2. After [clear()], whatever the state was, the state is the zero
    vector of [action_dim] entries and the other fields are kept, so the
    next [get_noise] returns, with [theta * mu + sigma * eps] at every
    entry; clearing twice is clearing once. *)
Theorem get_noise_after_clear (self : OrnsteinUhlenbeckProcessNoise)
    (g : RandomState) :
  clear (clear self) = clear self
  /\ length (noise (clear self)) = action_dim self
  /\ (forall j, (j < action_dim self)%nat -> noise (clear self) !! j = Some 0)
  /\ exists r g',
       get_noise (clear self) g = inr (r, clear self, g')
       /\ length r = action_dim self
       /\ forall j, (j < action_dim self)%nat ->
            r !! j
            = Some (theta self * mu self
                    + sigma self * draws g (taken g + j)%nat).
Proof.
  split; [reflexivity|]. split; [apply zeros_length|].
  split; [intros j Hj; now apply zeros_lookup|].
  eexists _, _.
  split; [apply (get_noise_returns (clear self) g); apply zeros_length|].
  split.
  - rewrite zip_with_vec_length; simpl; rewrite zeros_length; [reflexivity|].
    now rewrite length_map, length_seq.
  - intros j Hj. rewrite zip_with_vec_lookup. simpl noise.
    rewrite (zeros_lookup _ _ Hj). simpl.
    rewrite map_lookup, lookup_seq_lt by exact Hj. simpl. f_equal. ring.
Qed.

Lemma get_noise_after_clear_witness :
  exists r g',
    get_noise (clear Examples.ou1) Examples.counting
    = inr (r, clear Examples.ou1, g')
    /\ r !! 0%nat = Some (theta Examples.ou1 * mu Examples.ou1
                          + sigma Examples.ou1 * 1).
Proof.
  destruct (get_noise_after_clear Examples.ou1 Examples.counting)
    as (_ & _ & _ & r & g' & E & _ & V).
  exists r, g'. split; [exact E|]. apply (V 0%nat). simpl. lia.
Defined.

End NoiseProcess.

(** ** The constructors of the networks *)

Section NetworkConstructors.

Import Tensor Torch Nets.
Local Open Scope R_scope.

(** A loop that returns has kept, round by round, every invariant its
    body keeps. *)
Lemma for_each_invariant {A S} (body : S -> A -> Py.result S)
    (I : nat -> S -> Prop) (xs : list A) :
  (forall k s x s',
     xs !! k = Some x -> I k s -> body s x = inr s' -> I (Datatypes.S k) s') ->
  forall s s', I 0%nat s -> Py.for_each body xs s = inr s' -> I (length xs) s'.
Proof.
  intros Hstep.
  assert (G : forall ys k0 s s',
             (forall k x, ys !! k = Some x -> xs !! (k0 + k)%nat = Some x) ->
             I k0 s -> Py.for_each body ys s = inr s' ->
             I (k0 + length ys)%nat s').
  { induction ys as [|y ys IH]; intros k0 s s' Hsub H0 E.
    - simpl in E. inversion E; subst s'. now rewrite Nat.add_0_r.
    - simpl in E. destruct (body s y) as [e|s1] eqn:E1; [discriminate E|].
      cbn [Py.bind] in E. simpl length. rewrite Nat.add_succ_r.
      apply (IH (Datatypes.S k0) s1 s').
      + intros k x Hk. rewrite Nat.add_succ_l, <- Nat.add_succ_r.
        apply Hsub. exact Hk.
      + apply (Hstep k0 s y s1); [|exact H0|exact E1].
        rewrite <- (Nat.add_0_r k0). apply Hsub. reflexivity.
      + exact E. }
  intros s s' H0 E. apply (G xs 0%nat s s'); auto.
Qed.

Lemma enumerate_lookup {A} (xs : list A) (k i : nat) (x : A) :
  Py.enumerate xs !! k = Some (i, x) <-> i = k /\ xs !! k = Some x.
Proof.
  unfold Py.enumerate. rewrite combine_lookup. split.
  - intros [Hs Hx]. apply lookup_seq in Hs as [-> _]. auto.
  - intros [-> Hx]. split; [|exact Hx].
    apply lookup_seq. split; [reflexivity|]. eapply lookup_lt_Some, Hx.
Qed.

Lemma tail_lookup {A} (l : list A) (k : nat) : tail l !! k = l !! Datatypes.S k.
Proof. destruct l; [now rewrite !lookup_nil|reflexivity]. Qed.

Lemma lookup_snoc_inv {A} (l : list A) (a b : A) (i : nat) :
  (l ++ [a]) !! i = Some b -> l !! i = Some b \/ (i = length l /\ b = a).
Proof.
  intros E. destruct (decide (i < length l)%nat) as [Hi|Hi].
  - left. now rewrite lookup_app_l in E.
  - right. rewrite lookup_app_r in E by lia.
    destruct (i - length l)%nat as [|n] eqn:En; simpl in E; [|discriminate E].
    inversion E. split; [lia|reflexivity].
Qed.

(** One returned round of the actor's constructor loop. *)
Lemma actor_init_body_inv `{Backend} (layers_ : list nat) (fl : R)
    (ls ls' : list Linear) (bns bns' : list BatchNorm1d) (s s' : heap * generator)
    (i layer : nat) :
  ActorNet.init_body layers_ fl (ls, bns, s) (i, layer) = inr (ls', bns', s') ->
  exists n_in fc bn,
    layers_ !! i = Some n_in
    /\ ls' = ls ++ [fc] /\ bns' = bns ++ [bn]
    /\ in_features fc = n_in /\ out_features fc = layer
    /\ num_features bn = n_in.
Proof.
  unfold ActorNet.init_body. intros E.
  destruct (Py.getitem layers_ i) as [e|n_in] eqn:En; [discriminate E|].
  apply getitem_inv in En. cbn [Py.bind] in E. destruct s as [h g].
  destruct (new_Linear_spec n_in layer h g) as (w & b & g1 & E1).
  rewrite E1 in E.
  destruct (new_BatchNorm1d_spec n_in (h ++ [T2 w; T1 b]) g1) as (bw & bb & g2 & E2).
  rewrite E2 in E.
  destruct (Py.getitem _ i) as [e|fc_i]; [discriminate E|]. cbn [Py.bind] in E.
  destruct (init_layer _ _ _ _ _) as [e|s1]; [discriminate E|].
  cbn [Py.bind Py.ret] in E. inversion E; subst ls' bns' s'.
  eexists n_in, _, _. repeat split; try reflexivity. exact En.
Qed.

(** What a returned call of [ActorNet.__init__] has built. *)
Lemma ActorNet_init_inv `{Backend} (layers_ : list nat) (acts : list string)
    (fl : R) (s s' : heap * generator) (net : ActorNet.t) :
  ActorNet.init layers_ acts fl s = inr (net, s') ->
  (3 <= length layers_)%nat
  /\ length (ActorNet.layers net) = (length layers_ - 1)%nat
  /\ length (ActorNet.batch_norm_ops net) = (length layers_ - 1)%nat
  /\ ActorNet.activations net = acts
  /\ ActorNet.training net = true
  /\ (forall i fc, ActorNet.layers net !! i = Some fc ->
        layers_ !! i = Some (in_features fc)
        /\ layers_ !! Datatypes.S i = Some (out_features fc))
  /\ (forall i bn, ActorNet.batch_norm_ops net !! i = Some bn ->
        layers_ !! i = Some (num_features bn)).
Proof.
  unfold ActorNet.init. intros E.
  destruct (decide (3 <= length layers_)%nat) as [L3|]; [|discriminate E].
  split; [exact L3|].
  destruct (Py.for_each _ _ _) as [e|[[ls bns] s1]] eqn:El; [discriminate E|].
  cbn [Py.bind Py.ret] in E. inversion E; subst net s'; clear E. simpl.
  pose (I := fun (k : nat) (st : list Linear * list BatchNorm1d * (heap * generator)) =>
               length (fst (fst st)) = k /\ length (snd (fst st)) = k
               /\ (forall i fc, fst (fst st) !! i = Some fc ->
                     layers_ !! i = Some (in_features fc)
                     /\ layers_ !! Datatypes.S i = Some (out_features fc))
               /\ (forall i bn, snd (fst st) !! i = Some bn ->
                     layers_ !! i = Some (num_features bn))).
  assert (HI : I (length (Py.enumerate (tail layers_))) (ls, bns, s1)).
  { apply (for_each_invariant (ActorNet.init_body layers_ fl) I
             (Py.enumerate (tail layers_))) with (s := ([], [], s)); [| |exact El].
    - intros k [[ls0 bns0] s0] [i layer] [[ls' bns'] s0'] Hk (Ll & Lb & Hl & Hb) Eb.
      simpl in Ll, Lb, Hl, Hb.
      apply enumerate_lookup in Hk as [-> Hk]. rewrite tail_lookup in Hk.
      apply actor_init_body_inv in Eb
        as (n_in & fc & bn & Hn & -> & -> & Fi & Fo & Fb).
      unfold I. simpl. rewrite !length_app. simpl.
      split; [lia|]. split; [lia|]. split.
      + intros j fc' Hj. apply lookup_snoc_inv in Hj as [Hj|[-> ->]];
          [now apply Hl|]. rewrite Ll, Fi, Fo. auto.
      + intros j bn' Hj. apply lookup_snoc_inv in Hj as [Hj|[-> ->]];
          [now apply Hb|]. rewrite Lb, Fb. exact Hn.
    - unfold I. simpl. split; [reflexivity|]. split; [reflexivity|].
      split; intros i x Hx; discriminate Hx. }
  destruct HI as (Ll & Lb & Hl & Hb). simpl in Ll, Lb, Hl, Hb.
  assert (Le : length (Py.enumerate (tail layers_)) = (length layers_ - 1)%nat).
  { unfold Py.enumerate. rewrite length_combine, length_seq.
    destruct layers_; simpl; lia. }
  rewrite Le in Ll, Lb. auto 10.
Qed.

(** X3. When [ActorNet(layers, activations, fl_init)] returns, [layers]
    has at least three sizes, and the network has one linear layer and
    one batch norm per pair of consecutive sizes: layer [i] maps
    [layers[i]] features to [layers[i + 1]], and batch norm [i] is over
    [layers[i]] features. The activations are stored as given and the
    network starts in training mode. *)
Theorem ActorNet_init_dims `{Backend} (layers_ : list nat) (acts : list string)
    (fl : R) (s s' : heap * generator) (net : ActorNet.t) :
  ActorNet.init layers_ acts fl s = inr (net, s') ->
  (3 <= length layers_)%nat
  /\ length (ActorNet.layers net) = (length layers_ - 1)%nat
  /\ length (ActorNet.batch_norm_ops net) = (length layers_ - 1)%nat
  /\ ActorNet.activations net = acts
  /\ ActorNet.training net = true
  /\ (forall i fc, ActorNet.layers net !! i = Some fc ->
        layers_ !! i = Some (in_features fc)
        /\ layers_ !! Datatypes.S i = Some (out_features fc))
  /\ (forall i bn, ActorNet.batch_norm_ops net !! i = Some bn ->
        layers_ !! i = Some (num_features bn)).
Proof. apply ActorNet_init_inv. Qed.

Lemma actor_init_dims_witness :
  exists net s',
    ActorNet.init (H := Examples.toy) [4; 3; 2]%nat ["relu"; "linear"]%string 0.003
      ([], tt) = inr (net, s')
    /\ length (ActorNet.layers net) = 2%nat
    /\ length (ActorNet.batch_norm_ops net) = 2%nat.
Proof.
  assert (X : exists net s',
             ActorNet.init (H := Examples.toy) [4; 3; 2]%nat
               ["relu"; "linear"]%string 0.003 ([], tt) = inr (net, s'))
    by (eexists _, _; reflexivity).
  destruct X as (net & s' & E). exists net, s'. split; [exact E|].
  destruct (ActorNet_init_dims (H := Examples.toy) _ _ _ _ _ _ E)
    as (_ & L & B & _).
  split; [exact L|exact B].
Defined.

(** One returned round of the critic's constructor loop. *)
Lemma critic_init_body_inv `{Backend} (layers_ : list nat) (fl : R)
    (action_dim : nat) (ls ls' : list Linear) (bns bns' : list BatchNorm1d)
    (s s' : heap * generator) (i layer : nat) :
  CriticNet.init_body layers_ fl action_dim (ls, bns, s) (i, layer)
  = inr (ls', bns', s') ->
  exists n_in fc,
    layers_ !! i = Some n_in
    /\ ls' = ls ++ [fc]
    /\ in_features fc = (if decide (i = 1%nat) then (n_in + action_dim)%nat else n_in)
    /\ out_features fc = layer
    /\ ((i < 2)%nat -> exists bn, bns' = bns ++ [bn] /\ num_features bn = n_in)
    /\ ((2 <= i)%nat -> bns' = bns).
Proof.
  unfold CriticNet.init_body. intros E.
  destruct (Py.getitem layers_ i) as [e|n_in] eqn:En; [discriminate E|].
  apply getitem_inv in En. cbn [Py.bind] in E. destruct s as [h g].
  destruct (decide (i = 0%nat)) as [I0|I0];
    [|destruct (decide (i = 1%nat)) as [I1|I1]].
  - destruct (new_Linear_spec n_in layer h g) as (w & b & g1 & E1).
    rewrite E1 in E.
    destruct (new_BatchNorm1d_spec n_in (h ++ [T2 w; T1 b]) g1)
      as (bw & bb & g2 & E2).
    rewrite E2 in E.
    destruct (Py.getitem _ i) as [e|fc_i]; [discriminate E|]. cbn [Py.bind] in E.
    destruct (init_layer _ _ _ _ _) as [e|s1]; [discriminate E|].
    cbn [Py.bind Py.ret] in E. inversion E; subst ls' bns' s'.
    eexists n_in, _. split; [exact En|]. split; [reflexivity|].
    destruct (decide (i = 1%nat)); [lia|]. simpl.
    split; [reflexivity|]. split; [reflexivity|]. split; [|lia].
    intros _. eexists. split; reflexivity.
  - destruct (new_Linear_spec (n_in + action_dim) layer h g) as (w & b & g1 & E1).
    rewrite E1 in E.
    destruct (new_BatchNorm1d_spec n_in (h ++ [T2 w; T1 b]) g1)
      as (bw & bb & g2 & E2).
    rewrite E2 in E.
    destruct (Py.getitem _ i) as [e|fc_i]; [discriminate E|]. cbn [Py.bind] in E.
    destruct (init_layer _ _ _ _ _) as [e|s1]; [discriminate E|].
    cbn [Py.bind Py.ret] in E. inversion E; subst ls' bns' s'.
    eexists n_in, _. split; [exact En|]. split; [reflexivity|]. simpl.
    split; [reflexivity|]. split; [reflexivity|]. split; [|lia].
    intros _. eexists. split; reflexivity.
  - destruct (new_Linear_spec n_in layer h g) as (w & b & g1 & E1).
    rewrite E1 in E.
    destruct (Py.getitem _ i) as [e|fc_i]; [discriminate E|]. cbn [Py.bind] in E.
    destruct (init_layer _ _ _ _ _) as [e|s1]; [discriminate E|].
    cbn [Py.bind Py.ret] in E. inversion E; subst ls' bns' s'.
    eexists n_in, _. split; [exact En|]. split; [reflexivity|]. simpl.
    split; [reflexivity|]. split; [reflexivity|]. split; [lia|reflexivity].
Qed.

(** What a returned call of [CriticNet.__init__] has built. *)
Lemma CriticNet_init_inv `{Backend} (layers_ : list nat) (acts : list string)
    (fl : R) (action_dim : nat) (s s' : heap * generator) (net : CriticNet.t) :
  CriticNet.init layers_ acts fl action_dim s = inr (net, s') ->
  (3 <= length layers_)%nat
  /\ length (CriticNet.layers net) = (length layers_ - 1)%nat
  /\ length (CriticNet.batch_norm_ops net) = 2%nat
  /\ CriticNet.activations net = acts
  /\ (forall i fc, CriticNet.layers net !! i = Some fc ->
        exists n, layers_ !! i = Some n
                  /\ in_features fc
                     = (if decide (i = 1%nat) then (n + action_dim)%nat else n)
                  /\ layers_ !! Datatypes.S i = Some (out_features fc))
  /\ (forall i bn, CriticNet.batch_norm_ops net !! i = Some bn ->
        layers_ !! i = Some (num_features bn)).
Proof.
  unfold CriticNet.init. intros E.
  destruct (decide (3 <= length layers_)%nat) as [L3|]; [|discriminate E].
  split; [exact L3|].
  destruct (Py.for_each _ _ _) as [e|[[ls bns] s1]] eqn:El; [discriminate E|].
  cbn [Py.bind Py.ret] in E. inversion E; subst net s'; clear E. simpl.
  pose (I := fun (k : nat) (st : list Linear * list BatchNorm1d * (heap * generator)) =>
               length (fst (fst st)) = k /\ length (snd (fst st)) = Nat.min k 2
               /\ (forall i fc, fst (fst st) !! i = Some fc ->
                     exists n, layers_ !! i = Some n
                               /\ in_features fc
                                  = (if decide (i = 1%nat)
                                     then (n + action_dim)%nat else n)
                               /\ layers_ !! Datatypes.S i = Some (out_features fc))
               /\ (forall i bn, snd (fst st) !! i = Some bn ->
                     layers_ !! i = Some (num_features bn))).
  assert (HI : I (length (Py.enumerate (tail layers_))) (ls, bns, s1)).
  { apply (for_each_invariant (CriticNet.init_body layers_ fl action_dim) I
             (Py.enumerate (tail layers_))) with (s := ([], [], s)); [| |exact El].
    - intros k [[ls0 bns0] s0] [i layer] [[ls' bns'] s0'] Hk (Ll & Lb & Hl & Hb) Eb.
      simpl in Ll, Lb, Hl, Hb.
      apply enumerate_lookup in Hk as [-> Hk]. rewrite tail_lookup in Hk.
      apply critic_init_body_inv in Eb
        as (n_in & fc & Hn & -> & Fi & Fo & Blt & Bge).
      unfold I. simpl. rewrite length_app. simpl.
      split; [lia|]. split; [|split].
      + destruct (decide (k < 2)%nat) as [K|K].
        * destruct (Blt K) as (bn & -> & _). rewrite length_app. simpl. lia.
        * rewrite Bge by lia. lia.
      + intros j fc' Hj. apply lookup_snoc_inv in Hj as [Hj|[-> ->]];
          [now apply Hl|]. rewrite Ll. exists n_in. rewrite Fi, Fo. auto.
      + intros j bn' Hj. destruct (decide (k < 2)%nat) as [K|K].
        * destruct (Blt K) as (bn & -> & Fb).
          apply lookup_snoc_inv in Hj as [Hj|[-> ->]]; [now apply Hb|].
          rewrite Lb, Fb. replace (Nat.min k 2) with k by lia. exact Hn.
        * rewrite Bge in Hj by lia. now apply Hb.
    - unfold I. simpl. split; [reflexivity|]. split; [reflexivity|].
      split; intros i x Hx; discriminate Hx. }
  destruct HI as (Ll & Lb & Hl & Hb). simpl in Ll, Lb, Hl, Hb.
  assert (Le : length (Py.enumerate (tail layers_)) = (length layers_ - 1)%nat).
  { unfold Py.enumerate. rewrite length_combine, length_seq.
    destruct layers_; simpl; lia. }
  rewrite Le in Ll, Lb. split; [exact Ll|]. split; [lia|]. auto.
Qed.

(** X4. When [CriticNet(layers, activations, fl_init, action_dim)]
    returns, [layers] has at least three sizes and the network has one
    linear layer per pair of consecutive sizes but exactly two batch
    norms, over [layers[0]] and [layers[1]] features. Layer [i] maps to
    [layers[i + 1]] features from [layers[i]], except layer 1, which
    takes [layers[1] + action_dim]: the room for the action columns. *)
Theorem CriticNet_init_dims `{Backend} (layers_ : list nat) (acts : list string)
    (fl : R) (action_dim : nat) (s s' : heap * generator) (net : CriticNet.t) :
  CriticNet.init layers_ acts fl action_dim s = inr (net, s') ->
  (3 <= length layers_)%nat
  /\ length (CriticNet.layers net) = (length layers_ - 1)%nat
  /\ length (CriticNet.batch_norm_ops net) = 2%nat
  /\ CriticNet.activations net = acts
  /\ (forall i fc, CriticNet.layers net !! i = Some fc ->
        exists n, layers_ !! i = Some n
                  /\ in_features fc
                     = (if decide (i = 1%nat) then (n + action_dim)%nat else n)
                  /\ layers_ !! Datatypes.S i = Some (out_features fc))
  /\ (forall i bn, CriticNet.batch_norm_ops net !! i = Some bn ->
        layers_ !! i = Some (num_features bn)).
Proof. apply CriticNet_init_inv. Qed.

Lemma critic_init_dims_witness :
  exists net s',
    CriticNet.init (H := Examples.toy) [4; 3; 5; 1]%nat
      ["relu"; "relu"; "linear"]%string 0.003 2 ([], tt) = inr (net, s')
    /\ length (CriticNet.layers net) = 3%nat
    /\ length (CriticNet.batch_norm_ops net) = 2%nat.
Proof.
  assert (X : exists net s',
             CriticNet.init (H := Examples.toy) [4; 3; 5; 1]%nat
               ["relu"; "relu"; "linear"]%string 0.003 2 ([], tt) = inr (net, s'))
    by (eexists _, _; reflexivity).
  destruct X as (net & s' & E). exists net, s'. split; [exact E|].
  destruct (CriticNet_init_dims (H := Examples.toy) _ _ _ _ _ _ _ E)
    as (_ & L & B & _).
  split; [exact L|exact B].
Defined.

End NetworkConstructors.

(** ** The forward passes *)

Section ForwardPasses.

Import Tensor Torch Nets.
Local Open Scope R_scope.

Lemma for_each_returns {A S} (body : S -> A -> Py.result S) (xs : list A) :
  forall s s', Py.for_each body xs s = inr s' ->
  forall k x, xs !! k = Some x -> exists s1 s2, body s1 x = inr s2.
Proof.
  induction xs as [|y xs IH]; intros s s' E k x Hk; [discriminate Hk|].
  simpl in E. destruct (body s y) as [e|s1] eqn:E1; [discriminate E|].
  cbn [Py.bind] in E. destruct k as [|k]; simpl in Hk.
  - inversion Hk; subst y. eauto.
  - eapply IH; eauto.
Qed.

Lemma getitem_lt {A} (l : list A) (i : nat) (a : A) :
  Py.getitem l i = inr a -> (i < length l)%nat.
Proof. intros E. apply getitem_inv in E. eapply lookup_lt_Some, E. Qed.

Lemma getattr_F_inv `{Backend} (a : string) (f : F_attr) :
  getattr_F a = inr f -> a = "linear"%string \/ is_Some (functional a).
Proof.
  unfold getattr_F. destruct (String.eqb_spec a "linear"); [auto|].
  destruct (functional a); [eauto|discriminate].
Qed.

Lemma bound_all_indices (n m : nat) :
  (forall k, (k < n)%nat -> (k < m)%nat) -> (n <= m)%nat.
Proof.
  intros Hk. destruct (decide (n <= m)%nat) as [|N]; [assumption|].
  specialize (Hk m). lia.
Qed.

(** X5. [ActorNet.forward] returns only if there is a batch norm and a
    linear layer for every activation, and every activation name is
    ["linear"] or an attribute of [torch.nn.functional]: with more
    activations than layers, or an unknown name, it raises. *)
Theorem actor_forward_needs `{Backend} (h : heap) (self : ActorNet.t)
    (state y : mat) :
  ActorNet.forward h self state = inr y ->
  (length (ActorNet.activations self) <= length (ActorNet.batch_norm_ops self))%nat
  /\ (length (ActorNet.activations self) <= length (ActorNet.layers self))%nat
  /\ Forall (fun a => a = "linear"%string \/ is_Some (functional a))
       (ActorNet.activations self).
Proof.
  unfold ActorNet.forward. intros E.
  assert (Hk : forall k a, ActorNet.activations self !! k = Some a ->
                 (k < length (ActorNet.batch_norm_ops self))%nat
                 /\ (k < length (ActorNet.layers self))%nat
                 /\ (a = "linear"%string \/ is_Some (functional a))).
  { intros k a Ha.
    destruct (for_each_returns _ _ _ _ E k (k, a)) as (x1 & x2 & Eb).
    { now apply enumerate_lookup. }
    destruct (Py.getitem (ActorNet.batch_norm_ops self) k) as [e|bn] eqn:Eg;
      [discriminate Eb|]. cbn [Py.bind] in Eb.
    destruct (BatchNorm1d_forward _ _ _ _) as [e|x]; [discriminate Eb|].
    cbn [Py.bind] in Eb.
    destruct (getattr_F a) as [e|f] eqn:Ef; [discriminate Eb|]. cbn [Py.bind] in Eb.
    destruct (Py.getitem (ActorNet.layers self) k) as [e|fc] eqn:El;
      [discriminate Eb|].
    split; [eapply getitem_lt, Eg|]. split; [eapply getitem_lt, El|].
    eapply getattr_F_inv, Ef. }
  split; [|split].
  - apply bound_all_indices. intros k Hlt.
    destruct (lookup_lt_is_Some_2 _ _ Hlt) as [a Ha]. now apply (Hk k a).
  - apply bound_all_indices. intros k Hlt.
    destruct (lookup_lt_is_Some_2 _ _ Hlt) as [a Ha]. now apply (Hk k a).
  - apply Forall_lookup. intros k a Ha. now apply (Hk k a).
Qed.

Lemma actor_forward_needs_witness :
  exists y,
    ActorNet.forward (H := Examples.toy) (Trainer.mem Examples.trainer0)
      (Trainer.actor Examples.trainer0) [[1]] = inr y
    /\ (length (ActorNet.activations (Trainer.actor Examples.trainer0))
        <= length (ActorNet.layers (Trainer.actor Examples.trainer0)))%nat.
Proof.
  exists [[1]]. split; [reflexivity|].
  destruct (actor_forward_needs (H := Examples.toy) (Trainer.mem Examples.trainer0)
              (Trainer.actor Examples.trainer0) [[1]] [[1]]) as (_ & L & _);
    [reflexivity|exact L].
Defined.

(** X6. [CriticNet.forward] returns only if the network has a first
    layer, whose [in_features] it reads before the loop, even when there
    is no activation at all; a linear layer for every activation; a
    batch norm for each of the first two activations; and only names
    that are ["linear"] or attributes of [torch.nn.functional]. *)
Theorem critic_forward_needs `{Backend} (h : heap) (self : CriticNet.t)
    (state_action y : mat) :
  CriticNet.forward h self state_action = inr y ->
  (1 <= length (CriticNet.layers self))%nat
  /\ (length (CriticNet.activations self) <= length (CriticNet.layers self))%nat
  /\ (Nat.min (length (CriticNet.activations self)) 2
      <= length (CriticNet.batch_norm_ops self))%nat
  /\ Forall (fun a => a = "linear"%string \/ is_Some (functional a))
       (CriticNet.activations self).
Proof.
  unfold CriticNet.forward. intros E.
  destruct (Py.getitem (CriticNet.layers self) 0) as [e|fc0] eqn:E0;
    [discriminate E|]. cbn [Py.bind] in E.
  apply getitem_lt in E0.
  assert (Hk : forall k a, CriticNet.activations self !! k = Some a ->
                 (k < length (CriticNet.layers self))%nat
                 /\ ((k < 2)%nat -> (k < length (CriticNet.batch_norm_ops self))%nat)
                 /\ (a = "linear"%string \/ is_Some (functional a))).
  { intros k a Ha.
    destruct (for_each_returns _ _ _ _ E k (k, a)) as (x1 & x2 & Eb).
    { now apply enumerate_lookup. }
    unfold CriticNet.forward_layer in Eb.
    assert (Hbn : (k < 2)%nat -> (k < length (CriticNet.batch_norm_ops self))%nat).
    { intros K.
      destruct (decide (k = 0%nat)) as [->|K0];
        [|destruct (decide (k = 1%nat)) as [->|K1]; [|lia]].
      - destruct (Py.getitem (CriticNet.batch_norm_ops self) 0) as [e|bn] eqn:Eg;
          [discriminate Eb|]. eapply getitem_lt, Eg.
      - destruct (Py.getitem (CriticNet.batch_norm_ops self) 1) as [e|bn] eqn:Eg;
          [discriminate Eb|]. eapply getitem_lt, Eg. }
    match type of Eb with
    | Py.bind ?m _ = _ => destruct m as [e|x]; [discriminate Eb|]
    end.
    cbn [Py.bind] in Eb.
    destruct (getattr_F a) as [e|f] eqn:Ef; [discriminate Eb|]. cbn [Py.bind] in Eb.
    destruct (Py.getitem (CriticNet.layers self) k) as [e|fc] eqn:El;
      [discriminate Eb|].
    split; [eapply getitem_lt, El|]. split; [exact Hbn|].
    eapply getattr_F_inv, Ef. }
  split; [lia|]. split; [|split].
  - apply bound_all_indices. intros k Hlt.
    destruct (lookup_lt_is_Some_2 _ _ Hlt) as [a Ha]. now apply (Hk k a).
  - apply bound_all_indices. intros k Hlt.
    destruct (lookup_lt_is_Some_2 (CriticNet.activations self) k) as [a Ha]; [lia|].
    apply (Hk k a Ha). lia.
  - apply Forall_lookup. intros k a Ha. now apply (Hk k a).
Qed.

Lemma critic_forward_needs_witness :
  exists y,
    CriticNet.forward (H := Examples.toy) (Trainer.mem Examples.trainer0)
      Examples.critic_relu [[1; 5]] = inr y
    /\ (length (CriticNet.activations Examples.critic_relu)
        <= length (CriticNet.layers Examples.critic_relu))%nat.
Proof.
  assert (X : exists y,
             CriticNet.forward (H := Examples.toy) (Trainer.mem Examples.trainer0)
               Examples.critic_relu [[1; 5]] = inr y)
    by (eexists; reflexivity).
  destruct X as [y E]. exists y. split; [exact E|].
  destruct (critic_forward_needs (H := Examples.toy) _ _ _ _ E) as (_ & L & _).
  exact L.
Defined.

End ForwardPasses.

(** ** What the forward passes read *)

Section ForwardReads.

Import Tensor Torch Nets.
Local Open Scope R_scope.

Lemma Linear_forward_cong (h h' : heap) (fc fc' : Linear) (x : mat) :
  h' !! weight fc' = h !! weight fc ->
  h' !! bias fc' = h !! bias fc ->
  Linear_forward h' fc' x = Linear_forward h fc x.
Proof. intros Hw Hb. unfold Linear_forward, data. now rewrite Hw, Hb. Qed.

Lemma BatchNorm1d_forward_cong `{Backend} (tr : bool) (h h' : heap)
    (bn bn' : BatchNorm1d) (x : mat) :
  h' !! bn_weight bn' = h !! bn_weight bn ->
  h' !! bn_bias bn' = h !! bn_bias bn ->
  BatchNorm1d_forward tr h' bn' x = BatchNorm1d_forward tr h bn x.
Proof. intros Hw Hb. unfold BatchNorm1d_forward, data. now rewrite Hw, Hb. Qed.

Lemma apply_layer_cong `{Backend} (h h' : heap) (a : string) (f : F_attr)
    (fc fc' : Linear) (x : mat) :
  h' !! weight fc' = h !! weight fc ->
  h' !! bias fc' = h !! bias fc ->
  apply_layer h' a f fc' x = apply_layer h a f fc x.
Proof.
  intros Hw Hb. unfold apply_layer.
  now rewrite (Linear_forward_cong h h' fc fc' x Hw Hb).
Qed.

Lemma getitem_Forall2 {A} (P : A -> A -> Prop) (l l' : list A) (i : nat) :
  Forall2 P l l' ->
  (Py.getitem l i = inl Py.IndexError /\ Py.getitem l' i = inl Py.IndexError)
  \/ exists a a', Py.getitem l i = inr a /\ Py.getitem l' i = inr a' /\ P a a'.
Proof.
  intros F. unfold Py.getitem.
  destruct (l !! i) as [a|] eqn:Ha.
  - destruct (Forall2_lookup_l _ _ _ _ _ F Ha) as (a' & Ha' & HP).
    rewrite Ha'. right. eauto.
  - left. split; [reflexivity|].
    apply Forall2_length in F. apply lookup_ge_None in Ha.
    rewrite (proj2 (lookup_ge_None l' i)); [reflexivity|lia].
Qed.

(** Two actors with the same activations and mode compute the same
    function when their layers hold, pairwise, the same tensors. *)
Lemma actor_forward_cong `{Backend} (h h' : heap) (a a' : ActorNet.t) (x : mat) :
  ActorNet.activations a' = ActorNet.activations a ->
  ActorNet.training a' = ActorNet.training a ->
  Forall2 (fun fc fc' => h' !! weight fc' = h !! weight fc
                         /\ h' !! bias fc' = h !! bias fc)
    (ActorNet.layers a) (ActorNet.layers a') ->
  Forall2 (fun bn bn' => h' !! bn_weight bn' = h !! bn_weight bn
                         /\ h' !! bn_bias bn' = h !! bn_bias bn)
    (ActorNet.batch_norm_ops a) (ActorNet.batch_norm_ops a') ->
  ActorNet.forward h' a' x = ActorNet.forward h a x.
Proof.
  intros Ha Ht FL FB. unfold ActorNet.forward. rewrite Ha, Ht.
  apply for_each_ext. apply Forall_forall. intros [i act] _ y.
  destruct (getitem_Forall2 _ _ _ i FB) as [[-> ->]|(bn & bn' & -> & -> & Bw & Bb)];
    [reflexivity|].
  cbn [Py.bind]. rewrite (BatchNorm1d_forward_cong _ h h' bn bn' y Bw Bb).
  destruct (BatchNorm1d_forward _ h bn y) as [e|z]; [reflexivity|]. cbn [Py.bind].
  destruct (getattr_F act) as [e|f]; [reflexivity|]. cbn [Py.bind].
  destruct (getitem_Forall2 _ _ _ i FL) as [[-> ->]|(fc & fc' & -> & -> & Lw & Lb)];
    [reflexivity|].
  cbn [Py.bind]. now apply apply_layer_cong.
Qed.

(** The same for two critics whose layers also agree on [in_features],
    which the forward pass reads to split its input. *)
Lemma critic_forward_cong `{Backend} (h h' : heap) (c c' : CriticNet.t) (x : mat) :
  CriticNet.activations c' = CriticNet.activations c ->
  CriticNet.training c' = CriticNet.training c ->
  Forall2 (fun fc fc' => in_features fc' = in_features fc
                         /\ h' !! weight fc' = h !! weight fc
                         /\ h' !! bias fc' = h !! bias fc)
    (CriticNet.layers c) (CriticNet.layers c') ->
  Forall2 (fun bn bn' => h' !! bn_weight bn' = h !! bn_weight bn
                         /\ h' !! bn_bias bn' = h !! bn_bias bn)
    (CriticNet.batch_norm_ops c) (CriticNet.batch_norm_ops c') ->
  CriticNet.forward h' c' x = CriticNet.forward h c x.
Proof.
  intros Ha Ht FL FB. unfold CriticNet.forward.
  destruct (getitem_Forall2 _ _ _ 0%nat FL)
    as [[-> ->]|(fc0 & fc0' & -> & -> & I0 & _)]; [reflexivity|].
  cbn [Py.bind]. rewrite Ha, I0.
  apply for_each_ext. apply Forall_forall. intros [i act] _ y.
  unfold CriticNet.forward_layer. rewrite Ht.
  assert (Hbn : forall k,
             (let* bn := Py.getitem (CriticNet.batch_norm_ops c') k in
              BatchNorm1d_forward (CriticNet.training c) h' bn y)
             = (let* bn := Py.getitem (CriticNet.batch_norm_ops c) k in
                BatchNorm1d_forward (CriticNet.training c) h bn y)).
  { intros k.
    destruct (getitem_Forall2 _ _ _ k FB)
      as [[-> ->]|(bn & bn' & -> & -> & Bw & Bb)]; [reflexivity|].
    cbn [Py.bind]. now apply BatchNorm1d_forward_cong. }
  match goal with
  | |- Py.bind ?m ?k = Py.bind ?m' ?k' =>
      assert (Em : m = m')
  end.
  { destruct (decide (i = 0%nat)); [apply Hbn|].
    destruct (decide (i = 1%nat)); [|reflexivity].
    destruct (getitem_Forall2 _ _ _ i FB)
      as [[-> ->]|(bn & bn' & -> & -> & Bw & Bb)]; [reflexivity|].
    cbn [Py.bind]. now rewrite (BatchNorm1d_forward_cong _ h h' bn bn' y Bw Bb). }
  rewrite Em. clear Em.
  match goal with
  | |- Py.bind ?m _ = _ => destruct m as [e|z]; [reflexivity|]
  end.
  cbn [Py.bind].
  destruct (getattr_F act) as [e|f]; [reflexivity|]. cbn [Py.bind].
  destruct (getitem_Forall2 _ _ _ i FL)
    as [[-> ->]|(fc & fc' & -> & -> & _ & Lw & Lb)]; [reflexivity|].
  cbn [Py.bind]. now apply apply_layer_cong.
Qed.

Lemma elem_of_concat_map {A B} (f : A -> list B) (l : list A) (a : A) (b : B) :
  a ∈ l -> b ∈ f a -> b ∈ concat (map f l).
Proof.
  intros Ha Hb. induction Ha as [a l|a a0 l _ IH]; simpl; apply elem_of_app.
  - left. exact Hb.
  - right. apply IH, Hb.
Qed.

Lemma layers_agree (h h' : heap) (ls : list Linear) :
  (forall q, q ∈ concat (map Linear_parameters ls) -> h' !! q = h !! q) ->
  Forall2 (fun fc fc' => in_features fc' = in_features fc
                         /\ h' !! weight fc' = h !! weight fc
                         /\ h' !! bias fc' = h !! bias fc) ls ls.
Proof.
  intros Hq. apply Forall_Forall2_diag, Forall_forall. intros fc Hfc.
  split; [reflexivity|].
  split; apply Hq; apply (elem_of_concat_map _ _ fc); try exact Hfc;
    unfold Linear_parameters; [left|right; left].
Qed.

Lemma batch_norms_agree (h h' : heap) (bns : list BatchNorm1d) :
  (forall q, q ∈ concat (map BatchNorm1d_parameters bns) -> h' !! q = h !! q) ->
  Forall2 (fun bn bn' => h' !! bn_weight bn' = h !! bn_weight bn
                         /\ h' !! bn_bias bn' = h !! bn_bias bn) bns bns.
Proof.
  intros Hq. apply Forall_Forall2_diag, Forall_forall. intros bn Hbn.
  split; apply Hq; apply (elem_of_concat_map _ _ bn); try exact Hbn;
    unfold BatchNorm1d_parameters; [left|right; left].
Qed.

(** A forward pass in two stores that agree on the network's parameters. *)
Lemma actor_forward_frame `{Backend} (h h' : heap)
    (self : ActorNet.t) (state : mat) :
  (forall q, q ∈ parameters self -> h' !! q = h !! q) ->
  ActorNet.forward h' self state = ActorNet.forward h self state.
Proof.
  intros Hq. apply actor_forward_cong; try reflexivity.
  - eapply Forall2_impl; [apply (layers_agree h h')|].
    + intros q Hin. apply Hq. simpl. apply elem_of_app. now left.
    + simpl. intros fc fc' (_ & Hw & Hb). auto.
  - apply batch_norms_agree. intros q Hin. apply Hq. simpl.
    apply elem_of_app. now right.
Qed.

(** X7. The output of [ActorNet.forward], or the exception it raises,
    depends on the store only through the tensors of the network's own
    parameters: two stores that agree on [self.parameters()] give the
    same result, whatever else they hold. *)
Theorem actor_forward_reads_own_parameters `{Backend} (h h' : heap)
    (self : ActorNet.t) (state : mat) :
  (forall q, q ∈ parameters self -> h' !! q = h !! q) ->
  ActorNet.forward h' self state = ActorNet.forward h self state.
Proof. apply actor_forward_frame. Qed.

Lemma actor_forward_reads_witness :
  ActorNet.forward (H := Examples.toy)
    (<[16%nat := T1 []]> (Trainer.mem (H := Examples.toy) Examples.trainer0)) Examples.actor_relu [[1]]
  = ActorNet.forward (H := Examples.toy) (Trainer.mem Examples.trainer0)
      Examples.actor_relu [[1]].
Proof.
  apply (actor_forward_reads_own_parameters (H := Examples.toy)).
  intros q Hq. simpl in Hq.
  repeat (apply elem_of_cons in Hq as [ -> |Hq]; [reflexivity|]).
  now apply elem_of_nil in Hq.
Defined.

Lemma critic_forward_frame `{Backend} (h h' : heap)
    (self : CriticNet.t) (state_action : mat) :
  (forall q, q ∈ parameters self -> h' !! q = h !! q) ->
  CriticNet.forward h' self state_action = CriticNet.forward h self state_action.
Proof.
  intros Hq. apply critic_forward_cong; try reflexivity.
  - apply layers_agree. intros q Hin. apply Hq. simpl. apply elem_of_app. now left.
  - apply batch_norms_agree. intros q Hin. apply Hq. simpl.
    apply elem_of_app. now right.
Qed.

(** X8. The output of [CriticNet.forward], or the exception it raises,
    depends on the store only through the tensors of the network's own
    parameters. *)
Theorem critic_forward_reads_own_parameters `{Backend} (h h' : heap)
    (self : CriticNet.t) (state_action : mat) :
  (forall q, q ∈ parameters self -> h' !! q = h !! q) ->
  CriticNet.forward h' self state_action = CriticNet.forward h self state_action.
Proof. apply critic_forward_frame. Qed.

Lemma critic_forward_reads_witness :
  CriticNet.forward (H := Examples.toy)
    (<[0%nat := T1 []]> (Trainer.mem (H := Examples.toy) Examples.trainer0)) Examples.critic_relu [[1; 5]]
  = CriticNet.forward (H := Examples.toy) (Trainer.mem Examples.trainer0)
      Examples.critic_relu [[1; 5]].
Proof.
  apply (critic_forward_reads_own_parameters (H := Examples.toy)).
  intros q Hq. simpl in Hq.
  repeat (apply elem_of_cons in Hq as [ -> |Hq]; [reflexivity|]).
  now apply elem_of_nil in Hq.
Defined.

Lemma getitem_take {A} (l : list A) (n i : nat) :
  (i < n)%nat -> Py.getitem (take n l) i = Py.getitem l i.
Proof. intros Hi. unfold Py.getitem. now rewrite lookup_take_lt. Qed.

Lemma enumerate_bound {A} (xs : list A) :
  Forall (fun ia : nat * A => (fst ia < length xs)%nat) (Py.enumerate xs).
Proof.
  apply Forall_lookup. intros k [i x] Hk. apply enumerate_lookup in Hk as [-> Hk].
  simpl. eapply lookup_lt_Some, Hk.
Qed.

(** X9. [ActorNet.forward] applies one layer per activation, not one
    per layer of the network: the layers and batch norms from index
    [len(self.activations)] on are never used, and with no activation at
    all the input comes back unchanged, whatever layers there are. *)
Theorem actor_forward_uses_leading_layers `{Backend} (h : heap) (self : ActorNet.t)
    (state : mat) :
  let n := length (ActorNet.activations self) in
  ActorNet.forward h self state
  = ActorNet.forward h
      {| ActorNet.layers := take n (ActorNet.layers self);
         ActorNet.batch_norm_ops := take n (ActorNet.batch_norm_ops self);
         ActorNet.activations := ActorNet.activations self;
         ActorNet.training := ActorNet.training self |} state
  /\ (ActorNet.activations self = [] -> ActorNet.forward h self state = inr state).
Proof.
  intros n. split.
  - unfold ActorNet.forward. simpl. apply for_each_ext.
    eapply Forall_impl; [apply enumerate_bound|].
    intros [i a] Hi x. simpl in Hi. fold n in Hi.
    now rewrite !getitem_take by exact Hi.
  - intros E. unfold ActorNet.forward. now rewrite E.
Qed.

Lemma actor_forward_leading_witness :
  ActorNet.forward (H := Examples.toy) (Trainer.mem Examples.trainer0)
    (Trainer.actor Examples.trainer0) [[1]] = inr [[1]].
Proof.
  apply (proj2 (actor_forward_uses_leading_layers (H := Examples.toy) _ _ _)).
  reflexivity.
Defined.

(** X10. [CriticNet.forward] reads layer 0 for the width of the state
    columns and then applies one layer per activation; only the first
    two of these are preceded by a batch norm. Layers from index
    [max(len(self.activations), 1)] on and batch norms from index
    [min(len(self.activations), 2)] on are never used. With no
    activation the result is the state columns of the input. *)
Theorem critic_forward_uses_leading_layers `{Backend} (h : heap)
    (self : CriticNet.t) (state_action : mat) :
  let n := length (CriticNet.activations self) in
  CriticNet.forward h self state_action
  = CriticNet.forward h
      {| CriticNet.layers := take (Nat.max n 1) (CriticNet.layers self);
         CriticNet.batch_norm_ops := take (Nat.min n 2) (CriticNet.batch_norm_ops self);
         CriticNet.activations := CriticNet.activations self;
         CriticNet.training := CriticNet.training self |} state_action
  /\ (CriticNet.activations self = [] ->
      forall fc0, CriticNet.layers self !! 0%nat = Some fc0 ->
      CriticNet.forward h self state_action
      = inr (cols_to (in_features fc0) state_action)).
Proof.
  intros n. split.
  - unfold CriticNet.forward. simpl.
    rewrite getitem_take by lia.
    destruct (Py.getitem (CriticNet.layers self) 0) as [e|fc0]; [reflexivity|].
    cbn [Py.bind]. apply for_each_ext.
    eapply Forall_impl; [apply enumerate_bound|].
    intros [i a] Hi x. simpl in Hi. fold n in Hi.
    unfold CriticNet.forward_layer. simpl.
    rewrite (getitem_take (CriticNet.layers self)) by lia.
    destruct (decide (i = 0%nat)) as [I0|I0];
      [|destruct (decide (i = 1%nat)) as [I1|I1]].
    + now rewrite getitem_take by lia.
    + now rewrite getitem_take by lia.
    + reflexivity.
  - intros E fc0 H0. unfold CriticNet.forward, Py.getitem. now rewrite H0, E.
Qed.

Lemma critic_forward_leading_witness :
  CriticNet.forward (H := Examples.toy) (Trainer.mem Examples.trainer0)
    (Trainer.critic Examples.trainer0) [[1; 5]] = inr (cols_to 1 [[1; 5]]).
Proof.
  exact (proj2 (critic_forward_uses_leading_layers (H := Examples.toy)
                  (Trainer.mem Examples.trainer0) (Trainer.critic Examples.trainer0)
                  [[1; 5]]) eq_refl (Examples.fc 1 16) eq_refl).
Defined.

End ForwardReads.

(** ** The trainer the constructor builds *)

Section TrainerConstruction.

Import Tensor Torch Numpy Nets Trainer.
Local Open Scope R_scope.

(** The steps of a constructor call that returned. *)
Lemma init_unfold `{Backend} (parameters : parameters_) (env : env_details)
    (s : heap * generator) (self : Trainer.t) :
  Trainer.init parameters env s = inr self ->
  exists la1 la lc1 lc h1 g1 h2 h3 g3,
    Py.setitem_first (layers (actor_training parameters)) (env_state_dim env)
    = inr la1
    /\ Py.setitem_last la1 (env_action_dim env) = inr la
    /\ ActorNet.init la (activations (actor_training parameters))
         (final_layer_init_ (shared_training_ parameters)) s
       = inr (actor self, (h1, g1))
    /\ ActorNet.deepcopy (actor self) h1 = inr (actor_target self, h2)
    /\ Py.setitem_first (layers (critic_training parameters)) (env_state_dim env)
       = inr lc1
    /\ Py.setitem_last lc1 1%nat = inr lc
    /\ CriticNet.init lc (activations (critic_training parameters))
         (final_layer_init_ (shared_training_ parameters)) (env_action_dim env)
         (h2, g1)
       = inr (critic self, (h3, g3))
    /\ CriticNet.deepcopy (critic self) h3 = inr (critic_target self, mem self)
    /\ rng self = g3
    /\ Trainer.noise self
       = Noise.init (env_action_dim env) Noise.default_theta Noise.default_sigma
           Noise.default_mu
    /\ grad self = ∅.
Proof.
  intros E. unfold Trainer.init in E.
  destruct (optimizer_func _) as [e|opt]; [discriminate E|]. cbn [Py.bind] in E.
  destruct (Py.setitem_first (layers (actor_training parameters)) _)
    as [e|la1] eqn:E1; [discriminate E|]. cbn [Py.bind] in E.
  destruct (Py.setitem_last la1 _) as [e|la] eqn:E2; [discriminate E|].
  cbn [Py.bind] in E. simpl layers in E. simpl activations in E.
  destruct (ActorNet.init la _ _ s) as [e|[a [h1 g1]]] eqn:E3; [discriminate E|].
  cbn [Py.bind] in E.
  destruct (ActorNet.deepcopy a h1) as [e|[at_ h2]] eqn:E4; [discriminate E|].
  cbn [Py.bind] in E.
  destruct (Py.setitem_first (layers (critic_training parameters)) _)
    as [e|lc1] eqn:E5; [discriminate E|]. cbn [Py.bind] in E.
  destruct (Py.setitem_last lc1 _) as [e|lc] eqn:E6; [discriminate E|].
  cbn [Py.bind] in E. simpl layers in E. simpl activations in E.
  destruct (CriticNet.init lc _ _ _ (h2, g1)) as [e|[c [h3 g3]]] eqn:E7;
    [discriminate E|]. cbn [Py.bind] in E.
  destruct (CriticNet.deepcopy c h3) as [e|[ct h4]] eqn:E8; [discriminate E|].
  cbn [Py.bind Py.ret] in E. inversion E; subst self; clear E. simpl.
  exists la1, la, lc1, lc, h1, g1, h2, h3, g3. repeat split; assumption.
Qed.


Lemma setitem_first_inv {A} (l l' : list A) (v : A) :
  Py.setitem_first l v = inr l' -> (0 < length l)%nat /\ l' = <[0%nat := v]> l.
Proof.
  destruct l; simpl; intros E; inversion E. split; [lia|reflexivity].
Qed.

Lemma setitem_last_inv {A} (l l' : list A) (v : A) :
  Py.setitem_last l v = inr l' ->
  (0 < length l)%nat /\ l' = <[Nat.pred (length l) := v]> l.
Proof.
  destruct l; unfold Py.setitem_last; intros E; inversion E.
  split; [simpl; lia|reflexivity].
Qed.

(** The sizes a network is built from: [layers[0]] and [layers[-1]]
    overwritten, the sizes between them as configured. *)
Lemma overwritten_sizes (l0 l1 l : list nat) (first last_ : nat) :
  Py.setitem_first l0 first = inr l1 ->
  Py.setitem_last l1 last_ = inr l ->
  (2 <= length l0)%nat ->
  length l = length l0
  /\ l !! 0%nat = Some first
  /\ l !! (length l0 - 1)%nat = Some last_
  /\ forall i, (0 < i < length l0 - 1)%nat -> l !! i = l0 !! i.
Proof.
  intros E1 E2 L. apply setitem_first_inv in E1 as [_ ->].
  apply setitem_last_inv in E2 as [_ ->]. rewrite !length_insert.
  split; [reflexivity|]. split; [|split].
  - rewrite list_lookup_insert_ne by lia. apply list_lookup_insert_eq. lia.
  - replace (length l0 - 1)%nat with (Nat.pred (length l0)) by lia.
    apply list_lookup_insert_eq. rewrite length_insert. lia.
  - intros i Hi. rewrite !list_lookup_insert_ne by lia. reflexivity.
Qed.

(** X11. Whatever the configuration gives as first and last size of the
    two networks, the trainer that comes back has an actor from
    [state_dim] inputs to [action_dim] outputs and a critic whose first
    layer takes [state_dim] inputs, whose second layer has room for the
    [action_dim] action columns, and whose last layer has one output.
    The sizes between the first and the last are the configured ones,
    and the noise process is a new one over [action_dim] entries with
    the default coefficients. *)
Theorem init_wiring `{Backend} (parameters : parameters_) (env : env_details)
    (s : heap * generator) (self : Trainer.t) :
  Trainer.init parameters env s = inr self ->
  let la := layers (actor_training parameters) in
  let lc := layers (critic_training parameters) in
  (exists fc0 fcl,
     ActorNet.layers (actor self) !! 0%nat = Some fc0
     /\ in_features fc0 = env_state_dim env
     /\ last (ActorNet.layers (actor self)) = Some fcl
     /\ out_features fcl = env_action_dim env)
  /\ (exists fc0 fc1 fcl n1,
        CriticNet.layers (critic self) !! 0%nat = Some fc0
        /\ in_features fc0 = env_state_dim env
        /\ CriticNet.layers (critic self) !! 1%nat = Some fc1
        /\ lc !! 1%nat = Some n1
        /\ in_features fc1 = (n1 + env_action_dim env)%nat
        /\ last (CriticNet.layers (critic self)) = Some fcl
        /\ out_features fcl = 1%nat)
  /\ (forall i fc, ActorNet.layers (actor self) !! i = Some fc ->
        ((0 < i)%nat -> la !! i = Some (in_features fc))
        /\ ((i + 2 < length la)%nat -> la !! Datatypes.S i = Some (out_features fc)))
  /\ (forall i fc, CriticNet.layers (critic self) !! i = Some fc ->
        ((i + 2 < length lc)%nat -> lc !! Datatypes.S i = Some (out_features fc)))
  /\ ActorNet.activations (actor self) = activations (actor_training parameters)
  /\ CriticNet.activations (critic self) = activations (critic_training parameters)
  /\ Trainer.noise self
     = Noise.init (env_action_dim env) Noise.default_theta Noise.default_sigma
         Noise.default_mu.
Proof.
  intros E la0 lc0.
  destruct (init_inv _ _ _ _ E) as (_ & La & Lc). fold la0 in La. fold lc0 in Lc.
  destruct (init_unfold _ _ _ _ E)
    as (la1 & la & lc1 & lc & h1 & g1 & h2 & h3 & g3
        & E1 & E2 & E3 & _ & E5 & E6 & E7 & _ & _ & En & _).
  fold la0 in E1. fold lc0 in E5.
  destruct (overwritten_sizes la0 la1 la _ _ E1 E2) as (Lla & A0 & Al & Am); [lia|].
  destruct (overwritten_sizes lc0 lc1 lc _ _ E5 E6) as (Llc & C0 & Cl & Cm); [lia|].
  apply ActorNet_init_inv in E3 as (_ & ALl & _ & AA & _ & AF & _).
  apply CriticNet_init_inv in E7 as (_ & CLl & _ & CA & CF & _).
  split; [|split; [|split; [|split; [|split; [|split]]]]].
  - destruct (lookup_lt_is_Some_2 (ActorNet.layers (actor self)) 0) as [fc0 H0];
      [lia|].
    destruct (lookup_lt_is_Some_2 (ActorNet.layers (actor self))
                (Nat.pred (length (ActorNet.layers (actor self))))) as [fcl Hl];
      [lia|].
    exists fc0, fcl. split; [exact H0|]. split; [|split].
    + destruct (AF _ _ H0) as [I _]. rewrite A0 in I. now inversion I.
    + now rewrite last_lookup.
    + destruct (AF _ _ Hl) as [_ O].
      replace (Datatypes.S (Nat.pred (length (ActorNet.layers (actor self)))))
        with (length la0 - 1)%nat in O by lia.
      rewrite Al in O. now inversion O.
  - destruct (lookup_lt_is_Some_2 (CriticNet.layers (critic self)) 0) as [fc0 H0];
      [lia|].
    destruct (lookup_lt_is_Some_2 (CriticNet.layers (critic self)) 1) as [fc1 H1];
      [lia|].
    destruct (lookup_lt_is_Some_2 (CriticNet.layers (critic self))
                (Nat.pred (length (CriticNet.layers (critic self))))) as [fcl Hl];
      [lia|].
    destruct (CF _ _ H0) as (n0 & N0 & I0 & _).
    destruct (CF _ _ H1) as (n1 & N1 & I1 & _).
    destruct (CF _ _ Hl) as (_ & _ & _ & O).
    exists fc0, fc1, fcl, n1. split; [exact H0|]. split; [|split; [exact H1|]].
    + rewrite C0 in N0. inversion N0; subst n0. exact I0.
    + split; [|split; [exact I1|split]].
      * rewrite <- N1. symmetry. apply Cm. lia.
      * now rewrite last_lookup.
      * replace (Datatypes.S (Nat.pred (length (CriticNet.layers (critic self)))))
          with (length lc0 - 1)%nat in O by lia.
        rewrite Cl in O. now inversion O.
  - intros i fc Hi. destruct (AF _ _ Hi) as [I O].
    assert (i < length la0 - 1)%nat by (apply lookup_lt_Some in Hi; lia).
    split; intros Hlt.
    + rewrite <- I. symmetry. apply Am. lia.
    + rewrite <- O. symmetry. apply Am. lia.
  - intros i fc Hi Hlt. destruct (CF _ _ Hi) as (_ & _ & _ & O).
    rewrite <- O. symmetry. apply Cm. lia.
  - exact AA.
  - exact CA.
  - exact En.
Qed.

Lemma init_wiring_witness :
  exists fc0 fcl,
    ActorNet.layers (Trainer.actor (H := Examples.toy) Examples.trainer0) !! 0%nat
    = Some fc0
    /\ in_features fc0 = 1%nat
    /\ last (ActorNet.layers (Trainer.actor (H := Examples.toy) Examples.trainer0))
       = Some fcl
    /\ out_features fcl = 1%nat.
Proof.
  destruct (init_wiring (H := Examples.toy) _ _ _ _ init_trainer0) as (A & _).
  exact A.
Defined.


(** *** Deep copies, layer by layer *)

Lemma same_tensor_mono (h h' : heap) (p q : param) :
  (forall r t, h !! r = Some t -> h' !! r = Some t) ->
  same_tensor h p q -> same_tensor h' p q.
Proof. intros M (t & Hp & Hq). exists t. auto. Qed.

Lemma Linear_copy_mono (h h' : heap) (fc fc' : Linear) :
  (forall r t, h !! r = Some t -> h' !! r = Some t) ->
  Linear_copy h fc fc' -> Linear_copy h' fc fc'.
Proof.
  intros M (I & O & W & B). repeat split; try assumption;
    eapply same_tensor_mono; eassumption.
Qed.

Lemma BatchNorm1d_copy_mono (h h' : heap) (bn bn' : BatchNorm1d) :
  (forall r t, h !! r = Some t -> h' !! r = Some t) ->
  BatchNorm1d_copy h bn bn' -> BatchNorm1d_copy h' bn bn'.
Proof.
  intros M (N & W & B). repeat split; try assumption;
    eapply same_tensor_mono; eassumption.
Qed.

Lemma app_keeps (h ts : heap) (r : param) (t : tensor) :
  h !! r = Some t -> (h ++ ts) !! r = Some t.
Proof. intros E. now apply lookup_app_l_Some. Qed.

Lemma deepcopy_param_inv (p p' : param) (h h' : heap) :
  deepcopy_param p h = inr (p', h') ->
  exists t, h !! p = Some t /\ p' = length h /\ h' = h ++ [t].
Proof.
  unfold deepcopy_param, data. destruct (h !! p) as [t|]; [|discriminate].
  cbn [Py.bind Py.ret]. unfold alloc. intros E. inversion E. eauto.
Qed.

Lemma deepcopy_Linear_inv (fc fc' : Linear) (h h' : heap) :
  deepcopy_Linear fc h = inr (fc', h') ->
  (exists ts, h' = h ++ ts) /\ Linear_copy h' fc fc'.
Proof.
  unfold deepcopy_Linear. intros E.
  destruct (deepcopy_param (weight fc) h) as [e|[pw hw]] eqn:Ew; [discriminate E|].
  cbn [Py.bind] in E.
  destruct (deepcopy_param (bias fc) hw) as [e|[pb hb]] eqn:Eb; [discriminate E|].
  cbn [Py.bind Py.ret] in E. inversion E; subst fc' h'; clear E.
  apply deepcopy_param_inv in Ew as (tw & Hw & -> & ->).
  apply deepcopy_param_inv in Eb as (tb & Hb & -> & ->).
  split; [exists [tw; tb]; now rewrite <- app_assoc|].
  unfold Linear_copy. simpl. split; [reflexivity|]. split; [reflexivity|]. split.
  - exists tw. split; [now apply app_keeps, app_keeps|].
    apply app_keeps. now rewrite lookup_app_at0.
  - exists tb. split; [now apply app_keeps|]. now rewrite lookup_app_at0.
Qed.

Lemma deepcopy_BatchNorm1d_inv (bn bn' : BatchNorm1d) (h h' : heap) :
  deepcopy_BatchNorm1d bn h = inr (bn', h') ->
  (exists ts, h' = h ++ ts) /\ BatchNorm1d_copy h' bn bn'.
Proof.
  unfold deepcopy_BatchNorm1d. intros E.
  destruct (deepcopy_param (bn_weight bn) h) as [e|[pw hw]] eqn:Ew;
    [discriminate E|].
  cbn [Py.bind] in E.
  destruct (deepcopy_param (bn_bias bn) hw) as [e|[pb hb]] eqn:Eb;
    [discriminate E|].
  cbn [Py.bind Py.ret] in E. inversion E; subst bn' h'; clear E.
  apply deepcopy_param_inv in Ew as (tw & Hw & -> & ->).
  apply deepcopy_param_inv in Eb as (tb & Hb & -> & ->).
  split; [exists [tw; tb]; now rewrite <- app_assoc|].
  unfold BatchNorm1d_copy. simpl. split; [reflexivity|]. split.
  - exists tw. split; [now apply app_keeps, app_keeps|].
    apply app_keeps. now rewrite lookup_app_at0.
  - exists tb. split; [now apply app_keeps|]. now rewrite lookup_app_at0.
Qed.

Lemma deepcopy_list_inv {A} (copy : A -> heap -> Py.result (A * heap))
    (R : heap -> A -> A -> Prop) :
  (forall a a' h h', copy a h = inr (a', h') ->
     (exists ts, h' = h ++ ts) /\ R h' a a') ->
  (forall a a' h ts, R h a a' -> R (h ++ ts) a a') ->
  forall (l l' : list A) (h h' : heap),
    deepcopy_list copy l h = inr (l', h') ->
    (exists ts, h' = h ++ ts) /\ Forall2 (R h') l l'.
Proof.
  intros Hcopy Hmono. induction l as [|a l IH]; intros l' h h' E; simpl in E.
  - inversion E; subst l' h'. split; [exists []; now rewrite app_nil_r|constructor].
  - destruct (copy a h) as [e|[a' h1]] eqn:Ea; [discriminate E|].
    cbn [Py.bind] in E.
    destruct (deepcopy_list copy l h1) as [e|[l1 h2]] eqn:El; [discriminate E|].
    cbn [Py.bind Py.ret] in E. inversion E; subst l' h'; clear E.
    destruct (Hcopy _ _ _ _ Ea) as [[ts1 ->] Ra].
    destruct (IH _ _ _ El) as [[ts2 ->] Rl].
    split; [exists (ts1 ++ ts2); now rewrite app_assoc|].
    constructor; [now apply Hmono|exact Rl].
Qed.

Lemma ActorNet_deepcopy_inv (a a' : ActorNet.t) (h h' : heap) :
  ActorNet.deepcopy a h = inr (a', h') ->
  (exists ts, h' = h ++ ts)
  /\ ActorNet.activations a' = ActorNet.activations a
  /\ ActorNet.training a' = ActorNet.training a
  /\ Forall2 (Linear_copy h') (ActorNet.layers a) (ActorNet.layers a')
  /\ Forall2 (BatchNorm1d_copy h') (ActorNet.batch_norm_ops a)
       (ActorNet.batch_norm_ops a').
Proof.
  unfold ActorNet.deepcopy. intros E.
  destruct (deepcopy_list deepcopy_Linear _ h) as [e|[ls h1]] eqn:El;
    [discriminate E|]. cbn [Py.bind] in E.
  destruct (deepcopy_list deepcopy_BatchNorm1d _ h1) as [e|[bns h2]] eqn:Eb;
    [discriminate E|].
  cbn [Py.bind Py.ret] in E. inversion E; subst a' h'; clear E. simpl.
  apply (deepcopy_list_inv deepcopy_Linear Linear_copy) in El as [[ts1 ->] Rl].
  2:{ intros. now apply deepcopy_Linear_inv. }
  2:{ intros. eapply Linear_copy_mono; [|eassumption]. intros. now apply app_keeps. }
  apply (deepcopy_list_inv deepcopy_BatchNorm1d BatchNorm1d_copy) in Eb
    as [[ts2 ->] Rb].
  2:{ intros. now apply deepcopy_BatchNorm1d_inv. }
  2:{ intros. eapply BatchNorm1d_copy_mono; [|eassumption].
      intros. now apply app_keeps. }
  split; [exists (ts1 ++ ts2); now rewrite app_assoc|].
  split; [reflexivity|]. split; [reflexivity|]. split; [|exact Rb].
  eapply Forall2_impl; [exact Rl|]. intros fc fc' C.
  eapply Linear_copy_mono; [|exact C]. intros. now apply app_keeps.
Qed.

Lemma CriticNet_deepcopy_inv (c c' : CriticNet.t) (h h' : heap) :
  CriticNet.deepcopy c h = inr (c', h') ->
  (exists ts, h' = h ++ ts)
  /\ CriticNet.activations c' = CriticNet.activations c
  /\ CriticNet.training c' = CriticNet.training c
  /\ Forall2 (Linear_copy h') (CriticNet.layers c) (CriticNet.layers c')
  /\ Forall2 (BatchNorm1d_copy h') (CriticNet.batch_norm_ops c)
       (CriticNet.batch_norm_ops c').
Proof.
  unfold CriticNet.deepcopy. intros E.
  destruct (deepcopy_list deepcopy_Linear _ h) as [e|[ls h1]] eqn:El;
    [discriminate E|]. cbn [Py.bind] in E.
  destruct (deepcopy_list deepcopy_BatchNorm1d _ h1) as [e|[bns h2]] eqn:Eb;
    [discriminate E|].
  cbn [Py.bind Py.ret] in E. inversion E; subst c' h'; clear E. simpl.
  apply (deepcopy_list_inv deepcopy_Linear Linear_copy) in El as [[ts1 ->] Rl].
  2:{ intros. now apply deepcopy_Linear_inv. }
  2:{ intros. eapply Linear_copy_mono; [|eassumption]. intros. now apply app_keeps. }
  apply (deepcopy_list_inv deepcopy_BatchNorm1d BatchNorm1d_copy) in Eb
    as [[ts2 ->] Rb].
  2:{ intros. now apply deepcopy_BatchNorm1d_inv. }
  2:{ intros. eapply BatchNorm1d_copy_mono; [|eassumption].
      intros. now apply app_keeps. }
  split; [exists (ts1 ++ ts2); now rewrite app_assoc|].
  split; [reflexivity|]. split; [reflexivity|]. split; [|exact Rb].
  eapply Forall2_impl; [exact Rl|]. intros fc fc' C.
  eapply Linear_copy_mono; [|exact C]. intros. now apply app_keeps.
Qed.

Lemma Forall2_concat_map {A B} (R : A -> A -> Prop) (Q : B -> B -> Prop)
    (f : A -> list B) (l l' : list A) :
  (forall a a', R a a' -> Forall2 Q (f a) (f a')) ->
  Forall2 R l l' -> Forall2 Q (concat (map f l)) (concat (map f l')).
Proof.
  intros Hf F. induction F as [|a a' l l' Ha _ IH]; simpl; [constructor|].
  apply Forall2_app; [now apply Hf|exact IH].
Qed.

Lemma copies_hold_same (h : heap) (ls ls' : list Linear)
    (bns bns' : list BatchNorm1d) :
  Forall2 (Linear_copy h) ls ls' ->
  Forall2 (BatchNorm1d_copy h) bns bns' ->
  Forall2 (same_tensor h)
    (concat (map Linear_parameters ls) ++ concat (map BatchNorm1d_parameters bns))
    (concat (map Linear_parameters ls') ++ concat (map BatchNorm1d_parameters bns')).
Proof.
  intros Fl Fb. apply Forall2_app.
  - eapply Forall2_concat_map; [|exact Fl]. intros fc fc' (_ & _ & W & B).
    unfold Linear_parameters. repeat constructor; assumption.
  - eapply Forall2_concat_map; [|exact Fb]. intros bn bn' (_ & W & B).
    unfold BatchNorm1d_parameters. repeat constructor; assumption.
Qed.

(** A network's constructor keeps the tensors that were there. *)
Lemma CriticNet_init_keeps `{Backend} (layers_ : list nat) (acts : list string)
    (fl : R) (action_dim : nat) (h h' : heap) (g g' : generator) (c : CriticNet.t) :
  CriticNet.init layers_ acts fl action_dim (h, g) = inr (c, (h', g')) ->
  (length h <= length h')%nat
  /\ params_within (length h) (length h') (CriticNet.layers c)
       (CriticNet.batch_norm_ops c)
  /\ forall q, (q < length h)%nat -> h' !! q = h !! q.
Proof.
  intros E. destruct (decide (3 <= length layers_)%nat) as [L|L].
  - destruct (CriticNet_init_ok layers_ acts fl action_dim h g L)
      as (c0 & h0 & g0 & E0 & _ & _ & Lh & W & F).
    rewrite E in E0. inversion E0; subst c0 h0 g0. auto.
  - rewrite CriticNet_init_short in E by lia. discriminate E.
Qed.

Lemma ActorNet_init_keeps `{Backend} (layers_ : list nat) (acts : list string)
    (fl : R) (h h' : heap) (g g' : generator) (a : ActorNet.t) :
  ActorNet.init layers_ acts fl (h, g) = inr (a, (h', g')) ->
  (length h <= length h')%nat
  /\ params_within (length h) (length h') (ActorNet.layers a)
       (ActorNet.batch_norm_ops a)
  /\ forall q, (q < length h)%nat -> h' !! q = h !! q.
Proof.
  intros E. destruct (decide (3 <= length layers_)%nat) as [L|L].
  - destruct (ActorNet_init_ok layers_ acts fl h g L)
      as (c0 & h0 & g0 & E0 & _ & _ & Lh & W & F).
    rewrite E in E0. inversion E0; subst c0 h0 g0. auto.
  - rewrite ActorNet_init_short in E by lia. discriminate E.
Qed.

Lemma keeps_mono (h h' : heap) :
  (forall q, (q < length h)%nat -> h' !! q = h !! q) ->
  forall r t, h !! r = Some t -> h' !! r = Some t.
Proof. intros F r t E. rewrite F; [exact E|]. eapply lookup_lt_Some, E. Qed.

(** The target networks of a new trainer, layer by layer. *)
Lemma init_copies `{Backend} (parameters : parameters_) (env : env_details)
    (s : heap * generator) (self : Trainer.t) :
  Trainer.init parameters env s = inr self ->
  (ActorNet.activations (actor_target self) = ActorNet.activations (actor self)
   /\ ActorNet.training (actor_target self) = ActorNet.training (actor self)
   /\ Forall2 (Linear_copy (mem self)) (ActorNet.layers (actor self))
        (ActorNet.layers (actor_target self))
   /\ Forall2 (BatchNorm1d_copy (mem self)) (ActorNet.batch_norm_ops (actor self))
        (ActorNet.batch_norm_ops (actor_target self)))
  /\ (CriticNet.activations (critic_target self) = CriticNet.activations (critic self)
      /\ CriticNet.training (critic_target self) = CriticNet.training (critic self)
      /\ Forall2 (Linear_copy (mem self)) (CriticNet.layers (critic self))
           (CriticNet.layers (critic_target self))
      /\ Forall2 (BatchNorm1d_copy (mem self))
           (CriticNet.batch_norm_ops (critic self))
           (CriticNet.batch_norm_ops (critic_target self))).
Proof.
  intros E.
  destruct (init_unfold _ _ _ _ E)
    as (la1 & la & lc1 & lc & h1 & g1 & h2 & h3 & g3
        & _ & _ & _ & E4 & _ & _ & E7 & E8 & _).
  apply ActorNet_deepcopy_inv in E4 as (_ & Aa & At & Al & Ab).
  apply CriticNet_init_keeps in E7 as (_ & _ & F3).
  apply CriticNet_deepcopy_inv in E8 as ([ts Em] & Ca & Ct & Cl & Cb).
  assert (M : forall r t, h2 !! r = Some t -> mem self !! r = Some t).
  { intros r t Hr. rewrite Em. apply app_keeps. now apply (keeps_mono h2 h3). }
  split; [|auto].
  split; [exact Aa|]. split; [exact At|]. split.
  - eapply Forall2_impl; [exact Al|]. intros fc fc' C.
    eapply Linear_copy_mono; [exact M|exact C].
  - eapply Forall2_impl; [exact Ab|]. intros bn bn' C.
    eapply BatchNorm1d_copy_mono; [exact M|exact C].
Qed.

(** X12. The target networks of a new trainer are exact copies: every
    parameter of a target network holds the tensor its counterpart in
    the live network holds, and on every input the target actor and the
    target critic return what the live actor and the live critic
    return. *)
Theorem init_targets_are_copies `{Backend} (parameters : parameters_)
    (env : env_details) (s : heap * generator) (self : Trainer.t) :
  Trainer.init parameters env s = inr self ->
  Forall2 (same_tensor (mem self)) (Torch.parameters (actor self))
    (Torch.parameters (actor_target self))
  /\ Forall2 (same_tensor (mem self)) (Torch.parameters (critic self))
       (Torch.parameters (critic_target self))
  /\ (forall x, ActorNet.forward (mem self) (actor_target self) x
                = ActorNet.forward (mem self) (actor self) x)
  /\ (forall x, CriticNet.forward (mem self) (critic_target self) x
                = CriticNet.forward (mem self) (critic self) x).
Proof.
  intros E.
  destruct (init_copies _ _ _ _ E) as [(Aa & At & Al & Ab) (Ca & Ct & Cl & Cb)].
  split; [now apply copies_hold_same|]. split; [now apply copies_hold_same|].
  split.
  - intros x. apply actor_forward_cong; try assumption.
    + eapply Forall2_impl; [exact Al|].
      intros fc fc' (_ & _ & (tw & Hw & Hw') & (tb & Hb & Hb')).
      split; congruence.
    + eapply Forall2_impl; [exact Ab|].
      intros bn bn' (_ & (tw & Hw & Hw') & (tb & Hb & Hb')).
      split; congruence.
  - intros x. apply critic_forward_cong; try assumption.
    + eapply Forall2_impl; [exact Cl|].
      intros fc fc' (I & _ & (tw & Hw & Hw') & (tb & Hb & Hb')).
      split; [exact I|]. split; congruence.
    + eapply Forall2_impl; [exact Cb|].
      intros bn bn' (_ & (tw & Hw & Hw') & (tb & Hb & Hb')).
      split; congruence.
Qed.

Lemma init_targets_are_copies_witness :
  CriticNet.forward (H := Examples.toy) (mem Examples.trainer0)
    (critic_target Examples.trainer0) [[1; 5]]
  = CriticNet.forward (H := Examples.toy) (mem Examples.trainer0)
      (critic Examples.trainer0) [[1; 5]].
Proof.
  destruct (init_targets_are_copies (H := Examples.toy) _ _ _ _ init_trainer0)
    as (_ & _ & _ & C).
  exact (C [[1; 5]]).
Defined.

(** Where the constructor puts the parameters of the four networks. *)
Lemma init_layout `{Backend} (parameters : parameters_) (env : env_details)
    (h : heap) (g : generator) (self : Trainer.t) :
  Trainer.init parameters env (h, g) = inr self ->
  exists n1 n2 n3,
    (length h <= n1 <= n2)%nat /\ (n2 <= n3 <= length (mem self))%nat
    /\ Forall (fun p => (length h <= p < n1)%nat) (Torch.parameters (actor self))
    /\ Torch.parameters (actor_target self) = seq n1 (n2 - n1)
    /\ Forall (fun p => (n2 <= p < n3)%nat) (Torch.parameters (critic self))
    /\ Torch.parameters (critic_target self) = seq n3 (length (mem self) - n3)
    /\ forall q, (q < length h)%nat -> mem self !! q = h !! q.
Proof.
  intros E.
  destruct (init_unfold _ _ _ _ E)
    as (la1 & la & lc1 & lc & h1 & g1 & h2 & h3 & g3
        & _ & _ & E3 & E4 & _ & _ & E7 & E8 & _).
  apply ActorNet_init_keeps in E3 as (L1 & W1 & F1).
  destruct (ActorNet_deepcopy_ok (actor self) (length h) h1 W1)
    as (at_ & tsa & E4' & Pa & _).
  rewrite E4 in E4'. inversion E4'; subst at_. subst h2.
  apply CriticNet_init_keeps in E7 as (L3 & W3 & F3).
  destruct (CriticNet_deepcopy_ok (critic self) (length (h1 ++ tsa)) h3 W3)
    as (ct & tsc & E8' & Pc & _).
  rewrite E8 in E8'. inversion E8' as [[Ect Em]].
  rewrite length_app in *.
  exists (length h1), (length h1 + length tsa)%nat, (length h3).
  rewrite Em, length_app.
  split; [lia|]. split; [lia|]. split; [exact W1|]. split.
  - rewrite Pa. f_equal. lia.
  - split; [exact W3|]. split.
    + rewrite Ect, Pc. f_equal. lia.
    + intros q Hq. rewrite lookup_app_l by lia. rewrite F3.
      * rewrite lookup_app_l by lia. now apply F1.
      * lia.
Qed.

Lemma init_apart `{Backend} (parameters : parameters_) (env : env_details)
    (s : heap * generator) (self : Trainer.t) :
  Trainer.init parameters env s = inr self -> networks_apart self.
Proof.
  destruct s as [h g]. intros E.
  destruct (init_layout _ _ _ _ _ E) as (n1 & n2 & n3 & L1 & L2 & Wa & Pa & Wc & Pc & F).
  assert (Ha : forall q, q ∈ Torch.parameters (actor self) -> (length h <= q < n1)%nat).
  { intros q Hq. eapply Forall_forall in Wa; eauto. }
  assert (Hc : forall q, q ∈ Torch.parameters (critic self) -> (n2 <= q < n3)%nat).
  { intros q Hq. eapply Forall_forall in Wc; eauto. }
  assert (Hat : forall q, q ∈ Torch.parameters (actor_target self) -> (n1 <= q < n2)%nat).
  { intros q Hq. rewrite Pa in Hq. apply elem_of_seq in Hq. lia. }
  assert (Hct : forall q, q ∈ Torch.parameters (critic_target self) ->
                          (n3 <= q < length (mem self))%nat).
  { intros q Hq. rewrite Pc in Hq. apply elem_of_seq in Hq. lia. }
  unfold networks_apart. split; [|split].
  - intros q Hq. apply Hat in Hq. repeat split; intros Hq'.
    + apply Ha in Hq'. lia.
    + apply Hc in Hq'. lia.
    + apply Hct in Hq'. lia.
  - intros q Hq. apply Hct in Hq. split; intros Hq'.
    + apply Ha in Hq'. lia.
    + apply Hc in Hq'. lia.
  - intros q Hq Hq'. apply Ha in Hq. apply Hc in Hq'. lia.
Qed.

(** X13. In a new trainer no parameter belongs to two of the four
    networks, the parameters of each target network are pairwise
    distinct, every parameter is a tensor the constructor created, and
    the tensors that existed before the call are as they were. *)
Theorem init_networks_apart `{Backend} (parameters : parameters_)
    (env : env_details) (h : heap) (g : generator) (self : Trainer.t) :
  Trainer.init parameters env (h, g) = inr self ->
  networks_apart self
  /\ NoDup (Torch.parameters (actor_target self))
  /\ NoDup (Torch.parameters (critic_target self))
  /\ (forall q, q ∈ Torch.parameters (actor self) ++ Torch.parameters (actor_target self)
                    ++ Torch.parameters (critic self)
                    ++ Torch.parameters (critic_target self) ->
        (length h <= q < length (mem self))%nat)
  /\ (forall q, (q < length h)%nat -> mem self !! q = h !! q).
Proof.
  intros E.
  destruct (init_layout _ _ _ _ _ E) as (n1 & n2 & n3 & L1 & L2 & Wa & Pa & Wc & Pc & F).
  assert (Ha : forall q, q ∈ Torch.parameters (actor self) -> (length h <= q < n1)%nat).
  { intros q Hq. eapply Forall_forall in Wa; eauto. }
  assert (Hc : forall q, q ∈ Torch.parameters (critic self) -> (n2 <= q < n3)%nat).
  { intros q Hq. eapply Forall_forall in Wc; eauto. }
  assert (Hat : forall q, q ∈ Torch.parameters (actor_target self) -> (n1 <= q < n2)%nat).
  { intros q Hq. rewrite Pa in Hq. apply elem_of_seq in Hq. lia. }
  assert (Hct : forall q, q ∈ Torch.parameters (critic_target self) ->
                          (n3 <= q < length (mem self))%nat).
  { intros q Hq. rewrite Pc in Hq. apply elem_of_seq in Hq. lia. }
  split; [|split; [|split; [|split]]].
  - eapply init_apart, E.
  - rewrite Pa. apply NoDup_seq.
  - rewrite Pc. apply NoDup_seq.
  - intros q Hq. rewrite !elem_of_app in Hq.
    destruct Hq as [Hq|[Hq|[Hq|Hq]]].
    + apply Ha in Hq. lia.
    + apply Hat in Hq. lia.
    + apply Hc in Hq. lia.
    + apply Hct in Hq. lia.
  - exact F.
Qed.

Lemma init_networks_apart_witness : networks_apart (H := Examples.toy) Examples.trainer0.
Proof.
  destruct (init_networks_apart (H := Examples.toy) _ _ _ _ _ init_trainer0)
    as (A & _).
  exact A.
Defined.

End TrainerConstruction.

(** ** One call of train *)

Section TrainStep.

Import Tensor Torch Numpy Nets Trainer.
Local Open Scope R_scope.

(** The steps behind a returned call. *)
Lemma critic_step_inv `{Backend} (self self' : Trainer.t) (l : train_locals)
    (loss : R) :
  critic_step self l = inr (loss, self') ->
  exists gs h opt,
    mse_loss (critic_predictions l) (target_q_values l) = inr loss
    /\ step (critic_optimizer self) gs (mem self) = inr (h, opt)
    /\ self' = with_mem self h gs (actor_optimizer self) opt.
Proof.
  unfold critic_step. intros E.
  destruct (mse_loss _ _) as [e|lc] eqn:El; [discriminate E|]. cbn [Py.bind] in E.
  destruct (backward _ _ _ _) as [e|gs]; [discriminate E|]. cbn [Py.bind] in E.
  destruct (step (critic_optimizer self) gs (mem self)) as [e|[h opt]] eqn:Es;
    [discriminate E|].
  cbn [Py.bind Py.ret] in E. inversion E; subst.
  exists gs, h, opt. repeat split. exact Es.
Qed.

Lemma actor_step_inv `{Backend} (self self' : Trainer.t) (l : train_locals) :
  actor_step self l = inr self' ->
  exists gs h opt,
    step (actor_optimizer self) gs (mem self) = inr (h, opt)
    /\ self' = with_mem self h gs opt (critic_optimizer self).
Proof.
  unfold actor_step. intros E.
  destruct (loss_actor_at self l (mem self)) as [e|la]; [discriminate E|].
  cbn [Py.bind] in E.
  destruct (backward _ _ _ _) as [e|gs]; [discriminate E|]. cbn [Py.bind] in E.
  destruct (step (actor_optimizer self) gs (mem self)) as [e|[h opt]] eqn:Es;
    [discriminate E|].
  cbn [Py.bind Py.ret] in E. inversion E; subst.
  exists gs, h, opt. split; [exact Es|reflexivity].
Qed.

Lemma soft_updates_inv `{Backend} (self self' : Trainer.t) :
  soft_updates self = inr self' ->
  exists h1 h2,
    _soft_update (actor self) (actor_target self) (tau self) (mem self) = inr h1
    /\ _soft_update (critic self) (critic_target self) (tau self) h1 = inr h2
    /\ self' = with_mem self h2 (grad self) (actor_optimizer self)
                 (critic_optimizer self).
Proof.
  unfold soft_updates. intros E.
  destruct (_soft_update (actor self) _ _ _) as [e|h1] eqn:E1; [discriminate E|].
  cbn [Py.bind] in E.
  destruct (_soft_update (critic self) _ _ _) as [e|h2] eqn:E2; [discriminate E|].
  cbn [Py.bind Py.ret] in E. inversion E; subst.
  exists h1, h2. repeat split; assumption.
Qed.

Lemma train_inv `{Backend} {V} (self self' : Trainer.t) (samples : list ndarray)
    (evaluator : bool) (episode_values : option V) (r : option (report V)) :
  train self samples evaluator episode_values = inr (self', r) ->
  exists l loss s1 s2,
    train_head self samples = inr l
    /\ critic_step self l = inr (loss, s1)
    /\ actor_step s1 l = inr s2
    /\ soft_updates s2 = inr self'
    /\ ((evaluator = false /\ r = None)
        \/ exists v, evaluator = true /\ episode_values = Some v
                     /\ r = Some {| reported_episode_values := v;
                                    reported_predictions := critic_predictions l;
                                    reported_loss := loss |}).
Proof.
  unfold train. intros E.
  destruct (train_head self samples) as [e|l]; [discriminate E|].
  cbn [Py.bind] in E.
  destruct (critic_step self l) as [e|[loss s1]] eqn:E1; [discriminate E|].
  cbn [Py.bind] in E.
  destruct (actor_step s1 l) as [e|s2] eqn:E2; [discriminate E|].
  cbn [Py.bind] in E.
  destruct (soft_updates s2) as [e|s3] eqn:E3; [discriminate E|].
  cbn [Py.bind] in E.
  exists l, loss, s1, s2.
  destruct evaluator; [destruct episode_values as [v|]; [|discriminate E]|];
    inversion E; subst; (split; [reflexivity|]);
    (split; [exact E1|]); (split; [exact E2|]); (split; [exact E3|]).
  - right. exists v. repeat split.
  - left. split; reflexivity.
Qed.

(** [_soft_update] writes parameters of the target network only. *)
Lemma soft_update_loop_frame tau (l : list (param * param)) :
  forall h h', Py.for_each (soft_update_param tau) l h = inr h' ->
    length h' = length h /\ forall q, q ∉ l.*1 -> h' !! q = h !! q.
Proof.
  induction l as [|[tp p] l IH]; intros h h' E; cbn [Py.for_each] in E.
  - inversion E. split; reflexivity.
  - destruct (soft_update_param tau h (tp, p)) as [e|h1] eqn:E1; [discriminate E|].
    cbn [Py.bind] in E. destruct (IH _ _ E) as [L F].
    unfold soft_update_param in E1.
    destruct (data h p) as [e|pd]; [discriminate E1|]. cbn [Py.bind] in E1.
    destruct (data h tp) as [e|td]; [discriminate E1|]. cbn [Py.bind] in E1.
    destruct (add _ _) as [e|np]; [discriminate E1|].
    cbn [Py.bind Py.ret] in E1. inversion E1; subst h1. unfold copy_ in *.
    rewrite length_insert in L. split; [exact L|].
    intros q Hq. simpl in Hq. rewrite F.
    + apply list_lookup_insert_ne. intros ->. apply Hq. left.
    + intros Hq'. apply Hq. right. exact Hq'.
Qed.

Lemma soft_update_frame {Net} `{Module Net} (network target_network : Net)
    (tau : R) (h h' : heap) :
  _soft_update network target_network tau h = inr h' ->
  length h' = length h
  /\ forall q, q ∉ parameters target_network -> h' !! q = h !! q.
Proof.
  unfold _soft_update. intros E.
  destruct (soft_update_loop_frame _ _ _ _ E) as [L F]. split; [exact L|].
  intros q Hq. apply F. intros Hq'. apply Hq. eapply combine_fst_subset, Hq'.
Qed.

(** X14. A call of [train] that returns leaves the hyperparameters, the
    noise process and the generator as they were, and the four networks
    with the layers, the activations, the mode and the parameter
    objects they had; the optimizers keep their parameter lists. No
    parameter tensor is created, and a parameter tensor that belongs
    neither to one of the optimizers nor to a target network holds what
    it held. The running statistics of the batch norms are buffers, not
    parameters: the forward passes of [train] in training mode change
    them, and they are no part of this statement. *)
Theorem train_frame `{Backend} {V} (self self' : Trainer.t)
    (samples : list ndarray) (evaluator : bool) (episode_values : option V)
    (r : option (report V)) :
  train self samples evaluator episode_values = inr (self', r) ->
  (action_range self' = action_range self
   /\ minibatch_size self' = minibatch_size self
   /\ gamma self' = gamma self /\ tau self' = tau self
   /\ final_layer_init self' = final_layer_init self
   /\ actor_params self' = actor_params self
   /\ critic_params self' = critic_params self
   /\ Trainer.noise self' = Trainer.noise self
   /\ rng self' = rng self)
  /\ (ActorNet.layers (actor self') = ActorNet.layers (actor self)
      /\ ActorNet.activations (actor self') = ActorNet.activations (actor self)
      /\ ActorNet.training (actor self') = ActorNet.training (actor self)
      /\ Torch.parameters (actor self') = Torch.parameters (actor self))
  /\ (ActorNet.layers (actor_target self') = ActorNet.layers (actor_target self)
      /\ ActorNet.activations (actor_target self')
         = ActorNet.activations (actor_target self)
      /\ ActorNet.training (actor_target self')
         = ActorNet.training (actor_target self)
      /\ Torch.parameters (actor_target self')
         = Torch.parameters (actor_target self))
  /\ (CriticNet.layers (critic self') = CriticNet.layers (critic self)
      /\ CriticNet.activations (critic self') = CriticNet.activations (critic self)
      /\ CriticNet.training (critic self') = CriticNet.training (critic self)
      /\ Torch.parameters (critic self') = Torch.parameters (critic self))
  /\ (CriticNet.layers (critic_target self') = CriticNet.layers (critic_target self)
      /\ CriticNet.activations (critic_target self')
         = CriticNet.activations (critic_target self)
      /\ CriticNet.training (critic_target self')
         = CriticNet.training (critic_target self)
      /\ Torch.parameters (critic_target self')
         = Torch.parameters (critic_target self))
  /\ params (actor_optimizer self') = params (actor_optimizer self)
  /\ params (critic_optimizer self') = params (critic_optimizer self)
  /\ length (mem self') = length (mem self)
  /\ forall q,
       q ∉ params (actor_optimizer self) -> q ∉ params (critic_optimizer self) ->
       q ∉ Torch.parameters (actor_target self) ->
       q ∉ Torch.parameters (critic_target self) ->
       mem self' !! q = mem self !! q.
Proof.
  intros E.
  destruct (train_inv _ _ _ _ _ _ E) as (l & loss & s1 & s2 & _ & E1 & E2 & E3 & _).
  apply critic_step_inv in E1 as (gs1 & h1 & o1 & _ & S1 & ->).
  apply actor_step_inv in E2 as (gs2 & h2 & o2 & S2 & ->).
  apply soft_updates_inv in E3 as (h3 & h4 & U1 & U2 & ->).
  cbn [with_mem mem grad actor actor_target critic critic_target actor_optimizer
       critic_optimizer tau action_range minibatch_size gamma final_layer_init
       actor_params critic_params Trainer.noise rng] in *.
  destruct (step_frame _ _ _ _ _ S1) as (P1 & L1 & F1).
  destruct (step_frame _ _ _ _ _ S2) as (P2 & L2 & F2).
  destruct (soft_update_frame _ _ _ _ _ U1) as (L3 & F3).
  destruct (soft_update_frame _ _ _ _ _ U2) as (L4 & F4).
  split; [repeat split|]. split; [repeat split|]. split; [repeat split|].
  split; [repeat split|]. split; [repeat split|].
  split; [exact P2|]. split; [exact P1|].
  split; [congruence|].
  intros q Qa Qc Qat Qct.
  rewrite F4, F3, F2, F1 by assumption. reflexivity.
Qed.

Lemma train_frame_witness :
  exists self' r,
    train (H := Examples.toy) (V := unit) Examples.trainer0 Examples.batch9 false None
    = inr (self', r)
    /\ length (mem self') = 32%nat.
Proof.
  destruct (train (H := Examples.toy) (V := unit) Examples.trainer0 Examples.batch9
              false None) as [e|[self' r]] eqn:E; [vm_compute in E; discriminate E|].
  exists self', r. split; [reflexivity|].
  destruct (train_frame (H := Examples.toy) _ _ _ _ _ _ E) as (_ & _ & _ & _ & _ & _ & _ & L & _).
  exact L.
Defined.

(** X15. On a trainer whose optimizers hold the parameters of their own
    networks, the critic's loss, backward pass and optimizer step of
    [train] (lines 103 to 106) leave every tensor that is not a parameter
    of the live critic as it was; the actor's parameters are among
    these. The loss that comes back is the mean squared error between
    the predictions and the Bellman target computed before the step. *)
Theorem critic_step_leaves_actor `{Backend} (self self' : Trainer.t)
    (l : train_locals) (loss : R) :
  optimizers_own_networks self ->
  critic_step self l = inr (loss, self') ->
  (forall q, q ∈ Torch.parameters (actor self) -> mem self' !! q = mem self !! q)
  /\ (forall q, q ∉ Torch.parameters (critic self) -> mem self' !! q = mem self !! q)
  /\ length (mem self') = length (mem self)
  /\ mse_loss (critic_predictions l) (target_q_values l) = inr loss
  /\ actor self' = actor self /\ critic self' = critic self
  /\ actor_optimizer self' = actor_optimizer self.
Proof.
  intros (Oa & Oc & D) E.
  apply critic_step_inv in E as (gs & h & opt & El & Es & ->). simpl.
  destruct (step_frame _ _ _ _ _ Es) as (_ & L & F). rewrite Oc in F.
  split; [|auto 10]. intros q Hq. apply F. exact (D q Hq).
Qed.

Lemma critic_step_leaves_actor_witness :
  exists l loss self1,
    train_head (H := Examples.toy) Examples.trainer0 Examples.batch9 = inr l
    /\ critic_step Examples.trainer0 l = inr (loss, self1)
    /\ mem self1 !! 0%nat = mem Examples.trainer0 !! 0%nat.
Proof.
  assert (X : exists l loss self1,
             train_head (H := Examples.toy) Examples.trainer0 Examples.batch9 = inr l
             /\ critic_step Examples.trainer0 l = inr (loss, self1)).
  { do 3 eexists. split; reflexivity. }
  destruct X as (l & loss & self1 & El & Ec).
  exists l, loss, self1. repeat split; try assumption.
  destruct (critic_step_leaves_actor (H := Examples.toy) Examples.trainer0 self1 l loss)
    as (A & _).
  - exact (init_owns _ _ _ _ init_trainer0).
  - exact Ec.
  - apply A. simpl. left.
Defined.

(** *** Shapes *)

Lemma shapes_kept_refl (h : heap) : shapes_kept h h.
Proof. intros q t E. eauto. Qed.

Lemma shapes_kept_trans (h1 h2 h3 : heap) :
  shapes_kept h1 h2 -> shapes_kept h2 h3 -> shapes_kept h1 h3.
Proof.
  intros K1 K2 q t E. destruct (K1 q t E) as (t2 & E2 & S2).
  destruct (K2 q t2 E2) as (t3 & E3 & S3). exists t3. split; [exact E3|congruence].
Qed.

Lemma shapes_kept_insert (h : heap) (p : param) (t t' : tensor) :
  h !! p = Some t -> shape t' = shape t -> shapes_kept h (<[p := t']> h).
Proof.
  intros Hp S q u Hq. destruct (decide (q = p)) as [->|N].
  - exists t'. split; [|congruence].
    apply list_lookup_insert_eq. eapply lookup_lt_Some, Hp.
  - exists u. split; [|reflexivity].
    rewrite list_lookup_insert_ne; [exact Hq|]. intros Heq. apply N. now symmetry.
Qed.

Lemma elementwise_inv f a b c :
  elementwise f a b = inr c -> same_shape a b /\ shape c = shape a.
Proof.
  intros E. destruct (decide (same_shape a b)) as [S|N].
  - split; [exact S|]. destruct (elementwise_spec f a b S) as (c' & E' & Sh & _).
    rewrite E in E'. inversion E'; subst c'. exact Sh.
  - unfold elementwise in E. destruct (decide (same_shape a b)); [tauto|discriminate E].
Qed.

Lemma step_params_shapes `{Backend} (lr wd : R) (gs : grads) (ps : list param) :
  (forall st t g, shape (fst (adam_update lr wd st t g)) = shape t) ->
  forall (sts : list adam_state) (h h' : heap) (sts' : list adam_state),
    step_params lr wd ps sts gs h = inr (h', sts') -> shapes_kept h h'.
Proof.
  intros Hadam. induction ps as [|p ps IH]; intros sts h h' sts' E.
  - simpl in E. inversion E. apply shapes_kept_refl.
  - destruct sts as [|st sts]; simpl in E; [inversion E; apply shapes_kept_refl|].
    destruct (gs !! p) as [g|].
    + unfold data in E. destruct (h !! p) as [t|] eqn:Hp; [|discriminate E].
      cbn [Py.bind Py.ret] in E.
      pose proof (Hadam st t g) as Sh.
      destruct (adam_update lr wd st t g) as [t' st']. simpl in Sh.
      destruct (step_params lr wd ps sts gs (copy_ p t' h)) as [e|[h1 sts1]] eqn:E1;
        [discriminate E|].
      cbn [Py.bind Py.ret] in E. inversion E; subst h1 sts'.
      eapply shapes_kept_trans; [|eapply IH, E1].
      now apply (shapes_kept_insert h p t t').
    + destruct (step_params lr wd ps sts gs h) as [e|[h1 sts1]] eqn:E1;
        [discriminate E|].
      cbn [Py.bind Py.ret] in E. inversion E; subst h1 sts'.
      eapply IH, E1.
Qed.

Lemma step_shapes `{Backend} (opt opt' : Optimizer) (gs : grads) (h h' : heap) :
  (forall lr wd st t g, shape (fst (adam_update lr wd st t g)) = shape t) ->
  step opt gs h = inr (h', opt') -> shapes_kept h h'.
Proof.
  unfold step. intros Hadam E.
  destruct (step_params _ _ _ _ _ _) as [e|[h1 sts]] eqn:E1; [discriminate E|].
  cbn [Py.bind Py.ret] in E. inversion E; subst h1 opt'.
  eapply step_params_shapes; [|exact E1]. intros. apply Hadam.
Qed.

Lemma soft_update_loop_shapes tau (l : list (param * param)) :
  forall h h', Py.for_each (soft_update_param tau) l h = inr h' -> shapes_kept h h'.
Proof.
  induction l as [|[tp p] l IH]; intros h h' E; cbn [Py.for_each] in E.
  - inversion E. apply shapes_kept_refl.
  - destruct (soft_update_param tau h (tp, p)) as [e|h1] eqn:E1; [discriminate E|].
    cbn [Py.bind] in E. eapply shapes_kept_trans; [|eapply IH, E].
    unfold soft_update_param, data in E1.
    destruct (h !! p) as [pd|]; [|discriminate E1]. cbn [Py.bind Py.ret] in E1.
    destruct (h !! tp) as [td|] eqn:Htp; [|discriminate E1].
    cbn [Py.bind Py.ret] in E1.
    destruct (add _ _) as [e|np] eqn:Ea; [discriminate E1|].
    cbn [Py.bind Py.ret] in E1. inversion E1; subst h1.
    apply elementwise_inv in Ea as [S Sh]. unfold same_shape in S.
    pose proof (scale_shape tau pd) as S1.
    pose proof (scale_shape (1.0 - tau) td) as S2.
    apply (shapes_kept_insert h tp td np Htp). congruence.
Qed.

Lemma target_ready_shapes (h h' : heap) (ps tps : list param) :
  shapes_kept h h' -> target_ready h ps tps -> target_ready h' ps tps.
Proof.
  intros K (N & D & S). split; [exact N|]. split; [exact D|].
  intros i tp p Ht Hp. destruct (S i tp p Ht Hp) as (T & P & HT & HP & Sh).
  destruct (K _ _ HT) as (T' & HT' & ST). destruct (K _ _ HP) as (P' & HP' & SP).
  exists T', P'. split; [exact HT'|]. split; [exact HP'|].
  unfold same_shape in *. congruence.
Qed.

(** [_soft_update] on a target network that is ready for it. *)
Lemma soft_update_ready {Net} `{Module Net} (network target_network : Net)
    (tau : R) (h : heap) :
  target_ready h (parameters network) (parameters target_network) ->
  exists h',
    _soft_update network target_network tau h = inr h'
    /\ (forall q, q ∉ parameters target_network -> h' !! q = h !! q)
    /\ forall i tp p T P,
         parameters target_network !! i = Some tp ->
         parameters network !! i = Some p ->
         h !! tp = Some T -> h !! p = Some P ->
         exists T',
           h' !! tp = Some T'
           /\ forall a b, entry T' a b
                          = (x ← entry P a b; y ← entry T a b;
                             Some (tau * x + (1 - tau) * y)).
Proof.
  intros (N & D & Hh).
  set (l := combine (parameters target_network) (parameters network)).
  destruct (soft_update_loop tau l h) as (h' & E & L & F & B).
  - now apply combine_fst_NoDup.
  - intros q Hq Hq'. apply (D q).
    + eapply combine_fst_subset, Hq.
    + eapply combine_snd_subset, Hq'.
  - intros tp p Hin. apply list_elem_of_lookup in Hin as [i Hi].
    apply combine_lookup in Hi as [Ht Hp]. eauto.
  - exists h'. split; [exact E|]. split.
    + intros q Hq. apply F. intros Hq'. apply Hq.
      eapply combine_fst_subset, Hq'.
    + intros i tp p T P Ht Hp HT HP.
      destruct (Hh i tp p Ht Hp) as (T0 & P0 & HT0 & HP0 & S).
      rewrite HT in HT0. rewrite HP in HP0.
      inversion HT0; inversion HP0; subst T0 P0.
      destruct (B tp p T P) as (T' & HT' & EA); [|exact HT|exact HP|].
      { apply list_elem_of_lookup. exists i. now apply combine_lookup. }
      destruct (blend_spec tau P T S) as (T'' & EA' & Sh & En).
      rewrite EA in EA'. inversion EA'; subst T''.
      exists T'. split; assumption.
Qed.

(** X16. One call of [train], on a trainer as the constructor builds it
    (optimizers on their own networks, no parameter shared between
    networks, target parameters of the shapes of their live
    counterparts) and with an optimizer update that keeps the shape of a
    parameter: when the call returns, every parameter of a target
    network holds [tau * live + (1 - tau) * target], where [live] is the
    live parameter after this call's optimizer step and [target] the
    target parameter before the call. The trainer is again as described,
    so the same holds for the next call. *)
Theorem train_targets_track `{Backend} {V} (self self' : Trainer.t)
    (samples : list ndarray) (evaluator : bool) (episode_values : option V)
    (r : option (report V)) :
  (forall lr wd st t g, shape (fst (adam_update lr wd st t g)) = shape t) ->
  optimizers_own_networks self ->
  networks_apart self ->
  target_ready (mem self) (Torch.parameters (actor self))
    (Torch.parameters (actor_target self)) ->
  target_ready (mem self) (Torch.parameters (critic self))
    (Torch.parameters (critic_target self)) ->
  train self samples evaluator episode_values = inr (self', r) ->
  (forall i tp p T,
     Torch.parameters (actor_target self) !! i = Some tp ->
     Torch.parameters (actor self) !! i = Some p ->
     mem self !! tp = Some T ->
     exists P' T',
       mem self' !! p = Some P' /\ mem self' !! tp = Some T'
       /\ forall a b, entry T' a b
                      = (x ← entry P' a b; y ← entry T a b;
                         Some (tau self * x + (1 - tau self) * y)))
  /\ (forall i tp p T,
        Torch.parameters (critic_target self) !! i = Some tp ->
        Torch.parameters (critic self) !! i = Some p ->
        mem self !! tp = Some T ->
        exists P' T',
          mem self' !! p = Some P' /\ mem self' !! tp = Some T'
          /\ forall a b, entry T' a b
                         = (x ← entry P' a b; y ← entry T a b;
                            Some (tau self * x + (1 - tau self) * y)))
  /\ optimizers_own_networks self'
  /\ networks_apart self'
  /\ target_ready (mem self') (Torch.parameters (actor self'))
       (Torch.parameters (actor_target self'))
  /\ target_ready (mem self') (Torch.parameters (critic self'))
       (Torch.parameters (critic_target self')).
Proof.
  intros Hadam O A Ta Tc E.
  pose proof (train_keeps_ownership _ _ _ _ _ _ E O) as O'.
  destruct (train_inv _ _ _ _ _ _ E) as (l & loss & s1 & s2 & _ & E1 & E2 & E3 & _).
  apply critic_step_inv in E1 as (gs1 & h1 & o1 & _ & S1 & ->).
  apply actor_step_inv in E2 as (gs2 & h2 & o2 & S2 & ->).
  apply soft_updates_inv in E3 as (h3 & h4 & U1 & U2 & ->).
  cbn [with_mem mem grad actor actor_target critic critic_target actor_optimizer
       critic_optimizer tau] in *. clear E.
  destruct O as (Oa & Oc & Dac). destruct A as (A1 & A2 & _).
  destruct (step_frame _ _ _ _ _ S1) as (_ & _ & F1). rewrite Oc in F1.
  destruct (step_frame _ _ _ _ _ S2) as (_ & _ & F2). rewrite Oa in F2.
  pose proof (step_shapes _ _ _ _ _ Hadam S1) as K1.
  pose proof (step_shapes _ _ _ _ _ Hadam S2) as K2.
  pose proof (shapes_kept_trans _ _ _ K1 K2) as K12.
  pose proof (target_ready_shapes _ _ _ _ K12 Ta) as Ta2.
  destruct (soft_update_ready (actor self) (actor_target self) (tau self) h2 Ta2)
    as (h3' & U1' & F3 & B3).
  rewrite U1 in U1'. inversion U1'; subst h3'; clear U1'.
  pose proof (soft_update_loop_shapes _ _ _ _ U1) as K3.
  pose proof (target_ready_shapes _ _ _ _ (shapes_kept_trans _ _ _ K12 K3) Tc) as Tc3.
  destruct (soft_update_ready (critic self) (critic_target self) (tau self) h3 Tc3)
    as (h4' & U2' & F4 & B4).
  rewrite U2 in U2'. inversion U2'; subst h4'; clear U2'.
  pose proof (soft_update_loop_shapes _ _ _ _ U2) as K4.
  destruct Ta as (Na & Da & Sa). destruct Tc as (Nc & Dc & Sc).
  split; [|split; [|split; [exact O'|split; [|split]]]].
  - intros i tp p T Ht Hp HT.
    assert (Htp : tp ∈ Torch.parameters (actor_target self))
      by (eapply list_elem_of_lookup_2, Ht).
    assert (Hpp : p ∈ Torch.parameters (actor self))
      by (eapply list_elem_of_lookup_2, Hp).
    destruct (A1 tp Htp) as (Xa & Xc & Xct).
    destruct (Sa i tp p Ht Hp) as (T0 & P & _ & HP & _).
    destruct (K12 _ _ HP) as (P2 & HP2 & _).
    assert (HT2 : h2 !! tp = Some T) by (rewrite F2, F1 by assumption; exact HT).
    destruct (B3 i tp p T P2 Ht Hp HT2 HP2) as (T' & HT' & En).
    exists P2, T'. split; [|split; [|exact En]].
    + rewrite F4, F3; [exact HP2| |].
      * intros Hq. exact (Da p Hq Hpp).
      * intros Hq. destruct (A2 p Hq) as [Y _]. exact (Y Hpp).
    + rewrite F4 by exact Xct. exact HT'.
  - intros i tp p T Ht Hp HT.
    assert (Htp : tp ∈ Torch.parameters (critic_target self))
      by (eapply list_elem_of_lookup_2, Ht).
    assert (Hpp : p ∈ Torch.parameters (critic self))
      by (eapply list_elem_of_lookup_2, Hp).
    destruct (A2 tp Htp) as (Xa & Xc).
    assert (Xat : tp ∉ Torch.parameters (actor_target self)).
    { intros Hq. destruct (A1 tp Hq) as (_ & _ & Y). exact (Y Htp). }
    assert (Pat : p ∉ Torch.parameters (actor_target self)).
    { intros Hq. destruct (A1 p Hq) as (_ & Y & _). exact (Y Hpp). }
    destruct (Sc i tp p Ht Hp) as (T0 & P & _ & HP & _).
    destruct (K12 _ _ HP) as (P2 & HP2 & _).
    assert (HT3 : h3 !! tp = Some T) by (rewrite F3, F2, F1 by assumption; exact HT).
    assert (HP3 : h3 !! p = Some P2) by (rewrite F3 by assumption; exact HP2).
    destruct (B4 i tp p T P2 Ht Hp HT3 HP3) as (T' & HT' & En).
    exists P2, T'. split; [|split; [exact HT'|exact En]].
    rewrite F4; [exact HP3|]. intros Hq. exact (Dc p Hq Hpp).
  - unfold networks_apart.
    cbn [with_mem actor actor_target critic critic_target]. auto.
  - eapply target_ready_shapes; [|exact Ta2].
    eapply shapes_kept_trans; [exact K3|exact K4].
  - eapply target_ready_shapes; [|exact Tc3]. exact K4.
Qed.


Lemma toy_adam_keeps_shape (lr wd : R) (st : adam_state (Backend := Examples.toy))
    (t g : tensor) :
  shape (fst (adam_update (Backend := Examples.toy) lr wd st t g)) = shape t.
Proof.
  simpl. unfold Examples.sgd.
  destruct (elementwise _ t g) as [e|t'] eqn:E; [reflexivity|].
  now apply elementwise_inv in E as [_ Sh].
Qed.

Lemma train_targets_track_witness :
  exists self' r,
    train (H := Examples.toy) (V := unit) Examples.trainer0 Examples.batch9 false None
    = inr (self', r)
    /\ target_ready (mem self') (Torch.parameters (actor self'))
         (Torch.parameters (actor_target self')).
Proof.
  destruct (train (H := Examples.toy) (V := unit) Examples.trainer0 Examples.batch9
              false None) as [e|[self' r]] eqn:E; [vm_compute in E; discriminate E|].
  exists self', r. split; [reflexivity|].
  destruct (init_targets_ready (H := Examples.toy) _ _ _ _ init_trainer0) as [Ta Tc].
  destruct (train_targets_track (H := Examples.toy) _ _ _ _ _ _
              toy_adam_keeps_shape
              (init_owns _ _ _ _ init_trainer0)
              (init_apart _ _ _ _ init_trainer0) Ta Tc E)
    as (_ & _ & _ & _ & Ta' & _).
  exact Ta'.
Defined.

(** X17. When [train] is given an evaluator and episode values and
    returns, the evaluator was handed the episode values, the critic's
    predictions for the batch and the critic's loss, both computed from
    the parameters as they were before this call's update; the trainer
    is left exactly as by the same call without an evaluator. The same
    call with an evaluator but without episode values raises the
    [AssertionError] of line 120. *)
Theorem train_reports `{Backend} {V} (self self' : Trainer.t)
    (samples : list ndarray) (v : V) (r : option (report V)) :
  train self samples true (Some v) = inr (self', r) ->
  exists l sa q loss,
    train_head self samples = inr l
    /\ cat1 (states l) (actions l) = inr sa
    /\ CriticNet.forward (mem self) (critic self) sa = inr q
    /\ squeeze q = inr (critic_predictions l)
    /\ mse_loss (critic_predictions l) (target_q_values l) = inr loss
    /\ r = Some {| reported_episode_values := v;
                   reported_predictions := critic_predictions l;
                   reported_loss := loss |}
    /\ train self samples false (@None V) = inr (self', None)
    /\ train self samples true (@None V) = inl (Py.AssertionError "").
Proof.
  intros E.
  destruct (train_inv _ _ _ _ _ _ E)
    as (l & loss & s1 & s2 & Eh & E1 & E2 & E3 & [[X _]|(v' & _ & Ev & ->)]);
    [discriminate X|].
  inversion Ev; subst v'.
  destruct (train_head_inv _ _ _ Eh)
    as (a0 & a1 & a2 & a3 & a8 & a5 & sa & nsa & q2 & discount & discounted
        & _ & _ & _ & _ & _ & _ & _ & _ & _ & _ & _ & _ & _ & _ & Esa & Eq & _
        & _ & _ & _ & _ & _ & _ & _ & Esq).
  destruct (critic_step_inv _ _ _ _ E1) as (gs & h & opt & El & _ & _).
  exists l, sa, (q_s1_a1 l), loss. repeat split; try assumption.
  - unfold train. rewrite Eh. cbn [Py.bind]. rewrite E1. cbn [Py.bind].
    rewrite E2. cbn [Py.bind]. rewrite E3. reflexivity.
  - unfold train. rewrite Eh. cbn [Py.bind]. rewrite E1. cbn [Py.bind].
    rewrite E2. cbn [Py.bind]. rewrite E3. reflexivity.
Qed.

Lemma train_reports_witness :
  exists self' r,
    train (H := Examples.toy) Examples.trainer0 Examples.batch9 true (Some tt)
    = inr (self', r)
    /\ train (H := Examples.toy) Examples.trainer0 Examples.batch9 false (@None unit)
       = inr (self', None).
Proof.
  destruct (train (H := Examples.toy) Examples.trainer0 Examples.batch9 true (Some tt))
    as [e|[self' r]] eqn:E; [vm_compute in E; discriminate E|].
  exists self', r. split; [reflexivity|].
  destruct (train_reports (H := Examples.toy) _ _ _ _ _ E)
    as (l & sa & q & loss & _ & _ & _ & _ & _ & _ & N & _).
  exact N.
Defined.


(** X18. The two optimizer steps of [train] do not change what the
    target networks compute: on a trainer whose optimizers hold the
    parameters of their own networks and whose networks share no
    parameter, both target networks return on every input, after the
    critic's and the actor's step, what they returned before. Nor does
    the critic's step change what the actor computes, or the actor's
    step what the critic computes. *)
Theorem optimizer_steps_keep_targets `{Backend} (self s1 s2 : Trainer.t)
    (l : train_locals) (loss : R) :
  optimizers_own_networks self ->
  networks_apart self ->
  critic_step self l = inr (loss, s1) ->
  actor_step s1 l = inr s2 ->
  (forall x, ActorNet.forward (mem s2) (actor_target s2) x
             = ActorNet.forward (mem self) (actor_target self) x)
  /\ (forall x, CriticNet.forward (mem s2) (critic_target s2) x
                = CriticNet.forward (mem self) (critic_target self) x)
  /\ (forall x, ActorNet.forward (mem s1) (actor s1) x
                = ActorNet.forward (mem self) (actor self) x)
  /\ (forall x, CriticNet.forward (mem s2) (critic s2) x
                = CriticNet.forward (mem s1) (critic s1) x).
Proof.
  intros (Oa & Oc & Dac) (A1 & A2 & _) E1 E2.
  apply critic_step_inv in E1 as (gs1 & h1 & o1 & _ & S1 & ->).
  apply actor_step_inv in E2 as (gs2 & h2 & o2 & S2 & ->).
  cbn [with_mem mem grad actor actor_target critic critic_target actor_optimizer
       critic_optimizer] in *.
  destruct (step_frame _ _ _ _ _ S1) as (_ & _ & F1). rewrite Oc in F1.
  destruct (step_frame _ _ _ _ _ S2) as (_ & _ & F2). rewrite Oa in F2.
  split; [|split; [|split]]; intros x.
  - apply actor_forward_frame. intros q Hq. destruct (A1 q Hq) as (Xa & Xc & _).
    rewrite F2, F1 by assumption. reflexivity.
  - apply critic_forward_frame. intros q Hq. destruct (A2 q Hq) as (Xa & Xc).
    rewrite F2, F1 by assumption. reflexivity.
  - apply actor_forward_frame. intros q Hq. apply F1. exact (Dac q Hq).
  - apply critic_forward_frame. intros q Hq. apply F2.
    intros Hq'. exact (Dac q Hq' Hq).
Qed.

Lemma optimizer_steps_keep_targets_witness :
  exists l loss s1 s2,
    train_head (H := Examples.toy) Examples.trainer0 Examples.batch9 = inr l
    /\ critic_step Examples.trainer0 l = inr (loss, s1)
    /\ actor_step s1 l = inr s2
    /\ forall x, ActorNet.forward (H := Examples.toy) (mem s2) (actor_target s2) x
                 = ActorNet.forward (H := Examples.toy) (mem Examples.trainer0)
                     (actor_target Examples.trainer0) x.
Proof.
  destruct (train (H := Examples.toy) (V := unit) Examples.trainer0 Examples.batch9
              false None) as [e|[self' r]] eqn:E; [vm_compute in E; discriminate E|].
  destruct (train_inv _ _ _ _ _ _ E) as (l & loss & s1 & s2 & Eh & E1 & E2 & _).
  exists l, loss, s1, s2. repeat split; try assumption.
  destruct (optimizer_steps_keep_targets (H := Examples.toy) _ _ _ _ _
              (init_owns _ _ _ _ init_trainer0)
              (init_apart _ _ _ _ init_trainer0) E1 E2) as (T & _).
  exact T.
Defined.

End TrainStep.

(** ** Inference, continued *)

Section InferenceEffects.

Import Tensor Torch Numpy Nets Trainer.
Local Open Scope R_scope.

Lemma get_noise_inv (self self' : Noise.OrnsteinUhlenbeckProcessNoise)
    (g g' : RandomState) (r : vec) :
  Noise.get_noise self g = inr (r, self', g') ->
  self' = self /\ draws g' = draws g
  /\ taken g' = (taken g + Noise.action_dim self)%nat.
Proof.
  unfold Noise.get_noise, randn. intros E.
  destruct (broadcast Rplus _ _) as [e|dx]; [discriminate E|]. cbn [Py.bind] in E.
  destruct (broadcast Rplus _ dx) as [e|r']; [discriminate E|].
  cbn [Py.bind Py.ret] in E. inversion E; subst. repeat split.
Qed.

Lemma add_noise_inv (n : Noise.OrnsteinUhlenbeckProcessNoise) :
  forall (rows ys : mat) (g g' : RandomState) n',
    add_noise rows n g = inr (ys, n', g') ->
    n' = n /\ draws g' = draws g
    /\ taken g' = (taken g + length rows * Noise.action_dim n)%nat
    /\ length ys = length rows.
Proof.
  induction rows as [|x rows IH]; intros ys g g' n' E; cbn [add_noise] in E.
  - inversion E; subst. repeat split. simpl. lia.
  - destruct (Noise.get_noise n g) as [e|[[e1 n1] g1]] eqn:Eg; [discriminate E|].
    cbn [Py.bind] in E. apply get_noise_inv in Eg as (-> & D1 & T1).
    destruct (broadcast Rplus x e1) as [e|y]; [discriminate E|]. cbn [Py.bind] in E.
    destruct (add_noise rows n g1) as [e|[[ys1 n2] g2]] eqn:Er; [discriminate E|].
    cbn [Py.bind Py.ret] in E. inversion E; subst ys n' g'; clear E.
    destruct (IH _ _ _ _ Er) as (-> & D2 & T2 & L2).
    split; [reflexivity|]. split; [congruence|]. split; [|simpl; lia].
    rewrite T2, T1. simpl. lia.
Qed.

Lemma map_result_inv {A B} (f : A -> Py.result B) :
  forall (l : list A) (out : list B),
    map_result f l = inr out -> Forall2 (fun a b => f a = inr b) l out.
Proof.
  induction l as [|a l IH]; intros out E; cbn [map_result] in E.
  - inversion E. constructor.
  - destruct (f a) as [e|b] eqn:Ea; [discriminate E|]. cbn [Py.bind] in E.
    destruct (map_result f l) as [e|bs] eqn:El; [discriminate E|].
    cbn [Py.bind Py.ret] in E. inversion E; subst out.
    constructor; [exact Ea|now apply IH].
Qed.

(** The steps behind a returned call. *)
Lemma internal_prediction_inv `{Backend} (self self' : Trainer.t) (states out : mat)
    (noisy : bool) (g g' : RandomState) :
  internal_prediction self states noisy g = inr (out, self', g') ->
  exists acts ys,
    ActorNet.forward (mem self) (ActorNet.eval (actor self)) states = inr acts
    /\ (if noisy then add_noise acts (Trainer.noise self) g
                      = inr (ys, Trainer.noise self, g')
        else ys = acts /\ g' = g)
    /\ self' = with_actor_noise self (ActorNet.train (actor self)) (Trainer.noise self)
    /\ (if truthy (action_range self)
        then map_result
               (fun action => times (action_range self) (clip (-1) 1 action)) ys
             = inr out
        else out = ys).
Proof.
  unfold internal_prediction. intros E.
  destruct (ActorNet.forward _ _ states) as [e|acts]; [discriminate E|].
  cbn [Py.bind] in E. exists acts.
  destruct noisy.
  - destruct (add_noise acts (Trainer.noise self) g) as [e|[[ys n] g1]] eqn:En;
      [discriminate E|].
    cbn [Py.bind] in E. exists ys.
    destruct (add_noise_inv _ _ _ _ _ _ En) as (-> & _).
    cbn [with_actor_noise action_range] in E.
    destruct (truthy (action_range self)).
    + destruct (map_result _ ys) as [e|out1]; [discriminate E|].
      cbn [Py.bind Py.ret] in E. inversion E; subst. repeat split.
    + cbn [Py.ret] in E. inversion E; subst. repeat split.
  - cbn [Py.bind Py.ret] in E. exists acts.
    cbn [with_actor_noise action_range] in E.
    destruct (truthy (action_range self)).
    + destruct (map_result _ acts) as [e|out1]; [discriminate E|].
      cbn [Py.bind Py.ret] in E. inversion E; subst. repeat split.
    + inversion E; subst. repeat split.
Qed.

(** X20. A call of [internal_prediction] that returns has run the actor
    in evaluation mode and left it in training mode, whatever its mode
    was before. Nothing else of the trainer has changed: no parameter
    tensor, and not the state of the noise process. The result has one
    row per row the actor returned, and numpy's random state has moved
    on by [action_dim] draws per row if [noisy] and not at all
    otherwise. *)
Theorem internal_prediction_effects `{Backend} (self self' : Trainer.t)
    (states out : mat) (noisy : bool) (g g' : RandomState) :
  internal_prediction self states noisy g = inr (out, self', g') ->
  self' = with_actor_noise self (ActorNet.train (actor self)) (Trainer.noise self)
  /\ ActorNet.training (actor self') = true
  /\ mem self' = mem self
  /\ Trainer.noise self' = Trainer.noise self
  /\ draws g' = draws g
  /\ exists acts,
       ActorNet.forward (mem self) (ActorNet.eval (actor self)) states = inr acts
       /\ length out = length acts
       /\ taken g'
          = (if noisy
             then taken g + length acts * Noise.action_dim (Trainer.noise self)
             else taken g)%nat.
Proof.
  intros E.
  destruct (internal_prediction_inv _ _ _ _ _ _ _ E) as (acts & ys & Ef & En & -> & Eo).
  split; [reflexivity|]. split; [reflexivity|]. split; [reflexivity|].
  split; [reflexivity|].
  assert (Lo : length out = length ys).
  { destruct (truthy (action_range self)); [|now subst].
    apply map_result_inv, Forall2_length in Eo. now symmetry. }
  destruct noisy.
  - apply add_noise_inv in En as (_ & D & T & L).
    split; [exact D|]. exists acts. split; [exact Ef|]. split; [congruence|exact T].
  - destruct En as [-> ->]. split; [reflexivity|]. exists acts. auto.
Qed.

Lemma internal_prediction_effects_witness :
  exists out self' g',
    internal_prediction (H := Examples.toy) Examples.trainer0 [[0]; [0]] true
      Examples.counting = inr (out, self', g')
    /\ taken g' = 2%nat /\ mem self' = mem Examples.trainer0.
Proof.
  destruct (internal_prediction (H := Examples.toy) Examples.trainer0 [[0]; [0]] true
              Examples.counting) as [e|[[out self'] g']] eqn:E;
    [vm_compute in E; discriminate E|].
  exists out, self', g'. split; [reflexivity|].
  destruct (internal_prediction_effects (H := Examples.toy) _ _ _ _ _ _ _ E)
    as (_ & _ & M & _ & _ & acts & Ef & _ & T).
  split; [|exact M].
  assert (Ea : acts = [[0]; [0]]) by (vm_compute in Ef; now inversion Ef).
  rewrite T, Ea. reflexivity.
Defined.




End InferenceEffects.

(** ** The Bellman target, continued *)

Section BellmanDataFlow.

Import Tensor Torch Numpy Nets Trainer.
Local Open Scope R_scope.

(** X22. The bootstrap values of the Bellman target come from the
    target networks alone: [q_s2_a2] is the target critic's output on
    the next states joined with the target actor's actions for them,
    both read at the parameters as they are before this call's update,
    while the predictions come from the live critic on the batch's own
    states and actions. In an aligned batch the target of sample [i] is
    [reward + gamma ** time_diff * ((1 - int(terminal)) * q_s2_a2)]:
    the mask is [1 - int(terminal)], so a flag other than 0 and 1 scales
    the bootstrap term instead of switching it. *)
Theorem bellman_target_from_target_networks `{Backend} (self : t)
    (samples : list ndarray) (l : train_locals) :
  train_head self samples = inr l ->
  (exists nsa q2,
     ActorNet.forward (mem self) (actor_target self) (next_states l)
     = inr (next_actions l)
     /\ cat1 (next_states l) (next_actions l) = inr nsa
     /\ CriticNet.forward (mem self) (critic_target self) nsa = inr q2
     /\ squeeze q2 = inr (q_s2_a2 l))
  /\ (exists sa,
        cat1 (states l) (actions l) = inr sa
        /\ CriticNet.forward (mem self) (critic self) sa = inr (q_s1_a1 l)
        /\ squeeze (q_s1_a1 l) = inr (critic_predictions l))
  /\ (length (done l) = length (rewards l) ->
      length (time_diffs l) = length (rewards l) ->
      length (q_s2_a2 l) = length (rewards l) ->
      forall i r d td q,
        rewards l !! i = Some r ->
        done l !! i = Some d ->
        time_diffs l !! i = Some td ->
        q_s2_a2 l !! i = Some q ->
        target_q_values l !! i
        = Some (r + Tensor.pow (gamma self) td * (IZR (1 - d) * q))).
Proof.
  intros E.
  destruct (train_head_inv self samples l E)
    as (a0 & a1 & a2 & a3 & a8 & a5 & sa & nsa & q2 & discount & discounted
        & _ & _ & _ & _ & _ & _ & _ & _ & _ & _ & _ & _ & _ & Hm & Esa & Eq & Ena
        & Ensa & Eq2 & Esq2 & _ & _ & _ & _ & Esq).
  split; [exists nsa, q2; auto|]. split; [exists sa; auto|].
  intros Ld Lt Lq i r d td q Hr Hd Ht Hq.
  apply (target_pointwise self samples l i r (IZR (1 - d)) td q E);
    try assumption.
  - now rewrite Hm, length_map.
  - now rewrite Hm, map_lookup, Hd.
Qed.

Lemma bellman_target_witness :
  exists l,
    train_head (H := Examples.toy) Examples.trainer0 Examples.batch9 = inr l
    /\ exists sa,
         cat1 (states l) (actions l) = inr sa
         /\ CriticNet.forward (H := Examples.toy) (mem Examples.trainer0)
              (critic Examples.trainer0) sa
            = inr (q_s1_a1 l)
         /\ squeeze (q_s1_a1 l) = inr (critic_predictions l).
Proof.
  destruct (train_head (H := Examples.toy) Examples.trainer0 Examples.batch9)
    as [e|l] eqn:E; [vm_compute in E; discriminate E|].
  exists l. split; [reflexivity|].
  destruct (bellman_target_from_target_networks (H := Examples.toy) _ _ _ E)
    as (_ & P & _).
  exact P.
Defined.

End BellmanDataFlow.
